(** * MoonKV, [db/version_edit.h]: version edits and per-file metadata

    A shallow embedding of the header: the two tag enumerations, the packed
    file identity, [FileDescriptor], [FileMetaData] and the mutation API of
    [VersionEdit].  Unsigned machine integers are values of [Z]; where the
    source can wrap (the packing of the path id, the narrowing casts) the
    reduction is written out.  A failing [assert] is the result [None]: the
    model is the header compiled with assertions enabled. *)

From Stdlib Require Import ZArith List String Permutation Lia OrderedTypeEx.
From stdpp Require Import base gmap sets list strings.

Local Open Scope Z_scope.

(** ** Machine integers *)

Definition wrap64 (z : Z) : Z := z mod 2 ^ 64.
Definition wrap32 (z : Z) : Z := z mod 2 ^ 32.

(** [(int)x] for an unsigned [x]: two's complement reading of the low 32 bits. *)
Definition to_int32 (z : Z) : Z :=
  let r := wrap32 z in if r <? 2 ^ 31 then r else r - 2 ^ 32.

(** ** Enumerations

    A C++ enumerator without an initialiser is its predecessor plus one (the
    first one is zero).  The declarations are kept as they are written and
    the values are computed from them. *)

Fixpoint enum_values {A : Type} (next : Z) (decl : list (A * option Z))
  : list (A * Z) :=
  match decl with
  | [] => []
  | (a, init) :: rest =>
      let v := match init with Some v => v | None => next end in
      (a, v) :: enum_values (v + 1) rest
  end.

Fixpoint enum_value {A : Type} `{EqDecision A} (a : A) (vals : list (A * Z))
  : option Z :=
  match vals with
  | [] => None
  | (b, v) :: rest => if decide (a = b) then Some v else enum_value a rest
  end.

Inductive Tag : Type :=
| kComparator | kLogNumber | kNextFileNumber | kLastSequence | kCompactCursor
| kDeletedFile | kNewFile | kPrevLogNumber | kMinLogNumberToKeep
| kNewFile2 | kNewFile3 | kNewFile4
| kColumnFamily | kColumnFamilyAdd | kColumnFamilyDrop | kMaxColumnFamily
| kInAtomicGroup
| kBlobFileAddition | kBlobFileGarbage
| kTagSafeIgnoreMask
| kDbId | kBlobFileAddition_DEPRECATED | kBlobFileGarbage_DEPRECATED
| kWalAddition | kWalDeletion | kFullHistoryTsLow
| kWalAddition2 | kWalDeletion2.

#[global] Instance Tag_eq_dec : EqDecision Tag.
Proof. solve_decision. Defined.

Definition Tag_decl : list (Tag * option Z) :=
  [ (kComparator, Some 1); (kLogNumber, Some 2); (kNextFileNumber, Some 3);
    (kLastSequence, Some 4); (kCompactCursor, Some 5); (kDeletedFile, Some 6);
    (kNewFile, Some 7);
    (kPrevLogNumber, Some 9); (kMinLogNumberToKeep, Some 10);
    (kNewFile2, Some 100); (kNewFile3, Some 102); (kNewFile4, Some 103);
    (kColumnFamily, Some 200); (kColumnFamilyAdd, Some 201);
    (kColumnFamilyDrop, Some 202); (kMaxColumnFamily, Some 203);
    (kInAtomicGroup, Some 300);
    (kBlobFileAddition, Some 400); (kBlobFileGarbage, None);
    (kTagSafeIgnoreMask, Some (Z.shiftl 1 13));
    (kDbId, None); (kBlobFileAddition_DEPRECATED, None);
    (kBlobFileGarbage_DEPRECATED, None); (kWalAddition, None);
    (kWalDeletion, None); (kFullHistoryTsLow, None); (kWalAddition2, None);
    (kWalDeletion2, None) ].

Definition Tag_value (t : Tag) : Z :=
  default 0 (enum_value t (enum_values 0 Tag_decl)).

(** The header's three groups: the records every reader must understand,
    the mask itself, and the records under the comment "Forward compatible
    (aka ignorable) records". *)
Inductive TagGroup : Type := Mandatory | IgnoreMask | ForwardCompatible.

#[global] Instance TagGroup_eq_dec : EqDecision TagGroup.
Proof. solve_decision. Defined.

Definition Tag_group (t : Tag) : TagGroup :=
  match t with
  | kTagSafeIgnoreMask => IgnoreMask
  | kDbId | kBlobFileAddition_DEPRECATED | kBlobFileGarbage_DEPRECATED
  | kWalAddition | kWalDeletion | kFullHistoryTsLow
  | kWalAddition2 | kWalDeletion2 => ForwardCompatible
  | _ => Mandatory
  end.

Definition all_Tags : list Tag := map fst Tag_decl.

(** "A future Tag is ignored by doing '&' between Tag and kTagSafeIgnoreMask". *)
Definition Tag_safe_to_ignore (v : Z) : bool :=
  negb (Z.land v (Tag_value kTagSafeIgnoreMask) =? 0).

Inductive NewFileCustomTag : Type :=
| kTerminate | kNeedCompaction | kMinLogNumberToKeepHack
| kOldestBlobFileNumber | kOldestAncesterTime | kFileCreationTime
| kFileChecksum | kFileChecksumFuncName | kTemperature
| kMinTimestamp | kMaxTimestamp | kUniqueId
| kCustomTagNonSafeIgnoreMask
| kPathId.

#[global] Instance NewFileCustomTag_eq_dec : EqDecision NewFileCustomTag.
Proof. solve_decision. Defined.

Definition NewFileCustomTag_decl : list (NewFileCustomTag * option Z) :=
  [ (kTerminate, Some 1); (kNeedCompaction, Some 2);
    (kMinLogNumberToKeepHack, Some 3); (kOldestBlobFileNumber, Some 4);
    (kOldestAncesterTime, Some 5); (kFileCreationTime, Some 6);
    (kFileChecksum, Some 7); (kFileChecksumFuncName, Some 8);
    (kTemperature, Some 9); (kMinTimestamp, Some 10);
    (kMaxTimestamp, Some 11); (kUniqueId, Some 12);
    (kCustomTagNonSafeIgnoreMask, Some (Z.shiftl 1 6));
    (kPathId, None) ].

Definition NewFileCustomTag_value (t : NewFileCustomTag) : Z :=
  default 0 (enum_value t (enum_values 0 NewFileCustomTag_decl)).

(** Custom tags before the mask may be skipped by a reader that does not
    know them; those under "Forward incompatible (aka unignorable) fields"
    may not. *)
Inductive CustomTagGroup : Type := SafeToSkip | NonSafeIgnoreMask | Unignorable.

#[global] Instance CustomTagGroup_eq_dec : EqDecision CustomTagGroup.
Proof. solve_decision. Defined.

Definition NewFileCustomTag_group (t : NewFileCustomTag) : CustomTagGroup :=
  match t with
  | kCustomTagNonSafeIgnoreMask => NonSafeIgnoreMask
  | kPathId => Unignorable
  | _ => SafeToSkip
  end.

Definition all_NewFileCustomTags : list NewFileCustomTag :=
  map fst NewFileCustomTag_decl.

Definition CustomTag_non_safe_ignore (v : Z) : bool :=
  negb (Z.land v (NewFileCustomTag_value kCustomTagNonSafeIgnoreMask) =? 0).

(** The bounds a tag of each group is to satisfy. *)
Definition Tag_bounds (t : Tag) : Prop :=
  match Tag_group t with
  | Mandatory =>
      Tag_value t < 8192 ∧ Tag_safe_to_ignore (Tag_value t) = false
  | IgnoreMask => Tag_value t = 8192
  | ForwardCompatible =>
      8192 ≤ Tag_value t ∧ Tag_safe_to_ignore (Tag_value t) = true
  end.

Definition NewFileCustomTag_bounds (t : NewFileCustomTag) : Prop :=
  match NewFileCustomTag_group t with
  | SafeToSkip =>
      NewFileCustomTag_value t < 64 ∧
      CustomTag_non_safe_ignore (NewFileCustomTag_value t) = false
  | NonSafeIgnoreMask => NewFileCustomTag_value t = 64
  | Unignorable =>
      64 ≤ NewFileCustomTag_value t ∧
      CustomTag_non_safe_ignore (NewFileCustomTag_value t) = true
  end.

(** ** Packed file identity *)

Definition kFileNumberMask : Z := 0x0FFFFFFFFFFFFFFF.
Definition kUnknownOldestAncesterTime : Z := 0.
Definition kUnknownFileCreationTime : Z := 0.

(** Modelled from the spec: [PackFileNumberAndPathId] is only declared
    ([extern]) in the header, its body is in a file that is not part of the
    sources.  Section 3 of the specification gives it as
    [packed = number | (pathId << 60)] on a 64-bit value, the shift being the
    product [pathId * (mask + 1)] of its invariant. *)
Definition PackFileNumberAndPathId (number path_id : Z) : Z :=
  Z.lor number (wrap64 (path_id * (kFileNumberMask + 1))).

(** ** Declarations of other headers

    The header includes [db/dbformat.h], [db/wal_edit.h],
    [rocksdb/advanced_options.h], [nvm/index/position_key_list.h] and the
    blob headers, none of which is part of the sources.  What it uses of them
    is collected here and every definition and theorem below is stated for an
    arbitrary implementation of this interface. *)

Class External : Type := {
  (* db/dbformat.h *)
  kMaxSequenceNumber : Z;
  InternalKey : Type;
  InternalKey_default : InternalKey;            (* [InternalKey()] *)
  InternalKey_size : InternalKey -> Z;          (* [k.size()] *)
  InternalKey_Valid : InternalKey -> bool;      (* [k.Valid()] *)
  (* rocksdb/advanced_options.h *)
  Temperature : Type;
  Temperature_kUnknown : Temperature;
  (* nvm/index/position_key_list.h *)
  PositionKeyList : Type;
  (* db/blob/blob_constants.h, rocksdb/file_checksum.h *)
  kInvalidBlobFileNumber : Z;
  kUnknownFileChecksum : string;
  kUnknownFileChecksumFuncName : string;
  (* db/wal_edit.h *)
  WalMetadata : Type;
  WalMetadata_default : WalMetadata;            (* [WalMetadata()] *)
  WalDeletion : Type;
  WalDeletion_default : WalDeletion;            (* [WalDeletion()] *)
  WalDeletion_of : Z -> WalDeletion;            (* [WalDeletion(number)] *)
  WalDeletion_IsEmpty : WalDeletion -> bool     (* [d.IsEmpty()] *)
}.

(** The values the header builds with [emplace_back]: the members are the
    constructor arguments it passes. *)
Record BlobFileAddition : Type := {
  blob_file_number : Z;
  total_blob_count : Z;
  total_blob_bytes : Z;
  checksum_method : string;
  checksum_value : string
}.

Record BlobFileGarbage : Type := {
  garbage_blob_file_number : Z;
  garbage_blob_count : Z;
  garbage_blob_bytes : Z
}.

Record WalAddition `{External} : Type := {
  wal_number : Z;
  wal_metadata : WalMetadata
}.

Definition UniqueId64x2 : Type := Z * Z.

(** ** FileDescriptor

    Pointers are [option]s of an address, [nullptr] is [None]. *)

Record FileDescriptor : Type := {
  table_reader : option Z;
  packed_number_and_path_id : Z;
  sub_number_to_reference_key : gmap Z Z;
  father_number_to_reference_key : gmap Z Z;
  file_size : Z;
  sub_file_size : Z;
  smallest_seqno : Z;
  largest_seqno : Z
}.

(** The constructor the others delegate to. *)
Definition FileDescriptor8 (number path_id : Z)
    (_sub_number_to_reference_key _father_number_to_reference_key : gmap Z Z)
    (_file_size _sub_file_size _smallest_seqno _largest_seqno : Z)
  : FileDescriptor :=
  {| table_reader := None;
     packed_number_and_path_id := PackFileNumberAndPathId number path_id;
     sub_number_to_reference_key := _sub_number_to_reference_key;
     father_number_to_reference_key := _father_number_to_reference_key;
     file_size := _file_size;
     sub_file_size := _sub_file_size;
     smallest_seqno := _smallest_seqno;
     largest_seqno := _largest_seqno |}.

Definition FileDescriptor3 `{External} (number path_id _file_size : Z)
  : FileDescriptor :=
  FileDescriptor8 number path_id ∅ ∅ _file_size 0 kMaxSequenceNumber 0.

Definition FileDescriptor0 `{External} : FileDescriptor :=
  FileDescriptor3 0 0 0.

Definition FileDescriptor5
    (number path_id _file_size _smallest_seqno _largest_seqno : Z)
  : FileDescriptor :=
  FileDescriptor8 number path_id ∅ ∅ _file_size 0 _smallest_seqno
    _largest_seqno.

Definition FileDescriptor4 `{External}
    (number path_id _file_size _sub_file_size : Z) : FileDescriptor :=
  FileDescriptor8 number path_id ∅ ∅ _file_size _sub_file_size
    kMaxSequenceNumber 0.

Definition FileDescriptor6
    (number path_id _file_size _sub_file_size _smallest_seqno
       _largest_seqno : Z) : FileDescriptor :=
  FileDescriptor8 number path_id ∅ ∅ _file_size _sub_file_size
    _smallest_seqno _largest_seqno.

Definition GetNumber (fd : FileDescriptor) : Z :=
  Z.land (packed_number_and_path_id fd) kFileNumberMask.

(** The quotient is narrowed to [uint32_t]. *)
Definition GetPathId (fd : FileDescriptor) : Z :=
  wrap32 (packed_number_and_path_id fd / (kFileNumberMask + 1)).

Definition GetFileSize (fd : FileDescriptor) : Z := file_size fd.
Definition GetSubFileSize (fd : FileDescriptor) : Z := sub_file_size fd.

Definition set_smallest_seqno (v : Z) (x : FileDescriptor) : FileDescriptor :=
  {| table_reader := table_reader x;
     packed_number_and_path_id := packed_number_and_path_id x;
     sub_number_to_reference_key := sub_number_to_reference_key x;
     father_number_to_reference_key := father_number_to_reference_key x;
     file_size := file_size x; sub_file_size := sub_file_size x;
     smallest_seqno := v; largest_seqno := largest_seqno x |}.

Definition set_largest_seqno (v : Z) (x : FileDescriptor) : FileDescriptor :=
  {| table_reader := table_reader x;
     packed_number_and_path_id := packed_number_and_path_id x;
     sub_number_to_reference_key := sub_number_to_reference_key x;
     father_number_to_reference_key := father_number_to_reference_key x;
     file_size := file_size x; sub_file_size := sub_file_size x;
     smallest_seqno := smallest_seqno x; largest_seqno := v |}.


(** ** FileMetaData *)

Record FileSampledStats : Type := { num_reads_sampled : Z }.

Record FileMetaData `{External} : Type := {
  fd : FileDescriptor;
  smallest : InternalKey;
  largest : InternalKey;
  table_reader_handle : option Z;
  stats : FileSampledStats;
  compensated_file_size : Z;
  num_entries : Z;
  num_deletions : Z;
  raw_key_size : Z;
  raw_value_size : Z;
  refs : Z;
  is_deleted : bool;
  children_ranks_ : list PositionKeyList;
  total_entries_ : Z;
  reference_entries_ : Z;
  merge_entries_ : Z;
  being_compacted : bool;
  init_stats_from_file : bool;
  marked_for_compaction : bool;
  temperature : Temperature;
  oldest_blob_file_number : Z;
  oldest_ancester_time : Z;
  file_creation_time : Z;
  file_checksum : string;
  file_checksum_func_name : string;
  min_timestamp : string;
  max_timestamp : string;
  unique_id : UniqueId64x2
}.

(** [FileMetaData() = default]: every member has its default initialiser. *)
Definition FileMetaData0 `{External} : FileMetaData :=
  {| fd := FileDescriptor0;
     smallest := InternalKey_default;
     largest := InternalKey_default;
     table_reader_handle := None;
     stats := {| num_reads_sampled := 0 |};
     compensated_file_size := 0;
     num_entries := 0;
     num_deletions := 0;
     raw_key_size := 0;
     raw_value_size := 0;
     refs := 0;
     is_deleted := false;
     children_ranks_ := [];
     total_entries_ := 0;
     reference_entries_ := 0;
     merge_entries_ := 0;
     being_compacted := false;
     init_stats_from_file := false;
     marked_for_compaction := false;
     temperature := Temperature_kUnknown;
     oldest_blob_file_number := kInvalidBlobFileNumber;
     oldest_ancester_time := kUnknownOldestAncesterTime;
     file_creation_time := kUnknownFileCreationTime;
     file_checksum := kUnknownFileChecksum;
     file_checksum_func_name := kUnknownFileChecksumFuncName;
     min_timestamp := EmptyString;
     max_timestamp := EmptyString;
     unique_id := (0, 0) |}.

(** The constructor with [merge_entries]; the members it does not list keep
    their default initialisers. *)
Definition FileMetaData24 `{External} (file file_path_id : Z)
    (children_ranks : list PositionKeyList)
    (total_entries reference_entries merge_entries : Z)
    (sub_number_to_reference_key father_number_to_reference_key : gmap Z Z)
    (file_size sub_file_size : Z) (smallest_key largest_key : InternalKey)
    (smallest_seq largest_seq : Z) (marked_for_compact : bool)
    (_temperature : Temperature)
    (oldest_blob_file _oldest_ancester_time _file_creation_time : Z)
    (_file_checksum _file_checksum_func_name : string)
    (_min_timestamp _max_timestamp : string) (_unique_id : UniqueId64x2)
  : FileMetaData :=
  {| fd := FileDescriptor8 file file_path_id sub_number_to_reference_key
             father_number_to_reference_key file_size sub_file_size
             smallest_seq largest_seq;
     smallest := smallest_key;
     largest := largest_key;
     table_reader_handle := None;
     stats := {| num_reads_sampled := 0 |};
     compensated_file_size := 0;
     num_entries := 0;
     num_deletions := 0;
     raw_key_size := 0;
     raw_value_size := 0;
     refs := 0;
     is_deleted := false;
     children_ranks_ := children_ranks;
     total_entries_ := total_entries;
     reference_entries_ := reference_entries;
     merge_entries_ := merge_entries;
     being_compacted := false;
     init_stats_from_file := false;
     marked_for_compaction := marked_for_compact;
     temperature := _temperature;
     oldest_blob_file_number := oldest_blob_file;
     oldest_ancester_time := _oldest_ancester_time;
     file_creation_time := _file_creation_time;
     file_checksum := _file_checksum;
     file_checksum_func_name := _file_checksum_func_name;
     min_timestamp := _min_timestamp;
     max_timestamp := _max_timestamp;
     unique_id := _unique_id |}.

(** The constructor without [merge_entries]: that member keeps its default. *)
Definition FileMetaData23 `{External} (file file_path_id : Z)
    (children_ranks : list PositionKeyList)
    (total_entries reference_entries : Z)
    (sub_number_to_reference_key father_number_to_reference_key : gmap Z Z)
    (file_size sub_file_size : Z) (smallest_key largest_key : InternalKey)
    (smallest_seq largest_seq : Z) (marked_for_compact : bool)
    (_temperature : Temperature)
    (oldest_blob_file _oldest_ancester_time _file_creation_time : Z)
    (_file_checksum _file_checksum_func_name : string)
    (_min_timestamp _max_timestamp : string) (_unique_id : UniqueId64x2)
  : FileMetaData :=
  FileMetaData24 file file_path_id children_ranks total_entries
    reference_entries 0 sub_number_to_reference_key
    father_number_to_reference_key file_size sub_file_size smallest_key
    largest_key smallest_seq largest_seq marked_for_compact _temperature
    oldest_blob_file _oldest_ancester_time _file_creation_time _file_checksum
    _file_checksum_func_name _min_timestamp _max_timestamp _unique_id.

(** The seventeen-argument constructor delegates with three zeros, two empty
    maps and a zero [sub_file_size]. *)
Definition FileMetaData17 `{External} (file file_path_id file_size : Z)
    (smallest_key largest_key : InternalKey) (smallest_seq largest_seq : Z)
    (marked_for_compact : bool) (_temperature : Temperature)
    (oldest_blob_file _oldest_ancester_time _file_creation_time : Z)
    (_file_checksum _file_checksum_func_name : string)
    (_min_timestamp _max_timestamp : string) (_unique_id : UniqueId64x2)
  : FileMetaData :=
  FileMetaData24 file file_path_id [] 0 0 0 ∅ ∅ file_size 0 smallest_key
    largest_key smallest_seq largest_seq marked_for_compact _temperature
    oldest_blob_file _oldest_ancester_time _file_creation_time _file_checksum
    _file_checksum_func_name _min_timestamp _max_timestamp _unique_id.

Definition set_fd `{External} (v : FileDescriptor) (x : FileMetaData) : FileMetaData :=
  {| fd := v; smallest := smallest x; largest := largest x;
     table_reader_handle := table_reader_handle x; stats := stats x;
     compensated_file_size := compensated_file_size x;
     num_entries := num_entries x; num_deletions := num_deletions x;
     raw_key_size := raw_key_size x; raw_value_size := raw_value_size x;
     refs := refs x; is_deleted := is_deleted x;
     children_ranks_ := children_ranks_ x; total_entries_ := total_entries_ x;
     reference_entries_ := reference_entries_ x;
     merge_entries_ := merge_entries_ x; being_compacted := being_compacted x;
     init_stats_from_file := init_stats_from_file x;
     marked_for_compaction := marked_for_compaction x;
     temperature := temperature x;
     oldest_blob_file_number := oldest_blob_file_number x;
     oldest_ancester_time := oldest_ancester_time x;
     file_creation_time := file_creation_time x;
     file_checksum := file_checksum x;
     file_checksum_func_name := file_checksum_func_name x;
     min_timestamp := min_timestamp x; max_timestamp := max_timestamp x;
     unique_id := unique_id x |}.

Definition set_smallest `{External} (v : InternalKey) (x : FileMetaData) : FileMetaData :=
  {| fd := fd x; smallest := v; largest := largest x;
     table_reader_handle := table_reader_handle x; stats := stats x;
     compensated_file_size := compensated_file_size x;
     num_entries := num_entries x; num_deletions := num_deletions x;
     raw_key_size := raw_key_size x; raw_value_size := raw_value_size x;
     refs := refs x; is_deleted := is_deleted x;
     children_ranks_ := children_ranks_ x; total_entries_ := total_entries_ x;
     reference_entries_ := reference_entries_ x;
     merge_entries_ := merge_entries_ x; being_compacted := being_compacted x;
     init_stats_from_file := init_stats_from_file x;
     marked_for_compaction := marked_for_compaction x;
     temperature := temperature x;
     oldest_blob_file_number := oldest_blob_file_number x;
     oldest_ancester_time := oldest_ancester_time x;
     file_creation_time := file_creation_time x;
     file_checksum := file_checksum x;
     file_checksum_func_name := file_checksum_func_name x;
     min_timestamp := min_timestamp x; max_timestamp := max_timestamp x;
     unique_id := unique_id x |}.

Definition set_largest `{External} (v : InternalKey) (x : FileMetaData) : FileMetaData :=
  {| fd := fd x; smallest := smallest x; largest := v;
     table_reader_handle := table_reader_handle x; stats := stats x;
     compensated_file_size := compensated_file_size x;
     num_entries := num_entries x; num_deletions := num_deletions x;
     raw_key_size := raw_key_size x; raw_value_size := raw_value_size x;
     refs := refs x; is_deleted := is_deleted x;
     children_ranks_ := children_ranks_ x; total_entries_ := total_entries_ x;
     reference_entries_ := reference_entries_ x;
     merge_entries_ := merge_entries_ x; being_compacted := being_compacted x;
     init_stats_from_file := init_stats_from_file x;
     marked_for_compaction := marked_for_compaction x;
     temperature := temperature x;
     oldest_blob_file_number := oldest_blob_file_number x;
     oldest_ancester_time := oldest_ancester_time x;
     file_creation_time := file_creation_time x;
     file_checksum := file_checksum x;
     file_checksum_func_name := file_checksum_func_name x;
     min_timestamp := min_timestamp x; max_timestamp := max_timestamp x;
     unique_id := unique_id x |}.


(** [icmp.Compare] is the argument [icmp]: negative, zero or positive. *)
Definition UpdateBoundariesForRange `{External} (start end_ : InternalKey)
    (seqno : Z) (icmp : InternalKey -> InternalKey -> Z) (f : FileMetaData)
  : FileMetaData :=
  let f1 :=
    if (InternalKey_size (smallest f) =? 0) || (icmp start (smallest f) <? 0)
    then set_smallest start f else f in
  let f2 :=
    if (InternalKey_size (largest f1) =? 0) || (icmp (largest f1) end_ <? 0)
    then set_largest end_ f1 else f1 in
  let f3 :=
    set_fd (set_smallest_seqno (Z.min (smallest_seqno (fd f2)) seqno) (fd f2))
      f2 in
  set_fd (set_largest_seqno (Z.max (largest_seqno (fd f3)) seqno) (fd f3)) f3.

(** ** VersionEdit *)

Record VersionEdit `{External} : Type := {
  max_level_ : Z;
  db_id_ : string;
  comparator_ : string;
  log_number_ : Z;
  prev_log_number_ : Z;
  next_file_number_ : Z;
  max_column_family_ : Z;
  min_log_number_to_keep_ : Z;
  last_sequence_ : Z;
  has_db_id_ : bool;
  has_comparator_ : bool;
  has_log_number_ : bool;
  has_prev_log_number_ : bool;
  has_next_file_number_ : bool;
  has_max_column_family_ : bool;
  has_min_log_number_to_keep_ : bool;
  has_last_sequence_ : bool;
  compact_cursors_ : list (Z * InternalKey);
  deleted_files_ : gset (Z * Z);
  new_files_ : list (Z * FileMetaData);
  new_table_files_ : list FileMetaData;
  new_guard_ : gset (Z * string);
  deleted_guard_ : gset (Z * string);
  blob_file_additions_ : list BlobFileAddition;
  blob_file_garbages_ : list BlobFileGarbage;
  wal_additions_ : list WalAddition;
  wal_deletion_ : WalDeletion;
  column_family_ : Z;
  is_column_family_drop_ : bool;
  is_column_family_add_ : bool;
  column_family_name_ : string;
  is_in_atomic_group_ : bool;
  remaining_entries_ : Z;
  full_history_ts_low_ : string
}.

(** A newly constructed edit: the default member initialisers. *)
Definition VersionEdit0 `{External} : VersionEdit :=
  {| max_level_ := 0;
     db_id_ := EmptyString;
     comparator_ := EmptyString;
     log_number_ := 0;
     prev_log_number_ := 0;
     next_file_number_ := 0;
     max_column_family_ := 0;
     min_log_number_to_keep_ := 0;
     last_sequence_ := 0;
     has_db_id_ := false;
     has_comparator_ := false;
     has_log_number_ := false;
     has_prev_log_number_ := false;
     has_next_file_number_ := false;
     has_max_column_family_ := false;
     has_min_log_number_to_keep_ := false;
     has_last_sequence_ := false;
     compact_cursors_ := [];
     deleted_files_ := ∅;
     new_files_ := [];
     new_table_files_ := [];
     new_guard_ := ∅;
     deleted_guard_ := ∅;
     blob_file_additions_ := [];
     blob_file_garbages_ := [];
     wal_additions_ := [];
     wal_deletion_ := WalDeletion_default;
     column_family_ := 0;
     is_column_family_drop_ := false;
     is_column_family_add_ := false;
     column_family_name_ := EmptyString;
     is_in_atomic_group_ := false;
     remaining_entries_ := 0;
     full_history_ts_low_ := EmptyString |}.

(** *** The setters of the watermark fields *)

Definition SetDBId `{External} (db_id : string) (e : VersionEdit) : VersionEdit :=
  {| max_level_ := max_level_ e; db_id_ := db_id; comparator_ := comparator_ e;
     log_number_ := log_number_ e; prev_log_number_ := prev_log_number_ e;
     next_file_number_ := next_file_number_ e;
     max_column_family_ := max_column_family_ e;
     min_log_number_to_keep_ := min_log_number_to_keep_ e;
     last_sequence_ := last_sequence_ e; has_db_id_ := true;
     has_comparator_ := has_comparator_ e;
     has_log_number_ := has_log_number_ e;
     has_prev_log_number_ := has_prev_log_number_ e;
     has_next_file_number_ := has_next_file_number_ e;
     has_max_column_family_ := has_max_column_family_ e;
     has_min_log_number_to_keep_ := has_min_log_number_to_keep_ e;
     has_last_sequence_ := has_last_sequence_ e;
     compact_cursors_ := compact_cursors_ e;
     deleted_files_ := deleted_files_ e; new_files_ := new_files_ e;
     new_table_files_ := new_table_files_ e; new_guard_ := new_guard_ e;
     deleted_guard_ := deleted_guard_ e;
     blob_file_additions_ := blob_file_additions_ e;
     blob_file_garbages_ := blob_file_garbages_ e;
     wal_additions_ := wal_additions_ e; wal_deletion_ := wal_deletion_ e;
     column_family_ := column_family_ e;
     is_column_family_drop_ := is_column_family_drop_ e;
     is_column_family_add_ := is_column_family_add_ e;
     column_family_name_ := column_family_name_ e;
     is_in_atomic_group_ := is_in_atomic_group_ e;
     remaining_entries_ := remaining_entries_ e;
     full_history_ts_low_ := full_history_ts_low_ e |}.

Definition SetComparatorName `{External} (name : string) (e : VersionEdit) : VersionEdit :=
  {| max_level_ := max_level_ e; db_id_ := db_id_ e; comparator_ := name;
     log_number_ := log_number_ e; prev_log_number_ := prev_log_number_ e;
     next_file_number_ := next_file_number_ e;
     max_column_family_ := max_column_family_ e;
     min_log_number_to_keep_ := min_log_number_to_keep_ e;
     last_sequence_ := last_sequence_ e; has_db_id_ := has_db_id_ e;
     has_comparator_ := true; has_log_number_ := has_log_number_ e;
     has_prev_log_number_ := has_prev_log_number_ e;
     has_next_file_number_ := has_next_file_number_ e;
     has_max_column_family_ := has_max_column_family_ e;
     has_min_log_number_to_keep_ := has_min_log_number_to_keep_ e;
     has_last_sequence_ := has_last_sequence_ e;
     compact_cursors_ := compact_cursors_ e;
     deleted_files_ := deleted_files_ e; new_files_ := new_files_ e;
     new_table_files_ := new_table_files_ e; new_guard_ := new_guard_ e;
     deleted_guard_ := deleted_guard_ e;
     blob_file_additions_ := blob_file_additions_ e;
     blob_file_garbages_ := blob_file_garbages_ e;
     wal_additions_ := wal_additions_ e; wal_deletion_ := wal_deletion_ e;
     column_family_ := column_family_ e;
     is_column_family_drop_ := is_column_family_drop_ e;
     is_column_family_add_ := is_column_family_add_ e;
     column_family_name_ := column_family_name_ e;
     is_in_atomic_group_ := is_in_atomic_group_ e;
     remaining_entries_ := remaining_entries_ e;
     full_history_ts_low_ := full_history_ts_low_ e |}.

Definition SetLogNumber `{External} (num : Z) (e : VersionEdit) : VersionEdit :=
  {| max_level_ := max_level_ e; db_id_ := db_id_ e;
     comparator_ := comparator_ e; log_number_ := num;
     prev_log_number_ := prev_log_number_ e;
     next_file_number_ := next_file_number_ e;
     max_column_family_ := max_column_family_ e;
     min_log_number_to_keep_ := min_log_number_to_keep_ e;
     last_sequence_ := last_sequence_ e; has_db_id_ := has_db_id_ e;
     has_comparator_ := has_comparator_ e; has_log_number_ := true;
     has_prev_log_number_ := has_prev_log_number_ e;
     has_next_file_number_ := has_next_file_number_ e;
     has_max_column_family_ := has_max_column_family_ e;
     has_min_log_number_to_keep_ := has_min_log_number_to_keep_ e;
     has_last_sequence_ := has_last_sequence_ e;
     compact_cursors_ := compact_cursors_ e;
     deleted_files_ := deleted_files_ e; new_files_ := new_files_ e;
     new_table_files_ := new_table_files_ e; new_guard_ := new_guard_ e;
     deleted_guard_ := deleted_guard_ e;
     blob_file_additions_ := blob_file_additions_ e;
     blob_file_garbages_ := blob_file_garbages_ e;
     wal_additions_ := wal_additions_ e; wal_deletion_ := wal_deletion_ e;
     column_family_ := column_family_ e;
     is_column_family_drop_ := is_column_family_drop_ e;
     is_column_family_add_ := is_column_family_add_ e;
     column_family_name_ := column_family_name_ e;
     is_in_atomic_group_ := is_in_atomic_group_ e;
     remaining_entries_ := remaining_entries_ e;
     full_history_ts_low_ := full_history_ts_low_ e |}.

Definition SetPrevLogNumber `{External} (num : Z) (e : VersionEdit) : VersionEdit :=
  {| max_level_ := max_level_ e; db_id_ := db_id_ e;
     comparator_ := comparator_ e; log_number_ := log_number_ e;
     prev_log_number_ := num; next_file_number_ := next_file_number_ e;
     max_column_family_ := max_column_family_ e;
     min_log_number_to_keep_ := min_log_number_to_keep_ e;
     last_sequence_ := last_sequence_ e; has_db_id_ := has_db_id_ e;
     has_comparator_ := has_comparator_ e;
     has_log_number_ := has_log_number_ e; has_prev_log_number_ := true;
     has_next_file_number_ := has_next_file_number_ e;
     has_max_column_family_ := has_max_column_family_ e;
     has_min_log_number_to_keep_ := has_min_log_number_to_keep_ e;
     has_last_sequence_ := has_last_sequence_ e;
     compact_cursors_ := compact_cursors_ e;
     deleted_files_ := deleted_files_ e; new_files_ := new_files_ e;
     new_table_files_ := new_table_files_ e; new_guard_ := new_guard_ e;
     deleted_guard_ := deleted_guard_ e;
     blob_file_additions_ := blob_file_additions_ e;
     blob_file_garbages_ := blob_file_garbages_ e;
     wal_additions_ := wal_additions_ e; wal_deletion_ := wal_deletion_ e;
     column_family_ := column_family_ e;
     is_column_family_drop_ := is_column_family_drop_ e;
     is_column_family_add_ := is_column_family_add_ e;
     column_family_name_ := column_family_name_ e;
     is_in_atomic_group_ := is_in_atomic_group_ e;
     remaining_entries_ := remaining_entries_ e;
     full_history_ts_low_ := full_history_ts_low_ e |}.

Definition SetNextFile `{External} (num : Z) (e : VersionEdit) : VersionEdit :=
  {| max_level_ := max_level_ e; db_id_ := db_id_ e;
     comparator_ := comparator_ e; log_number_ := log_number_ e;
     prev_log_number_ := prev_log_number_ e; next_file_number_ := num;
     max_column_family_ := max_column_family_ e;
     min_log_number_to_keep_ := min_log_number_to_keep_ e;
     last_sequence_ := last_sequence_ e; has_db_id_ := has_db_id_ e;
     has_comparator_ := has_comparator_ e;
     has_log_number_ := has_log_number_ e;
     has_prev_log_number_ := has_prev_log_number_ e;
     has_next_file_number_ := true;
     has_max_column_family_ := has_max_column_family_ e;
     has_min_log_number_to_keep_ := has_min_log_number_to_keep_ e;
     has_last_sequence_ := has_last_sequence_ e;
     compact_cursors_ := compact_cursors_ e;
     deleted_files_ := deleted_files_ e; new_files_ := new_files_ e;
     new_table_files_ := new_table_files_ e; new_guard_ := new_guard_ e;
     deleted_guard_ := deleted_guard_ e;
     blob_file_additions_ := blob_file_additions_ e;
     blob_file_garbages_ := blob_file_garbages_ e;
     wal_additions_ := wal_additions_ e; wal_deletion_ := wal_deletion_ e;
     column_family_ := column_family_ e;
     is_column_family_drop_ := is_column_family_drop_ e;
     is_column_family_add_ := is_column_family_add_ e;
     column_family_name_ := column_family_name_ e;
     is_in_atomic_group_ := is_in_atomic_group_ e;
     remaining_entries_ := remaining_entries_ e;
     full_history_ts_low_ := full_history_ts_low_ e |}.

Definition SetMaxColumnFamily `{External} (max_column_family : Z) (e : VersionEdit) : VersionEdit :=
  {| max_level_ := max_level_ e; db_id_ := db_id_ e;
     comparator_ := comparator_ e; log_number_ := log_number_ e;
     prev_log_number_ := prev_log_number_ e;
     next_file_number_ := next_file_number_ e;
     max_column_family_ := max_column_family;
     min_log_number_to_keep_ := min_log_number_to_keep_ e;
     last_sequence_ := last_sequence_ e; has_db_id_ := has_db_id_ e;
     has_comparator_ := has_comparator_ e;
     has_log_number_ := has_log_number_ e;
     has_prev_log_number_ := has_prev_log_number_ e;
     has_next_file_number_ := has_next_file_number_ e;
     has_max_column_family_ := true;
     has_min_log_number_to_keep_ := has_min_log_number_to_keep_ e;
     has_last_sequence_ := has_last_sequence_ e;
     compact_cursors_ := compact_cursors_ e;
     deleted_files_ := deleted_files_ e; new_files_ := new_files_ e;
     new_table_files_ := new_table_files_ e; new_guard_ := new_guard_ e;
     deleted_guard_ := deleted_guard_ e;
     blob_file_additions_ := blob_file_additions_ e;
     blob_file_garbages_ := blob_file_garbages_ e;
     wal_additions_ := wal_additions_ e; wal_deletion_ := wal_deletion_ e;
     column_family_ := column_family_ e;
     is_column_family_drop_ := is_column_family_drop_ e;
     is_column_family_add_ := is_column_family_add_ e;
     column_family_name_ := column_family_name_ e;
     is_in_atomic_group_ := is_in_atomic_group_ e;
     remaining_entries_ := remaining_entries_ e;
     full_history_ts_low_ := full_history_ts_low_ e |}.

Definition SetMinLogNumberToKeep `{External} (num : Z) (e : VersionEdit) : VersionEdit :=
  {| max_level_ := max_level_ e; db_id_ := db_id_ e;
     comparator_ := comparator_ e; log_number_ := log_number_ e;
     prev_log_number_ := prev_log_number_ e;
     next_file_number_ := next_file_number_ e;
     max_column_family_ := max_column_family_ e;
     min_log_number_to_keep_ := num; last_sequence_ := last_sequence_ e;
     has_db_id_ := has_db_id_ e; has_comparator_ := has_comparator_ e;
     has_log_number_ := has_log_number_ e;
     has_prev_log_number_ := has_prev_log_number_ e;
     has_next_file_number_ := has_next_file_number_ e;
     has_max_column_family_ := has_max_column_family_ e;
     has_min_log_number_to_keep_ := true;
     has_last_sequence_ := has_last_sequence_ e;
     compact_cursors_ := compact_cursors_ e;
     deleted_files_ := deleted_files_ e; new_files_ := new_files_ e;
     new_table_files_ := new_table_files_ e; new_guard_ := new_guard_ e;
     deleted_guard_ := deleted_guard_ e;
     blob_file_additions_ := blob_file_additions_ e;
     blob_file_garbages_ := blob_file_garbages_ e;
     wal_additions_ := wal_additions_ e; wal_deletion_ := wal_deletion_ e;
     column_family_ := column_family_ e;
     is_column_family_drop_ := is_column_family_drop_ e;
     is_column_family_add_ := is_column_family_add_ e;
     column_family_name_ := column_family_name_ e;
     is_in_atomic_group_ := is_in_atomic_group_ e;
     remaining_entries_ := remaining_entries_ e;
     full_history_ts_low_ := full_history_ts_low_ e |}.

Definition SetLastSequence `{External} (seq : Z) (e : VersionEdit) : VersionEdit :=
  {| max_level_ := max_level_ e; db_id_ := db_id_ e;
     comparator_ := comparator_ e; log_number_ := log_number_ e;
     prev_log_number_ := prev_log_number_ e;
     next_file_number_ := next_file_number_ e;
     max_column_family_ := max_column_family_ e;
     min_log_number_to_keep_ := min_log_number_to_keep_ e;
     last_sequence_ := seq; has_db_id_ := has_db_id_ e;
     has_comparator_ := has_comparator_ e;
     has_log_number_ := has_log_number_ e;
     has_prev_log_number_ := has_prev_log_number_ e;
     has_next_file_number_ := has_next_file_number_ e;
     has_max_column_family_ := has_max_column_family_ e;
     has_min_log_number_to_keep_ := has_min_log_number_to_keep_ e;
     has_last_sequence_ := true; compact_cursors_ := compact_cursors_ e;
     deleted_files_ := deleted_files_ e; new_files_ := new_files_ e;
     new_table_files_ := new_table_files_ e; new_guard_ := new_guard_ e;
     deleted_guard_ := deleted_guard_ e;
     blob_file_additions_ := blob_file_additions_ e;
     blob_file_garbages_ := blob_file_garbages_ e;
     wal_additions_ := wal_additions_ e; wal_deletion_ := wal_deletion_ e;
     column_family_ := column_family_ e;
     is_column_family_drop_ := is_column_family_drop_ e;
     is_column_family_add_ := is_column_family_add_ e;
     column_family_name_ := column_family_name_ e;
     is_in_atomic_group_ := is_in_atomic_group_ e;
     remaining_entries_ := remaining_entries_ e;
     full_history_ts_low_ := full_history_ts_low_ e |}.

Definition SetColumnFamily `{External} (column_family_id : Z) (e : VersionEdit) : VersionEdit :=
  {| max_level_ := max_level_ e; db_id_ := db_id_ e;
     comparator_ := comparator_ e; log_number_ := log_number_ e;
     prev_log_number_ := prev_log_number_ e;
     next_file_number_ := next_file_number_ e;
     max_column_family_ := max_column_family_ e;
     min_log_number_to_keep_ := min_log_number_to_keep_ e;
     last_sequence_ := last_sequence_ e; has_db_id_ := has_db_id_ e;
     has_comparator_ := has_comparator_ e;
     has_log_number_ := has_log_number_ e;
     has_prev_log_number_ := has_prev_log_number_ e;
     has_next_file_number_ := has_next_file_number_ e;
     has_max_column_family_ := has_max_column_family_ e;
     has_min_log_number_to_keep_ := has_min_log_number_to_keep_ e;
     has_last_sequence_ := has_last_sequence_ e;
     compact_cursors_ := compact_cursors_ e;
     deleted_files_ := deleted_files_ e; new_files_ := new_files_ e;
     new_table_files_ := new_table_files_ e; new_guard_ := new_guard_ e;
     deleted_guard_ := deleted_guard_ e;
     blob_file_additions_ := blob_file_additions_ e;
     blob_file_garbages_ := blob_file_garbages_ e;
     wal_additions_ := wal_additions_ e; wal_deletion_ := wal_deletion_ e;
     column_family_ := column_family_id;
     is_column_family_drop_ := is_column_family_drop_ e;
     is_column_family_add_ := is_column_family_add_ e;
     column_family_name_ := column_family_name_ e;
     is_in_atomic_group_ := is_in_atomic_group_ e;
     remaining_entries_ := remaining_entries_ e;
     full_history_ts_low_ := full_history_ts_low_ e |}.

Definition MarkAtomicGroup `{External} (remaining_entries : Z) (e : VersionEdit) : VersionEdit :=
  {| max_level_ := max_level_ e; db_id_ := db_id_ e;
     comparator_ := comparator_ e; log_number_ := log_number_ e;
     prev_log_number_ := prev_log_number_ e;
     next_file_number_ := next_file_number_ e;
     max_column_family_ := max_column_family_ e;
     min_log_number_to_keep_ := min_log_number_to_keep_ e;
     last_sequence_ := last_sequence_ e; has_db_id_ := has_db_id_ e;
     has_comparator_ := has_comparator_ e;
     has_log_number_ := has_log_number_ e;
     has_prev_log_number_ := has_prev_log_number_ e;
     has_next_file_number_ := has_next_file_number_ e;
     has_max_column_family_ := has_max_column_family_ e;
     has_min_log_number_to_keep_ := has_min_log_number_to_keep_ e;
     has_last_sequence_ := has_last_sequence_ e;
     compact_cursors_ := compact_cursors_ e;
     deleted_files_ := deleted_files_ e; new_files_ := new_files_ e;
     new_table_files_ := new_table_files_ e; new_guard_ := new_guard_ e;
     deleted_guard_ := deleted_guard_ e;
     blob_file_additions_ := blob_file_additions_ e;
     blob_file_garbages_ := blob_file_garbages_ e;
     wal_additions_ := wal_additions_ e; wal_deletion_ := wal_deletion_ e;
     column_family_ := column_family_ e;
     is_column_family_drop_ := is_column_family_drop_ e;
     is_column_family_add_ := is_column_family_add_ e;
     column_family_name_ := column_family_name_ e; is_in_atomic_group_ := true;
     remaining_entries_ := remaining_entries;
     full_history_ts_low_ := full_history_ts_low_ e |}.

(** *** Assignment to one member

    [set_f v e] is the statement [f = v;] on the edit [e]. *)

Definition set_compact_cursors_ `{External} (v : list (Z * InternalKey)) (e : VersionEdit) : VersionEdit :=
  {| max_level_ := max_level_ e; db_id_ := db_id_ e;
     comparator_ := comparator_ e; log_number_ := log_number_ e;
     prev_log_number_ := prev_log_number_ e;
     next_file_number_ := next_file_number_ e;
     max_column_family_ := max_column_family_ e;
     min_log_number_to_keep_ := min_log_number_to_keep_ e;
     last_sequence_ := last_sequence_ e; has_db_id_ := has_db_id_ e;
     has_comparator_ := has_comparator_ e;
     has_log_number_ := has_log_number_ e;
     has_prev_log_number_ := has_prev_log_number_ e;
     has_next_file_number_ := has_next_file_number_ e;
     has_max_column_family_ := has_max_column_family_ e;
     has_min_log_number_to_keep_ := has_min_log_number_to_keep_ e;
     has_last_sequence_ := has_last_sequence_ e; compact_cursors_ := v;
     deleted_files_ := deleted_files_ e; new_files_ := new_files_ e;
     new_table_files_ := new_table_files_ e; new_guard_ := new_guard_ e;
     deleted_guard_ := deleted_guard_ e;
     blob_file_additions_ := blob_file_additions_ e;
     blob_file_garbages_ := blob_file_garbages_ e;
     wal_additions_ := wal_additions_ e; wal_deletion_ := wal_deletion_ e;
     column_family_ := column_family_ e;
     is_column_family_drop_ := is_column_family_drop_ e;
     is_column_family_add_ := is_column_family_add_ e;
     column_family_name_ := column_family_name_ e;
     is_in_atomic_group_ := is_in_atomic_group_ e;
     remaining_entries_ := remaining_entries_ e;
     full_history_ts_low_ := full_history_ts_low_ e |}.

Definition set_deleted_files_ `{External} (v : gset (Z * Z)) (e : VersionEdit) : VersionEdit :=
  {| max_level_ := max_level_ e; db_id_ := db_id_ e;
     comparator_ := comparator_ e; log_number_ := log_number_ e;
     prev_log_number_ := prev_log_number_ e;
     next_file_number_ := next_file_number_ e;
     max_column_family_ := max_column_family_ e;
     min_log_number_to_keep_ := min_log_number_to_keep_ e;
     last_sequence_ := last_sequence_ e; has_db_id_ := has_db_id_ e;
     has_comparator_ := has_comparator_ e;
     has_log_number_ := has_log_number_ e;
     has_prev_log_number_ := has_prev_log_number_ e;
     has_next_file_number_ := has_next_file_number_ e;
     has_max_column_family_ := has_max_column_family_ e;
     has_min_log_number_to_keep_ := has_min_log_number_to_keep_ e;
     has_last_sequence_ := has_last_sequence_ e;
     compact_cursors_ := compact_cursors_ e; deleted_files_ := v;
     new_files_ := new_files_ e; new_table_files_ := new_table_files_ e;
     new_guard_ := new_guard_ e; deleted_guard_ := deleted_guard_ e;
     blob_file_additions_ := blob_file_additions_ e;
     blob_file_garbages_ := blob_file_garbages_ e;
     wal_additions_ := wal_additions_ e; wal_deletion_ := wal_deletion_ e;
     column_family_ := column_family_ e;
     is_column_family_drop_ := is_column_family_drop_ e;
     is_column_family_add_ := is_column_family_add_ e;
     column_family_name_ := column_family_name_ e;
     is_in_atomic_group_ := is_in_atomic_group_ e;
     remaining_entries_ := remaining_entries_ e;
     full_history_ts_low_ := full_history_ts_low_ e |}.

Definition set_new_files_ `{External} (v : list (Z * FileMetaData)) (e : VersionEdit) : VersionEdit :=
  {| max_level_ := max_level_ e; db_id_ := db_id_ e;
     comparator_ := comparator_ e; log_number_ := log_number_ e;
     prev_log_number_ := prev_log_number_ e;
     next_file_number_ := next_file_number_ e;
     max_column_family_ := max_column_family_ e;
     min_log_number_to_keep_ := min_log_number_to_keep_ e;
     last_sequence_ := last_sequence_ e; has_db_id_ := has_db_id_ e;
     has_comparator_ := has_comparator_ e;
     has_log_number_ := has_log_number_ e;
     has_prev_log_number_ := has_prev_log_number_ e;
     has_next_file_number_ := has_next_file_number_ e;
     has_max_column_family_ := has_max_column_family_ e;
     has_min_log_number_to_keep_ := has_min_log_number_to_keep_ e;
     has_last_sequence_ := has_last_sequence_ e;
     compact_cursors_ := compact_cursors_ e;
     deleted_files_ := deleted_files_ e; new_files_ := v;
     new_table_files_ := new_table_files_ e; new_guard_ := new_guard_ e;
     deleted_guard_ := deleted_guard_ e;
     blob_file_additions_ := blob_file_additions_ e;
     blob_file_garbages_ := blob_file_garbages_ e;
     wal_additions_ := wal_additions_ e; wal_deletion_ := wal_deletion_ e;
     column_family_ := column_family_ e;
     is_column_family_drop_ := is_column_family_drop_ e;
     is_column_family_add_ := is_column_family_add_ e;
     column_family_name_ := column_family_name_ e;
     is_in_atomic_group_ := is_in_atomic_group_ e;
     remaining_entries_ := remaining_entries_ e;
     full_history_ts_low_ := full_history_ts_low_ e |}.

Definition set_new_table_files_ `{External} (v : list FileMetaData) (e : VersionEdit) : VersionEdit :=
  {| max_level_ := max_level_ e; db_id_ := db_id_ e;
     comparator_ := comparator_ e; log_number_ := log_number_ e;
     prev_log_number_ := prev_log_number_ e;
     next_file_number_ := next_file_number_ e;
     max_column_family_ := max_column_family_ e;
     min_log_number_to_keep_ := min_log_number_to_keep_ e;
     last_sequence_ := last_sequence_ e; has_db_id_ := has_db_id_ e;
     has_comparator_ := has_comparator_ e;
     has_log_number_ := has_log_number_ e;
     has_prev_log_number_ := has_prev_log_number_ e;
     has_next_file_number_ := has_next_file_number_ e;
     has_max_column_family_ := has_max_column_family_ e;
     has_min_log_number_to_keep_ := has_min_log_number_to_keep_ e;
     has_last_sequence_ := has_last_sequence_ e;
     compact_cursors_ := compact_cursors_ e;
     deleted_files_ := deleted_files_ e; new_files_ := new_files_ e;
     new_table_files_ := v; new_guard_ := new_guard_ e;
     deleted_guard_ := deleted_guard_ e;
     blob_file_additions_ := blob_file_additions_ e;
     blob_file_garbages_ := blob_file_garbages_ e;
     wal_additions_ := wal_additions_ e; wal_deletion_ := wal_deletion_ e;
     column_family_ := column_family_ e;
     is_column_family_drop_ := is_column_family_drop_ e;
     is_column_family_add_ := is_column_family_add_ e;
     column_family_name_ := column_family_name_ e;
     is_in_atomic_group_ := is_in_atomic_group_ e;
     remaining_entries_ := remaining_entries_ e;
     full_history_ts_low_ := full_history_ts_low_ e |}.

Definition set_new_guard_ `{External} (v : gset (Z * string)) (e : VersionEdit) : VersionEdit :=
  {| max_level_ := max_level_ e; db_id_ := db_id_ e;
     comparator_ := comparator_ e; log_number_ := log_number_ e;
     prev_log_number_ := prev_log_number_ e;
     next_file_number_ := next_file_number_ e;
     max_column_family_ := max_column_family_ e;
     min_log_number_to_keep_ := min_log_number_to_keep_ e;
     last_sequence_ := last_sequence_ e; has_db_id_ := has_db_id_ e;
     has_comparator_ := has_comparator_ e;
     has_log_number_ := has_log_number_ e;
     has_prev_log_number_ := has_prev_log_number_ e;
     has_next_file_number_ := has_next_file_number_ e;
     has_max_column_family_ := has_max_column_family_ e;
     has_min_log_number_to_keep_ := has_min_log_number_to_keep_ e;
     has_last_sequence_ := has_last_sequence_ e;
     compact_cursors_ := compact_cursors_ e;
     deleted_files_ := deleted_files_ e; new_files_ := new_files_ e;
     new_table_files_ := new_table_files_ e; new_guard_ := v;
     deleted_guard_ := deleted_guard_ e;
     blob_file_additions_ := blob_file_additions_ e;
     blob_file_garbages_ := blob_file_garbages_ e;
     wal_additions_ := wal_additions_ e; wal_deletion_ := wal_deletion_ e;
     column_family_ := column_family_ e;
     is_column_family_drop_ := is_column_family_drop_ e;
     is_column_family_add_ := is_column_family_add_ e;
     column_family_name_ := column_family_name_ e;
     is_in_atomic_group_ := is_in_atomic_group_ e;
     remaining_entries_ := remaining_entries_ e;
     full_history_ts_low_ := full_history_ts_low_ e |}.

Definition set_deleted_guard_ `{External} (v : gset (Z * string)) (e : VersionEdit) : VersionEdit :=
  {| max_level_ := max_level_ e; db_id_ := db_id_ e;
     comparator_ := comparator_ e; log_number_ := log_number_ e;
     prev_log_number_ := prev_log_number_ e;
     next_file_number_ := next_file_number_ e;
     max_column_family_ := max_column_family_ e;
     min_log_number_to_keep_ := min_log_number_to_keep_ e;
     last_sequence_ := last_sequence_ e; has_db_id_ := has_db_id_ e;
     has_comparator_ := has_comparator_ e;
     has_log_number_ := has_log_number_ e;
     has_prev_log_number_ := has_prev_log_number_ e;
     has_next_file_number_ := has_next_file_number_ e;
     has_max_column_family_ := has_max_column_family_ e;
     has_min_log_number_to_keep_ := has_min_log_number_to_keep_ e;
     has_last_sequence_ := has_last_sequence_ e;
     compact_cursors_ := compact_cursors_ e;
     deleted_files_ := deleted_files_ e; new_files_ := new_files_ e;
     new_table_files_ := new_table_files_ e; new_guard_ := new_guard_ e;
     deleted_guard_ := v; blob_file_additions_ := blob_file_additions_ e;
     blob_file_garbages_ := blob_file_garbages_ e;
     wal_additions_ := wal_additions_ e; wal_deletion_ := wal_deletion_ e;
     column_family_ := column_family_ e;
     is_column_family_drop_ := is_column_family_drop_ e;
     is_column_family_add_ := is_column_family_add_ e;
     column_family_name_ := column_family_name_ e;
     is_in_atomic_group_ := is_in_atomic_group_ e;
     remaining_entries_ := remaining_entries_ e;
     full_history_ts_low_ := full_history_ts_low_ e |}.

Definition set_blob_file_additions_ `{External} (v : list BlobFileAddition) (e : VersionEdit) : VersionEdit :=
  {| max_level_ := max_level_ e; db_id_ := db_id_ e;
     comparator_ := comparator_ e; log_number_ := log_number_ e;
     prev_log_number_ := prev_log_number_ e;
     next_file_number_ := next_file_number_ e;
     max_column_family_ := max_column_family_ e;
     min_log_number_to_keep_ := min_log_number_to_keep_ e;
     last_sequence_ := last_sequence_ e; has_db_id_ := has_db_id_ e;
     has_comparator_ := has_comparator_ e;
     has_log_number_ := has_log_number_ e;
     has_prev_log_number_ := has_prev_log_number_ e;
     has_next_file_number_ := has_next_file_number_ e;
     has_max_column_family_ := has_max_column_family_ e;
     has_min_log_number_to_keep_ := has_min_log_number_to_keep_ e;
     has_last_sequence_ := has_last_sequence_ e;
     compact_cursors_ := compact_cursors_ e;
     deleted_files_ := deleted_files_ e; new_files_ := new_files_ e;
     new_table_files_ := new_table_files_ e; new_guard_ := new_guard_ e;
     deleted_guard_ := deleted_guard_ e; blob_file_additions_ := v;
     blob_file_garbages_ := blob_file_garbages_ e;
     wal_additions_ := wal_additions_ e; wal_deletion_ := wal_deletion_ e;
     column_family_ := column_family_ e;
     is_column_family_drop_ := is_column_family_drop_ e;
     is_column_family_add_ := is_column_family_add_ e;
     column_family_name_ := column_family_name_ e;
     is_in_atomic_group_ := is_in_atomic_group_ e;
     remaining_entries_ := remaining_entries_ e;
     full_history_ts_low_ := full_history_ts_low_ e |}.

Definition set_blob_file_garbages_ `{External} (v : list BlobFileGarbage) (e : VersionEdit) : VersionEdit :=
  {| max_level_ := max_level_ e; db_id_ := db_id_ e;
     comparator_ := comparator_ e; log_number_ := log_number_ e;
     prev_log_number_ := prev_log_number_ e;
     next_file_number_ := next_file_number_ e;
     max_column_family_ := max_column_family_ e;
     min_log_number_to_keep_ := min_log_number_to_keep_ e;
     last_sequence_ := last_sequence_ e; has_db_id_ := has_db_id_ e;
     has_comparator_ := has_comparator_ e;
     has_log_number_ := has_log_number_ e;
     has_prev_log_number_ := has_prev_log_number_ e;
     has_next_file_number_ := has_next_file_number_ e;
     has_max_column_family_ := has_max_column_family_ e;
     has_min_log_number_to_keep_ := has_min_log_number_to_keep_ e;
     has_last_sequence_ := has_last_sequence_ e;
     compact_cursors_ := compact_cursors_ e;
     deleted_files_ := deleted_files_ e; new_files_ := new_files_ e;
     new_table_files_ := new_table_files_ e; new_guard_ := new_guard_ e;
     deleted_guard_ := deleted_guard_ e;
     blob_file_additions_ := blob_file_additions_ e; blob_file_garbages_ := v;
     wal_additions_ := wal_additions_ e; wal_deletion_ := wal_deletion_ e;
     column_family_ := column_family_ e;
     is_column_family_drop_ := is_column_family_drop_ e;
     is_column_family_add_ := is_column_family_add_ e;
     column_family_name_ := column_family_name_ e;
     is_in_atomic_group_ := is_in_atomic_group_ e;
     remaining_entries_ := remaining_entries_ e;
     full_history_ts_low_ := full_history_ts_low_ e |}.

Definition set_wal_additions_ `{External} (v : list WalAddition) (e : VersionEdit) : VersionEdit :=
  {| max_level_ := max_level_ e; db_id_ := db_id_ e;
     comparator_ := comparator_ e; log_number_ := log_number_ e;
     prev_log_number_ := prev_log_number_ e;
     next_file_number_ := next_file_number_ e;
     max_column_family_ := max_column_family_ e;
     min_log_number_to_keep_ := min_log_number_to_keep_ e;
     last_sequence_ := last_sequence_ e; has_db_id_ := has_db_id_ e;
     has_comparator_ := has_comparator_ e;
     has_log_number_ := has_log_number_ e;
     has_prev_log_number_ := has_prev_log_number_ e;
     has_next_file_number_ := has_next_file_number_ e;
     has_max_column_family_ := has_max_column_family_ e;
     has_min_log_number_to_keep_ := has_min_log_number_to_keep_ e;
     has_last_sequence_ := has_last_sequence_ e;
     compact_cursors_ := compact_cursors_ e;
     deleted_files_ := deleted_files_ e; new_files_ := new_files_ e;
     new_table_files_ := new_table_files_ e; new_guard_ := new_guard_ e;
     deleted_guard_ := deleted_guard_ e;
     blob_file_additions_ := blob_file_additions_ e;
     blob_file_garbages_ := blob_file_garbages_ e; wal_additions_ := v;
     wal_deletion_ := wal_deletion_ e; column_family_ := column_family_ e;
     is_column_family_drop_ := is_column_family_drop_ e;
     is_column_family_add_ := is_column_family_add_ e;
     column_family_name_ := column_family_name_ e;
     is_in_atomic_group_ := is_in_atomic_group_ e;
     remaining_entries_ := remaining_entries_ e;
     full_history_ts_low_ := full_history_ts_low_ e |}.

Definition set_wal_deletion_ `{External} (v : WalDeletion) (e : VersionEdit) : VersionEdit :=
  {| max_level_ := max_level_ e; db_id_ := db_id_ e;
     comparator_ := comparator_ e; log_number_ := log_number_ e;
     prev_log_number_ := prev_log_number_ e;
     next_file_number_ := next_file_number_ e;
     max_column_family_ := max_column_family_ e;
     min_log_number_to_keep_ := min_log_number_to_keep_ e;
     last_sequence_ := last_sequence_ e; has_db_id_ := has_db_id_ e;
     has_comparator_ := has_comparator_ e;
     has_log_number_ := has_log_number_ e;
     has_prev_log_number_ := has_prev_log_number_ e;
     has_next_file_number_ := has_next_file_number_ e;
     has_max_column_family_ := has_max_column_family_ e;
     has_min_log_number_to_keep_ := has_min_log_number_to_keep_ e;
     has_last_sequence_ := has_last_sequence_ e;
     compact_cursors_ := compact_cursors_ e;
     deleted_files_ := deleted_files_ e; new_files_ := new_files_ e;
     new_table_files_ := new_table_files_ e; new_guard_ := new_guard_ e;
     deleted_guard_ := deleted_guard_ e;
     blob_file_additions_ := blob_file_additions_ e;
     blob_file_garbages_ := blob_file_garbages_ e;
     wal_additions_ := wal_additions_ e; wal_deletion_ := v;
     column_family_ := column_family_ e;
     is_column_family_drop_ := is_column_family_drop_ e;
     is_column_family_add_ := is_column_family_add_ e;
     column_family_name_ := column_family_name_ e;
     is_in_atomic_group_ := is_in_atomic_group_ e;
     remaining_entries_ := remaining_entries_ e;
     full_history_ts_low_ := full_history_ts_low_ e |}.

Definition set_is_column_family_drop_ `{External} (v : bool) (e : VersionEdit) : VersionEdit :=
  {| max_level_ := max_level_ e; db_id_ := db_id_ e;
     comparator_ := comparator_ e; log_number_ := log_number_ e;
     prev_log_number_ := prev_log_number_ e;
     next_file_number_ := next_file_number_ e;
     max_column_family_ := max_column_family_ e;
     min_log_number_to_keep_ := min_log_number_to_keep_ e;
     last_sequence_ := last_sequence_ e; has_db_id_ := has_db_id_ e;
     has_comparator_ := has_comparator_ e;
     has_log_number_ := has_log_number_ e;
     has_prev_log_number_ := has_prev_log_number_ e;
     has_next_file_number_ := has_next_file_number_ e;
     has_max_column_family_ := has_max_column_family_ e;
     has_min_log_number_to_keep_ := has_min_log_number_to_keep_ e;
     has_last_sequence_ := has_last_sequence_ e;
     compact_cursors_ := compact_cursors_ e;
     deleted_files_ := deleted_files_ e; new_files_ := new_files_ e;
     new_table_files_ := new_table_files_ e; new_guard_ := new_guard_ e;
     deleted_guard_ := deleted_guard_ e;
     blob_file_additions_ := blob_file_additions_ e;
     blob_file_garbages_ := blob_file_garbages_ e;
     wal_additions_ := wal_additions_ e; wal_deletion_ := wal_deletion_ e;
     column_family_ := column_family_ e; is_column_family_drop_ := v;
     is_column_family_add_ := is_column_family_add_ e;
     column_family_name_ := column_family_name_ e;
     is_in_atomic_group_ := is_in_atomic_group_ e;
     remaining_entries_ := remaining_entries_ e;
     full_history_ts_low_ := full_history_ts_low_ e |}.

Definition set_is_column_family_add_ `{External} (v : bool) (e : VersionEdit) : VersionEdit :=
  {| max_level_ := max_level_ e; db_id_ := db_id_ e;
     comparator_ := comparator_ e; log_number_ := log_number_ e;
     prev_log_number_ := prev_log_number_ e;
     next_file_number_ := next_file_number_ e;
     max_column_family_ := max_column_family_ e;
     min_log_number_to_keep_ := min_log_number_to_keep_ e;
     last_sequence_ := last_sequence_ e; has_db_id_ := has_db_id_ e;
     has_comparator_ := has_comparator_ e;
     has_log_number_ := has_log_number_ e;
     has_prev_log_number_ := has_prev_log_number_ e;
     has_next_file_number_ := has_next_file_number_ e;
     has_max_column_family_ := has_max_column_family_ e;
     has_min_log_number_to_keep_ := has_min_log_number_to_keep_ e;
     has_last_sequence_ := has_last_sequence_ e;
     compact_cursors_ := compact_cursors_ e;
     deleted_files_ := deleted_files_ e; new_files_ := new_files_ e;
     new_table_files_ := new_table_files_ e; new_guard_ := new_guard_ e;
     deleted_guard_ := deleted_guard_ e;
     blob_file_additions_ := blob_file_additions_ e;
     blob_file_garbages_ := blob_file_garbages_ e;
     wal_additions_ := wal_additions_ e; wal_deletion_ := wal_deletion_ e;
     column_family_ := column_family_ e;
     is_column_family_drop_ := is_column_family_drop_ e;
     is_column_family_add_ := v; column_family_name_ := column_family_name_ e;
     is_in_atomic_group_ := is_in_atomic_group_ e;
     remaining_entries_ := remaining_entries_ e;
     full_history_ts_low_ := full_history_ts_low_ e |}.

Definition set_column_family_name_ `{External} (v : string) (e : VersionEdit) : VersionEdit :=
  {| max_level_ := max_level_ e; db_id_ := db_id_ e;
     comparator_ := comparator_ e; log_number_ := log_number_ e;
     prev_log_number_ := prev_log_number_ e;
     next_file_number_ := next_file_number_ e;
     max_column_family_ := max_column_family_ e;
     min_log_number_to_keep_ := min_log_number_to_keep_ e;
     last_sequence_ := last_sequence_ e; has_db_id_ := has_db_id_ e;
     has_comparator_ := has_comparator_ e;
     has_log_number_ := has_log_number_ e;
     has_prev_log_number_ := has_prev_log_number_ e;
     has_next_file_number_ := has_next_file_number_ e;
     has_max_column_family_ := has_max_column_family_ e;
     has_min_log_number_to_keep_ := has_min_log_number_to_keep_ e;
     has_last_sequence_ := has_last_sequence_ e;
     compact_cursors_ := compact_cursors_ e;
     deleted_files_ := deleted_files_ e; new_files_ := new_files_ e;
     new_table_files_ := new_table_files_ e; new_guard_ := new_guard_ e;
     deleted_guard_ := deleted_guard_ e;
     blob_file_additions_ := blob_file_additions_ e;
     blob_file_garbages_ := blob_file_garbages_ e;
     wal_additions_ := wal_additions_ e; wal_deletion_ := wal_deletion_ e;
     column_family_ := column_family_ e;
     is_column_family_drop_ := is_column_family_drop_ e;
     is_column_family_add_ := is_column_family_add_ e;
     column_family_name_ := v; is_in_atomic_group_ := is_in_atomic_group_ e;
     remaining_entries_ := remaining_entries_ e;
     full_history_ts_low_ := full_history_ts_low_ e |}.

Definition set_full_history_ts_low_ `{External} (v : string) (e : VersionEdit) : VersionEdit :=
  {| max_level_ := max_level_ e; db_id_ := db_id_ e;
     comparator_ := comparator_ e; log_number_ := log_number_ e;
     prev_log_number_ := prev_log_number_ e;
     next_file_number_ := next_file_number_ e;
     max_column_family_ := max_column_family_ e;
     min_log_number_to_keep_ := min_log_number_to_keep_ e;
     last_sequence_ := last_sequence_ e; has_db_id_ := has_db_id_ e;
     has_comparator_ := has_comparator_ e;
     has_log_number_ := has_log_number_ e;
     has_prev_log_number_ := has_prev_log_number_ e;
     has_next_file_number_ := has_next_file_number_ e;
     has_max_column_family_ := has_max_column_family_ e;
     has_min_log_number_to_keep_ := has_min_log_number_to_keep_ e;
     has_last_sequence_ := has_last_sequence_ e;
     compact_cursors_ := compact_cursors_ e;
     deleted_files_ := deleted_files_ e; new_files_ := new_files_ e;
     new_table_files_ := new_table_files_ e; new_guard_ := new_guard_ e;
     deleted_guard_ := deleted_guard_ e;
     blob_file_additions_ := blob_file_additions_ e;
     blob_file_garbages_ := blob_file_garbages_ e;
     wal_additions_ := wal_additions_ e; wal_deletion_ := wal_deletion_ e;
     column_family_ := column_family_ e;
     is_column_family_drop_ := is_column_family_drop_ e;
     is_column_family_add_ := is_column_family_add_ e;
     column_family_name_ := column_family_name_ e;
     is_in_atomic_group_ := is_in_atomic_group_ e;
     remaining_entries_ := remaining_entries_ e; full_history_ts_low_ := v |}.


(** *** Accessors *)

Section Accessors.
Context `{External}.

Definition HasDbId (e : VersionEdit) : bool := has_db_id_ e.
Definition GetDbId (e : VersionEdit) : string := db_id_ e.
Definition HasComparatorName (e : VersionEdit) : bool := has_comparator_ e.
Definition GetComparatorName (e : VersionEdit) : string := comparator_ e.
Definition HasLogNumber (e : VersionEdit) : bool := has_log_number_ e.
Definition GetLogNumber (e : VersionEdit) : Z := log_number_ e.
Definition HasPrevLogNumber (e : VersionEdit) : bool :=
  has_prev_log_number_ e.
Definition GetPrevLogNumber (e : VersionEdit) : Z := prev_log_number_ e.
Definition HasNextFile (e : VersionEdit) : bool := has_next_file_number_ e.
Definition GetNextFile (e : VersionEdit) : Z := next_file_number_ e.
Definition HasMaxColumnFamily (e : VersionEdit) : bool :=
  has_max_column_family_ e.
Definition GetMaxColumnFamily (e : VersionEdit) : Z := max_column_family_ e.
Definition HasMinLogNumberToKeep (e : VersionEdit) : bool :=
  has_min_log_number_to_keep_ e.
Definition GetMinLogNumberToKeep (e : VersionEdit) : Z :=
  min_log_number_to_keep_ e.
Definition HasLastSequence (e : VersionEdit) : bool := has_last_sequence_ e.
Definition GetLastSequence (e : VersionEdit) : Z := last_sequence_ e.
Definition GetDeletedFiles (e : VersionEdit) : gset (Z * Z) :=
  deleted_files_ e.
Definition GetNewFiles (e : VersionEdit) : list (Z * FileMetaData) :=
  new_files_ e.
Definition GetNewTableFiles (e : VersionEdit) : list FileMetaData :=
  new_table_files_ e.
Definition GetNewGuards (e : VersionEdit) : gset (Z * string) :=
  new_guard_ e.
Definition GetDeletedGuards (e : VersionEdit) : gset (Z * string) :=
  deleted_guard_ e.
Definition GetCompactCursors (e : VersionEdit) : list (Z * InternalKey) :=
  compact_cursors_ e.
Definition GetBlobFileAdditions (e : VersionEdit) : list BlobFileAddition :=
  blob_file_additions_ e.
Definition GetBlobFileGarbages (e : VersionEdit) : list BlobFileGarbage :=
  blob_file_garbages_ e.
Definition GetWalAdditions (e : VersionEdit) : list WalAddition :=
  wal_additions_ e.
Definition IsWalAddition (e : VersionEdit) : bool :=
  negb (bool_decide (wal_additions_ e = [])).
Definition GetWalDeletion (e : VersionEdit) : WalDeletion := wal_deletion_ e.
Definition IsWalDeletion (e : VersionEdit) : bool :=
  negb (WalDeletion_IsEmpty (wal_deletion_ e)).
Definition GetColumnFamily (e : VersionEdit) : Z := column_family_ e.
Definition IsColumnFamilyManipulation (e : VersionEdit) : bool :=
  is_column_family_add_ e || is_column_family_drop_ e.
Definition IsColumnFamilyAdd (e : VersionEdit) : bool :=
  is_column_family_add_ e.
Definition IsColumnFamilyDrop (e : VersionEdit) : bool :=
  is_column_family_drop_ e.
Definition IsInAtomicGroup (e : VersionEdit) : bool := is_in_atomic_group_ e.
Definition GetRemainingEntries (e : VersionEdit) : Z := remaining_entries_ e.
Definition HasFullHistoryTsLow (e : VersionEdit) : bool :=
  negb (String.eqb (full_history_ts_low_ e) EmptyString).

(** A [bool] added to a [size_t] is 0 or 1. *)
Definition bool_to_Z (b : bool) : Z := if b then 1 else 0.

(** The six containers hold objects in memory, so the sum of their sizes
    is below [2 ^ 64] and the [size_t] additions do not wrap. *)
Definition NumEntries (e : VersionEdit) : Z :=
  Z.of_nat (length (new_files_ e)) + Z.of_nat (size (deleted_files_ e)) +
  Z.of_nat (length (blob_file_additions_ e)) +
  Z.of_nat (length (blob_file_garbages_ e)) +
  Z.of_nat (length (wal_additions_ e)) +
  bool_to_Z (negb (WalDeletion_IsEmpty (wal_deletion_ e))).

Definition IsWalManipulation (e : VersionEdit) : bool :=
  let entries := NumEntries e in
  (0 <? entries) &&
  ((entries =? Z.of_nat (length (wal_additions_ e))) ||
   (entries =? bool_to_Z (negb (WalDeletion_IsEmpty (wal_deletion_ e))))).
End Accessors.

(** *** The mutation API

    A member function whose body has an [assert] returns [option]. *)

Definition assert (c : bool) : option unit := if c then Some tt else None.

Section Mutators.
Context `{External}.

Definition DeleteFile (level file : Z) (e : VersionEdit) : VersionEdit :=
  set_deleted_files_ ({[ (level, file) ]} ∪ deleted_files_ e) e.

(** The tail shared by the five [AddFile] / [AddTableFile] overloads. *)
Definition advance_last_sequence (largest_seqno : Z) (e : VersionEdit)
  : VersionEdit :=
  if negb (HasLastSequence e) || (GetLastSequence e <? largest_seqno)
  then SetLastSequence largest_seqno e else e.

Definition AddFile (level file file_path_id file_size : Z)
    (smallest largest : InternalKey) (smallest_seqno largest_seqno : Z)
    (marked_for_compaction : bool) (temperature : Temperature)
    (oldest_blob_file_number oldest_ancester_time file_creation_time : Z)
    (file_checksum file_checksum_func_name : string)
    (min_timestamp max_timestamp : string) (unique_id : UniqueId64x2)
    (e : VersionEdit) : option VersionEdit :=
  assert (smallest_seqno <=? largest_seqno) ;;
  let e1 :=
    set_new_files_
      (new_files_ e ++
       [(level,
         FileMetaData17 file file_path_id file_size smallest largest
           smallest_seqno largest_seqno marked_for_compaction temperature
           oldest_blob_file_number oldest_ancester_time file_creation_time
           file_checksum file_checksum_func_name min_timestamp
           max_timestamp unique_id)]) e in
  Some (advance_last_sequence largest_seqno e1).

(** The overload for index files: [reference_entries] is [total_entries],
    the father map is empty and [sub_file_size] is zero. *)
Definition AddFile_index (level file file_path_id : Z)
    (children_ranks : list PositionKeyList)
    (total_entries merge_entries : Z)
    (sub_number_to_reference_key : gmap Z Z) (file_size : Z)
    (smallest largest : InternalKey) (smallest_seqno largest_seqno : Z)
    (marked_for_compaction : bool) (temperature : Temperature)
    (oldest_blob_file_number oldest_ancester_time file_creation_time : Z)
    (file_checksum file_checksum_func_name : string)
    (min_timestamp max_timestamp : string) (unique_id : UniqueId64x2)
    (e : VersionEdit) : option VersionEdit :=
  assert (smallest_seqno <=? largest_seqno) ;;
  let e1 :=
    set_new_files_
      (new_files_ e ++
       [(level,
         FileMetaData24 file file_path_id children_ranks total_entries
           total_entries merge_entries sub_number_to_reference_key ∅
           file_size 0 smallest largest smallest_seqno largest_seqno
           marked_for_compaction temperature oldest_blob_file_number
           oldest_ancester_time file_creation_time file_checksum
           file_checksum_func_name min_timestamp max_timestamp
           unique_id)]) e in
  Some (advance_last_sequence largest_seqno e1).

Definition AddFile_meta (level : Z) (f : FileMetaData) (e : VersionEdit)
  : option VersionEdit :=
  assert (smallest_seqno (fd f) <=? largest_seqno (fd f)) ;;
  let e1 := set_new_files_ (new_files_ e ++ [(level, f)]) e in
  Some (advance_last_sequence (largest_seqno (fd f)) e1).

Definition AddTableFile_meta (f : FileMetaData) (e : VersionEdit)
  : option VersionEdit :=
  assert (smallest_seqno (fd f) <=? largest_seqno (fd f)) ;;
  let e1 := set_new_table_files_ (new_table_files_ e ++ [f]) e in
  Some (advance_last_sequence (largest_seqno (fd f)) e1).

(** [total_entries] is a [uint32_t] here and is widened. *)
Definition AddTableFile (file file_path_id total_entries file_size : Z)
    (smallest largest : InternalKey) (smallest_seqno largest_seqno : Z)
    (marked_for_compaction : bool) (temperature : Temperature)
    (oldest_blob_file_number oldest_ancester_time file_creation_time : Z)
    (file_checksum file_checksum_func_name : string)
    (min_timestamp max_timestamp : string) (unique_id : UniqueId64x2)
    (e : VersionEdit) : option VersionEdit :=
  assert (smallest_seqno <=? largest_seqno) ;;
  let e1 :=
    set_new_table_files_
      (new_table_files_ e ++
       [FileMetaData24 file file_path_id [] total_entries 0 0 ∅ ∅ file_size
          0 smallest largest smallest_seqno largest_seqno
          marked_for_compaction temperature oldest_blob_file_number
          oldest_ancester_time file_creation_time file_checksum
          file_checksum_func_name min_timestamp max_timestamp unique_id])
      e in
  Some (advance_last_sequence largest_seqno e1).

Definition AddGuard (level : Z) (guard : string) (e : VersionEdit)
  : VersionEdit :=
  set_new_guard_ ({[ (level, guard) ]} ∪ new_guard_ e) e.

Definition DeleteGuard (level : Z) (guard : string) (e : VersionEdit)
  : VersionEdit :=
  set_deleted_guard_ ({[ (level, guard) ]} ∪ deleted_guard_ e) e.

Definition AddCompactCursor (level : Z) (cursor : InternalKey)
    (e : VersionEdit) : VersionEdit :=
  set_compact_cursors_ (compact_cursors_ e ++ [(level, cursor)]) e.

(** The [for] loop of [SetCompactCursors]: [i] is the loop variable,
    [bound] is [(int)compact_cursors_by_level.size()] and [acc] is
    [compact_cursors_].  The index is below the size whenever the test
    [i < bound] passes, so the last branch is never taken. *)
Fixpoint SetCompactCursors_loop (fuel : nat) (i bound : Z)
    (compact_cursors_by_level : list InternalKey)
    (acc : list (Z * InternalKey)) : list (Z * InternalKey) :=
  match fuel with
  | O => acc
  | S fuel' =>
      if i <? bound then
        match compact_cursors_by_level !! Z.to_nat i with
        | Some k =>
            SetCompactCursors_loop fuel' (i + 1) bound
              compact_cursors_by_level
              (if InternalKey_Valid k then acc ++ [(i, k)] else acc)
        | None => acc
        end
      else acc
  end.

Definition SetCompactCursors (compact_cursors_by_level : list InternalKey)
    (e : VersionEdit) : VersionEdit :=
  let bound := to_int32 (Z.of_nat (length compact_cursors_by_level)) in
  set_compact_cursors_
    (SetCompactCursors_loop (Z.to_nat bound) 0 bound
       compact_cursors_by_level []) e.

Definition AddBlobFile (blob_file_number total_blob_count
    total_blob_bytes : Z) (checksum_method checksum_value : string)
    (e : VersionEdit) : VersionEdit :=
  set_blob_file_additions_
    (blob_file_additions_ e ++
     [Build_BlobFileAddition blob_file_number total_blob_count
        total_blob_bytes checksum_method checksum_value]) e.

Definition AddBlobFile_addition (blob_file_addition : BlobFileAddition)
    (e : VersionEdit) : VersionEdit :=
  set_blob_file_additions_
    (blob_file_additions_ e ++ [blob_file_addition]) e.

Definition SetBlobFileAdditions (blob_file_additions : list BlobFileAddition)
    (e : VersionEdit) : option VersionEdit :=
  assert (bool_decide (blob_file_additions_ e = [])) ;;
  Some (set_blob_file_additions_ blob_file_additions e).

Definition AddBlobFileGarbage (blob_file_number garbage_blob_count
    garbage_blob_bytes : Z) (e : VersionEdit) : VersionEdit :=
  set_blob_file_garbages_
    (blob_file_garbages_ e ++
     [Build_BlobFileGarbage blob_file_number garbage_blob_count
        garbage_blob_bytes]) e.

Definition AddBlobFileGarbage_garbage (blob_file_garbage : BlobFileGarbage)
    (e : VersionEdit) : VersionEdit :=
  set_blob_file_garbages_ (blob_file_garbages_ e ++ [blob_file_garbage]) e.

Definition SetBlobFileGarbages (blob_file_garbages : list BlobFileGarbage)
    (e : VersionEdit) : option VersionEdit :=
  assert (bool_decide (blob_file_garbages_ e = [])) ;;
  Some (set_blob_file_garbages_ blob_file_garbages e).

Definition AddWal (number : Z) (metadata : WalMetadata) (e : VersionEdit)
  : option VersionEdit :=
  assert (NumEntries e =? Z.of_nat (length (wal_additions_ e))) ;;
  Some (set_wal_additions_
          (wal_additions_ e ++ [Build_WalAddition _ number metadata]) e).

Definition DeleteWalsBefore (number : Z) (e : VersionEdit)
  : option VersionEdit :=
  assert (Bool.eqb (NumEntries e =? 1)
            (negb (WalDeletion_IsEmpty (wal_deletion_ e)))) ;;
  Some (set_wal_deletion_ (WalDeletion_of number) e).

Definition AddColumnFamily (name : string) (e : VersionEdit)
  : option VersionEdit :=
  assert (negb (is_column_family_drop_ e)) ;;
  assert (negb (is_column_family_add_ e)) ;;
  assert (NumEntries e =? 0) ;;
  Some (set_column_family_name_ name (set_is_column_family_add_ true e)).

Definition DropColumnFamily (e : VersionEdit) : option VersionEdit :=
  assert (negb (is_column_family_drop_ e)) ;;
  assert (negb (is_column_family_add_ e)) ;;
  assert (NumEntries e =? 0) ;;
  Some (set_is_column_family_drop_ true e).

Definition SetFullHistoryTsLow (full_history_ts_low : string)
    (e : VersionEdit) : option VersionEdit :=
  assert (negb (String.eqb full_history_ts_low EmptyString)) ;;
  Some (set_full_history_ts_low_ full_history_ts_low e).
End Mutators.

(** ** Call sequences

    One constructor per mutating member function of the class that the
    header defines ([Clear] and [DecodeFrom] are only declared there), and
    the run of a sequence of calls against an edit, which stops at the first
    failed assertion. *)

Inductive Call `{External} : Type :=
| CSetDBId (db_id : string)
| CSetComparatorName (name : string)
| CSetLogNumber (num : Z)
| CSetPrevLogNumber (num : Z)
| CSetNextFile (num : Z)
| CSetMaxColumnFamily (max_column_family : Z)
| CSetMinLogNumberToKeep (num : Z)
| CSetLastSequence (seq : Z)
| CDeleteFile (level file : Z)
| CAddFile (level file file_path_id file_size : Z)
    (smallest largest : InternalKey) (smallest_seqno largest_seqno : Z)
    (marked_for_compaction : bool) (temperature : Temperature)
    (oldest_blob_file_number oldest_ancester_time file_creation_time : Z)
    (file_checksum file_checksum_func_name : string)
    (min_timestamp max_timestamp : string) (unique_id : UniqueId64x2)
| CAddFile_index (level file file_path_id : Z)
    (children_ranks : list PositionKeyList) (total_entries merge_entries : Z)
    (sub_number_to_reference_key : gmap Z Z) (file_size : Z)
    (smallest largest : InternalKey) (smallest_seqno largest_seqno : Z)
    (marked_for_compaction : bool) (temperature : Temperature)
    (oldest_blob_file_number oldest_ancester_time file_creation_time : Z)
    (file_checksum file_checksum_func_name : string)
    (min_timestamp max_timestamp : string) (unique_id : UniqueId64x2)
| CAddFile_meta (level : Z) (f : FileMetaData)
| CAddTableFile_meta (f : FileMetaData)
| CAddTableFile (file file_path_id total_entries file_size : Z)
    (smallest largest : InternalKey) (smallest_seqno largest_seqno : Z)
    (marked_for_compaction : bool) (temperature : Temperature)
    (oldest_blob_file_number oldest_ancester_time file_creation_time : Z)
    (file_checksum file_checksum_func_name : string)
    (min_timestamp max_timestamp : string) (unique_id : UniqueId64x2)
| CAddGuard (level : Z) (guard : string)
| CDeleteGuard (level : Z) (guard : string)
| CAddCompactCursor (level : Z) (cursor : InternalKey)
| CSetCompactCursors (compact_cursors_by_level : list InternalKey)
| CAddBlobFile (blob_file_number total_blob_count total_blob_bytes : Z)
    (checksum_method checksum_value : string)
| CAddBlobFile_addition (blob_file_addition : BlobFileAddition)
| CSetBlobFileAdditions (blob_file_additions : list BlobFileAddition)
| CAddBlobFileGarbage (blob_file_number garbage_blob_count
    garbage_blob_bytes : Z)
| CAddBlobFileGarbage_garbage (blob_file_garbage : BlobFileGarbage)
| CSetBlobFileGarbages (blob_file_garbages : list BlobFileGarbage)
| CAddWal (number : Z) (metadata : WalMetadata)
| CDeleteWalsBefore (number : Z)
| CSetColumnFamily (column_family_id : Z)
| CAddColumnFamily (name : string)
| CDropColumnFamily
| CMarkAtomicGroup (remaining_entries : Z)
| CSetFullHistoryTsLow (full_history_ts_low : string).

Section Calls.
Context `{External}.

Definition call (c : Call) (e : VersionEdit) : option VersionEdit :=
  match c with
  | CSetDBId s => Some (SetDBId s e)
  | CSetComparatorName s => Some (SetComparatorName s e)
  | CSetLogNumber n => Some (SetLogNumber n e)
  | CSetPrevLogNumber n => Some (SetPrevLogNumber n e)
  | CSetNextFile n => Some (SetNextFile n e)
  | CSetMaxColumnFamily n => Some (SetMaxColumnFamily n e)
  | CSetMinLogNumberToKeep n => Some (SetMinLogNumberToKeep n e)
  | CSetLastSequence n => Some (SetLastSequence n e)
  | CDeleteFile l n => Some (DeleteFile l n e)
  | CAddFile l n p sz sk lk ss ls m t ob oa fc ck cf mi ma u =>
      AddFile l n p sz sk lk ss ls m t ob oa fc ck cf mi ma u e
  | CAddFile_index l n p cr te me sm sz sk lk ss ls m t ob oa fc ck cf mi
      ma u =>
      AddFile_index l n p cr te me sm sz sk lk ss ls m t ob oa fc ck cf mi
        ma u e
  | CAddFile_meta l f => AddFile_meta l f e
  | CAddTableFile_meta f => AddTableFile_meta f e
  | CAddTableFile n p te sz sk lk ss ls m t ob oa fc ck cf mi ma u =>
      AddTableFile n p te sz sk lk ss ls m t ob oa fc ck cf mi ma u e
  | CAddGuard l g => Some (AddGuard l g e)
  | CDeleteGuard l g => Some (DeleteGuard l g e)
  | CAddCompactCursor l k => Some (AddCompactCursor l k e)
  | CSetCompactCursors v => Some (SetCompactCursors v e)
  | CAddBlobFile n c b m v => Some (AddBlobFile n c b m v e)
  | CAddBlobFile_addition a => Some (AddBlobFile_addition a e)
  | CSetBlobFileAdditions v => SetBlobFileAdditions v e
  | CAddBlobFileGarbage n c b => Some (AddBlobFileGarbage n c b e)
  | CAddBlobFileGarbage_garbage g => Some (AddBlobFileGarbage_garbage g e)
  | CSetBlobFileGarbages v => SetBlobFileGarbages v e
  | CAddWal n m => AddWal n m e
  | CDeleteWalsBefore n => DeleteWalsBefore n e
  | CSetColumnFamily n => Some (SetColumnFamily n e)
  | CAddColumnFamily s => AddColumnFamily s e
  | CDropColumnFamily => DropColumnFamily e
  | CMarkAtomicGroup n => Some (MarkAtomicGroup n e)
  | CSetFullHistoryTsLow s => SetFullHistoryTsLow s e
  end.

Fixpoint run (cs : list Call) (e : VersionEdit) : option VersionEdit :=
  match cs with
  | [] => Some e
  | c :: rest => e' ← call c e; run rest e'
  end.

(** The sequence numbers an [AddFile] / [AddTableFile] call is given:
    [(smallest, largest)]. *)
Definition call_seqnos (c : Call) : option (Z * Z) :=
  match c with
  | CAddFile _ _ _ _ _ _ ss ls _ _ _ _ _ _ _ _ _ _ => Some (ss, ls)
  | CAddFile_index _ _ _ _ _ _ _ _ _ _ ss ls _ _ _ _ _ _ _ _ _ _ =>
      Some (ss, ls)
  | CAddFile_meta _ f => Some (smallest_seqno (fd f), largest_seqno (fd f))
  | CAddTableFile_meta f =>
      Some (smallest_seqno (fd f), largest_seqno (fd f))
  | CAddTableFile _ _ _ _ _ _ ss ls _ _ _ _ _ _ _ _ _ _ => Some (ss, ls)
  | _ => None
  end.

Definition is_add_file (c : Call) : bool :=
  match call_seqnos c with Some _ => true | None => false end.

Definition largest_seqnos (cs : list Call) : list Z :=
  omap (λ c, snd <$> call_seqnos c) cs.

(** [max(s1..sN)] of a non-empty list, by its first element. *)
Definition max_of (s : Z) (rest : list Z) : Z := foldl Z.max s rest.
End Calls.

(** ** Vocabulary of the properties *)

Section Vocabulary.
Context `{External}.

Definition seqno_ordered (f : FileMetaData) : Prop :=
  smallest_seqno (fd f) ≤ largest_seqno (fd f).

(** Every file the edit records, in [new_files_] or [new_table_files_]. *)
Definition recorded_files (e : VersionEdit) : list FileMetaData :=
  map snd (new_files_ e) ++ new_table_files_ e.

(** The file an [AddFile] / [AddTableFile] call has just appended. *)
Definition added_file (c : Call) (e' : VersionEdit) : option FileMetaData :=
  match c with
  | CAddFile _ _ _ _ _ _ _ _ _ _ _ _ _ _ _ _ _ _
  | CAddFile_index _ _ _ _ _ _ _ _ _ _ _ _ _ _ _ _ _ _ _ _ _ _
  | CAddFile_meta _ _ => snd <$> last (new_files_ e')
  | CAddTableFile_meta _
  | CAddTableFile _ _ _ _ _ _ _ _ _ _ _ _ _ _ _ _ _ _ =>
      last (new_table_files_ e')
  | _ => None
  end.

(** The elements of a vector paired with their indices, from [i] on. *)
Fixpoint indexed_from (i : Z) (v : list InternalKey)
  : list (Z * InternalKey) :=
  match v with
  | [] => []
  | k :: rest => (i, k) :: indexed_from (i + 1) rest
  end.

Definition cursor_valid (p : Z * InternalKey) : Prop :=
  InternalKey_Valid p.2 = true.

#[global] Instance cursor_valid_dec (p : Z * InternalKey) :
  Decision (cursor_valid p).
Proof. unfold cursor_valid. apply _. Defined.

Definition cursors_valid (e : VersionEdit) : Prop :=
  Forall cursor_valid (GetCompactCursors e).

(** The cursors a call is given through [AddCompactCursor] are valid. *)
Definition call_cursor_valid (c : Call) : Prop :=
  match c with
  | CAddCompactCursor _ cursor => InternalKey_Valid cursor = true
  | _ => True
  end.

(** The part of [NumEntries] that comes from the five containers. *)
Definition stored_entries (e : VersionEdit) : Z :=
  Z.of_nat (length (new_files_ e)) + Z.of_nat (size (deleted_files_ e)) +
  Z.of_nat (length (blob_file_additions_ e)) +
  Z.of_nat (length (blob_file_garbages_ e)) +
  Z.of_nat (length (wal_additions_ e)).

(** Calls that append to one of the five containers. *)
Definition is_counted (c : Call) : bool :=
  match c with
  | CDeleteFile _ _
  | CAddFile _ _ _ _ _ _ _ _ _ _ _ _ _ _ _ _ _ _
  | CAddFile_index _ _ _ _ _ _ _ _ _ _ _ _ _ _ _ _ _ _ _ _ _ _
  | CAddFile_meta _ _
  | CAddBlobFile _ _ _ _ _ | CAddBlobFile_addition _
  | CAddBlobFileGarbage _ _ _ | CAddBlobFileGarbage_garbage _
  | CAddWal _ _ => true
  | _ => false
  end.

(** Table files, guards and cursors. *)
Definition is_table_guard_cursor (c : Call) : bool :=
  match c with
  | CAddTableFile_meta _
  | CAddTableFile _ _ _ _ _ _ _ _ _ _ _ _ _ _ _ _ _ _
  | CAddGuard _ _ | CDeleteGuard _ _ | CAddCompactCursor _ _ => true
  | _ => false
  end.

(** The two calls that create or drop a column family. *)
Definition is_column_family_call (c : Call) : bool :=
  match c with
  | CAddColumnFamily _ | CDropColumnFamily => true
  | _ => false
  end.

(** The edit with its two column-family markers replaced. *)
Definition with_markers (add drop : bool) (e : VersionEdit) : VersionEdit :=
  set_is_column_family_add_ add (set_is_column_family_drop_ drop e).

(** The two edits agree on the members [NumEntries] reads. *)
Definition same_counted_members (e1 e2 : VersionEdit) : Prop :=
  new_files_ e1 = new_files_ e2 ∧ deleted_files_ e1 = deleted_files_ e2 ∧
  blob_file_additions_ e1 = blob_file_additions_ e2 ∧
  blob_file_garbages_ e1 = blob_file_garbages_ e2 ∧
  wal_additions_ e1 = wal_additions_ e2 ∧
  wal_deletion_ e1 = wal_deletion_ e2.

(** The smallest key after a range starting at [start] is added. *)
Definition pick_smallest (icmp : InternalKey → InternalKey → Z)
    (current start : InternalKey) : InternalKey :=
  if (InternalKey_size current =? 0) || (icmp start current <? 0)
  then start else current.

Definition pick_largest (icmp : InternalKey → InternalKey → Z)
    (current end_ : InternalKey) : InternalKey :=
  if (InternalKey_size current =? 0) || (icmp current end_ <? 0)
  then end_ else current.

(** A file with its two boundary keys and two sequence numbers replaced. *)
Definition with_boundaries (s l : InternalKey) (ss ls : Z)
    (f : FileMetaData) : FileMetaData :=
  set_fd (set_largest_seqno ls (set_smallest_seqno ss (fd f)))
    (set_largest l (set_smallest s f)).

(** A range: start key, end key, sequence number. *)
Definition Range : Type := InternalKey * InternalKey * Z.

Definition apply_ranges (icmp : InternalKey → InternalKey → Z)
    (rs : list Range) (f : FileMetaData) : FileMetaData :=
  foldl (λ g r, UpdateBoundariesForRange r.1.1 r.1.2 r.2 icmp g) f rs.

Definition key_present (k : InternalKey) : Prop := InternalKey_size k ≠ 0.

(** [icmp] orders the non-empty keys totally: [a] is below [b] when
    [icmp a b < 0]. *)
Record total_order (icmp : InternalKey → InternalKey → Z) : Prop := {
  order_irrefl : ∀ a, key_present a → ¬ icmp a a < 0;
  order_trans : ∀ a b c,
    key_present a → key_present b → key_present c →
    icmp a b < 0 → icmp b c < 0 → icmp a c < 0;
  order_total : ∀ a b,
    key_present a → key_present b → icmp a b < 0 ∨ a = b ∨ icmp b a < 0
}.

Definition range_present (r : Range) : Prop :=
  key_present r.1.1 ∧ key_present r.1.2.
End Vocabulary.

(** ** An implementation of the external declarations *)

(** Modelled from the spec: the declarations of [db/dbformat.h],
    [db/wal_edit.h] and the other headers listed with [External], which are
    not part of the sources.  This implementation is used to evaluate the
    model on inputs.  A key is its byte string and is valid when it is not
    empty, which is how section 4.4 of the specification describes a valid
    cursor; the WAL deletion is the "deletion watermark" of section 3, an
    optional number that a new edit does not have. *)

Definition sample_External : External := {|
  kMaxSequenceNumber := 2 ^ 56 - 1;
  InternalKey := string;
  InternalKey_default := EmptyString;
  InternalKey_size := λ k, Z.of_nat (String.length k);
  InternalKey_Valid := λ k, negb (String.eqb k EmptyString);
  Temperature := Z;
  Temperature_kUnknown := 0;
  PositionKeyList := list Z;
  kInvalidBlobFileNumber := 0;
  kUnknownFileChecksum := EmptyString;
  kUnknownFileChecksumFuncName := "Unknown"%string;
  WalMetadata := option Z;
  WalMetadata_default := None;
  WalDeletion := option Z;
  WalDeletion_default := None;
  WalDeletion_of := Some;
  WalDeletion_IsEmpty := λ d, bool_decide (d = None)
|}.

(** The byte-wise comparison of keys, as a three-way result. *)
Definition bytewise_compare (a b : string) : Z :=
  match String.compare a b with Lt => -1 | Eq => 0 | Gt => 1 end.

(** A comparison that looks at the length of the keys only: distinct keys
    of one length compare equal. *)
Definition length_compare (a b : string) : Z :=
  Z.of_nat (String.length a) - Z.of_nat (String.length b).

(** Inputs for the examples. *)
Section Sample_inputs.
#[local] Existing Instance sample_External.

(** Three files with the sequence ranges 3..5, 8..9 and 2..7. *)
Definition sample_file (number smallest_seq largest_seq : Z)
  : FileMetaData :=
  FileMetaData17 number 0 4096 "a"%string "m"%string smallest_seq
    largest_seq false 0 0 0 0 EmptyString EmptyString EmptyString
    EmptyString (0, 0).

Definition sample_adds : list Call :=
  [ CAddFile_meta 0 (sample_file 11 3 5);
    CAddTableFile_meta (sample_file 12 8 9);
    CAddFile 1 13 0 4096 "a"%string "m"%string 2 7 false 0 0 0 0
      EmptyString EmptyString EmptyString EmptyString (0, 0) ].

Definition sample_ranges : list Range :=
  [ ("b"%string, "d"%string, 5); ("a"%string, "c"%string, 9);
    ("c"%string, "e"%string, 2) ].

(** Two ranges, the first with an empty start key. *)
Definition empty_start_ranges : list Range :=
  [ (EmptyString, "x"%string, 1); ("b"%string, "y"%string, 1) ].

(** Two ranges whose start keys have the same length, and so have their
    end keys. *)
Definition equal_length_ranges : list Range :=
  [ ("a"%string, "x"%string, 1); ("b"%string, "y"%string, 1) ].

Definition sample_cursors : list InternalKey :=
  [ "k0"%string; EmptyString; "k2"%string ].
End Sample_inputs.

(** ** The rest of the header *)

(** *** Copies of a descriptor

    [operator=] assigns member by member to the object it is called on. *)

Definition set_table_reader (v : option Z) (x : FileDescriptor) : FileDescriptor :=
  {| table_reader := v;
     packed_number_and_path_id := packed_number_and_path_id x;
     sub_number_to_reference_key := sub_number_to_reference_key x;
     father_number_to_reference_key := father_number_to_reference_key x;
     file_size := file_size x; sub_file_size := sub_file_size x;
     smallest_seqno := smallest_seqno x; largest_seqno := largest_seqno x |}.

Definition set_packed_number_and_path_id (v : Z) (x : FileDescriptor) : FileDescriptor :=
  {| table_reader := table_reader x; packed_number_and_path_id := v;
     sub_number_to_reference_key := sub_number_to_reference_key x;
     father_number_to_reference_key := father_number_to_reference_key x;
     file_size := file_size x; sub_file_size := sub_file_size x;
     smallest_seqno := smallest_seqno x; largest_seqno := largest_seqno x |}.

Definition set_sub_number_to_reference_key (v : gmap Z Z) (x : FileDescriptor) : FileDescriptor :=
  {| table_reader := table_reader x;
     packed_number_and_path_id := packed_number_and_path_id x;
     sub_number_to_reference_key := v;
     father_number_to_reference_key := father_number_to_reference_key x;
     file_size := file_size x; sub_file_size := sub_file_size x;
     smallest_seqno := smallest_seqno x; largest_seqno := largest_seqno x |}.

Definition set_father_number_to_reference_key (v : gmap Z Z) (x : FileDescriptor) : FileDescriptor :=
  {| table_reader := table_reader x;
     packed_number_and_path_id := packed_number_and_path_id x;
     sub_number_to_reference_key := sub_number_to_reference_key x;
     father_number_to_reference_key := v; file_size := file_size x;
     sub_file_size := sub_file_size x; smallest_seqno := smallest_seqno x;
     largest_seqno := largest_seqno x |}.

Definition set_file_size (v : Z) (x : FileDescriptor) : FileDescriptor :=
  {| table_reader := table_reader x;
     packed_number_and_path_id := packed_number_and_path_id x;
     sub_number_to_reference_key := sub_number_to_reference_key x;
     father_number_to_reference_key := father_number_to_reference_key x;
     file_size := v; sub_file_size := sub_file_size x;
     smallest_seqno := smallest_seqno x; largest_seqno := largest_seqno x |}.

Definition set_sub_file_size (v : Z) (x : FileDescriptor) : FileDescriptor :=
  {| table_reader := table_reader x;
     packed_number_and_path_id := packed_number_and_path_id x;
     sub_number_to_reference_key := sub_number_to_reference_key x;
     father_number_to_reference_key := father_number_to_reference_key x;
     file_size := file_size x; sub_file_size := v;
     smallest_seqno := smallest_seqno x; largest_seqno := largest_seqno x |}.

Definition FileDescriptor_assign (this fd : FileDescriptor)
  : FileDescriptor :=
  let this := set_table_reader (table_reader fd) this in
  let this :=
    set_packed_number_and_path_id (packed_number_and_path_id fd) this in
  let this :=
    set_sub_number_to_reference_key (sub_number_to_reference_key fd) this in
  let this :=
    set_father_number_to_reference_key (father_number_to_reference_key fd)
      this in
  let this := set_file_size (file_size fd) this in
  let this := set_sub_file_size (sub_file_size fd) this in
  let this := set_smallest_seqno (smallest_seqno fd) this in
  set_largest_seqno (largest_seqno fd) this.

(** The copy constructor is [{ *this = fd; }] on an object whose members
    have not been given a value: [raw] is whatever they hold. *)
Definition FileDescriptor_copy (raw fd : FileDescriptor) : FileDescriptor :=
  FileDescriptor_assign raw fd.

(** *** Times of a file

    [fd.table_reader->GetTableProperties()] reads the table reader the
    pointer leads to; the argument [GetTableProperties] gives, for an
    address, the properties found there ([None] for a null result).  Of
    the properties the header reads the two times. *)

Record TableProperties : Type := {
  tp_creation_time : Z;
  tp_file_creation_time : Z
}.

Section Times.
Context `{External}.

Definition TryGetOldestAncesterTime
    (GetTableProperties : Z → option TableProperties) (f : FileMetaData)
  : Z :=
  if negb (oldest_ancester_time f =? kUnknownOldestAncesterTime) then
    oldest_ancester_time f
  else
    match table_reader (fd f) with
    | Some reader =>
        match GetTableProperties reader with
        | Some properties => tp_creation_time properties
        | None => kUnknownOldestAncesterTime
        end
    | None => kUnknownOldestAncesterTime
    end.

Definition TryGetFileCreationTime
    (GetTableProperties : Z → option TableProperties) (f : FileMetaData)
  : Z :=
  if negb (file_creation_time f =? kUnknownFileCreationTime) then
    file_creation_time f
  else
    match table_reader (fd f) with
    | Some reader =>
        match GetTableProperties reader with
        | Some properties => tp_file_creation_time properties
        | None => kUnknownFileCreationTime
        end
    | None => kUnknownFileCreationTime
    end.

(** [GetFullHistoryTsLow] asserts that the value is there. *)
Definition GetFullHistoryTsLow (e : VersionEdit) : option string :=
  assert (HasFullHistoryTsLow e) ;; Some (full_history_ts_low_ e).
End Times.

(** *** Vocabulary of the further properties *)

Section Further_vocabulary.
Context `{External}.

(** The pair an [AddFile] call appends to [new_files_]. *)
Definition call_new_file (c : Call) : option (Z * FileMetaData) :=
  match c with
  | CAddFile l n p sz sk lk ss ls m t ob oa fc ck cf mi ma u =>
      Some (l, FileMetaData17 n p sz sk lk ss ls m t ob oa fc ck cf mi ma u)
  | CAddFile_index l n p cr te me sm sz sk lk ss ls m t ob oa fc ck cf mi
      ma u =>
      Some (l, FileMetaData24 n p cr te te me sm ∅ sz 0 sk lk ss ls m t ob
                 oa fc ck cf mi ma u)
  | CAddFile_meta l f => Some (l, f)
  | _ => None
  end.

(** The file an [AddTableFile] call appends to [new_table_files_]. *)
Definition call_new_table_file (c : Call) : option FileMetaData :=
  match c with
  | CAddTableFile_meta f => Some f
  | CAddTableFile n p te sz sk lk ss ls m t ob oa fc ck cf mi ma u =>
      Some (FileMetaData24 n p [] te 0 0 ∅ ∅ sz 0 sk lk ss ls m t ob oa fc
              ck cf mi ma u)
  | _ => None
  end.

Definition call_deleted_file (c : Call) : option (Z * Z) :=
  match c with CDeleteFile l n => Some (l, n) | _ => None end.

Definition call_new_guard (c : Call) : option (Z * string) :=
  match c with CAddGuard l g => Some (l, g) | _ => None end.

Definition call_deleted_guard (c : Call) : option (Z * string) :=
  match c with CDeleteGuard l g => Some (l, g) | _ => None end.

(** By how much a call that passes its assertions changes
    [NumEntries()]. *)
Definition NumEntries_growth (c : Call) (e : VersionEdit) : Z :=
  match c with
  | CDeleteFile l n =>
      if bool_decide ((l, n) ∈ deleted_files_ e) then 0 else 1
  | CAddFile _ _ _ _ _ _ _ _ _ _ _ _ _ _ _ _ _ _
  | CAddFile_index _ _ _ _ _ _ _ _ _ _ _ _ _ _ _ _ _ _ _ _ _ _
  | CAddFile_meta _ _
  | CAddBlobFile _ _ _ _ _ | CAddBlobFile_addition _
  | CAddBlobFileGarbage _ _ _ | CAddBlobFileGarbage_garbage _
  | CAddWal _ _ => 1
  | CSetBlobFileAdditions v => Z.of_nat (length v)
  | CSetBlobFileGarbages v => Z.of_nat (length v)
  | CDeleteWalsBefore n =>
      bool_to_Z (negb (WalDeletion_IsEmpty (WalDeletion_of n))) -
      bool_to_Z (negb (WalDeletion_IsEmpty (wal_deletion_ e)))
  | _ => 0
  end.

(** The has-flag and the value of the seven watermarks that only their
    setter writes. *)
Definition watermarks (e : VersionEdit)
  : (bool * string) * (bool * string) * (bool * Z) * (bool * Z) * (bool * Z)
    * (bool * Z) * (bool * Z) :=
  ((HasDbId e, GetDbId e), (HasComparatorName e, GetComparatorName e),
   (HasLogNumber e, GetLogNumber e),
   (HasPrevLogNumber e, GetPrevLogNumber e),
   (HasNextFile e, GetNextFile e),
   (HasMaxColumnFamily e, GetMaxColumnFamily e),
   (HasMinLogNumberToKeep e, GetMinLogNumberToKeep e)).

(** The same tuple after the call [c]. *)
Definition call_watermarks (c : Call) (e : VersionEdit) :=
  let '(d, cmp, lg, pl, nf, mc, ml) := watermarks e in
  match c with
  | CSetDBId s => ((true, s), cmp, lg, pl, nf, mc, ml)
  | CSetComparatorName s => (d, (true, s), lg, pl, nf, mc, ml)
  | CSetLogNumber n => (d, cmp, (true, n), pl, nf, mc, ml)
  | CSetPrevLogNumber n => (d, cmp, lg, (true, n), nf, mc, ml)
  | CSetNextFile n => (d, cmp, lg, pl, (true, n), mc, ml)
  | CSetMaxColumnFamily n => (d, cmp, lg, pl, nf, (true, n), ml)
  | CSetMinLogNumberToKeep n => (d, cmp, lg, pl, nf, mc, (true, n))
  | _ => (d, cmp, lg, pl, nf, mc, ml)
  end.

(** The edit has no entry but WAL additions, or none but a WAL deletion. *)
Definition only_wal_entries (e : VersionEdit) : Prop :=
  new_files_ e = [] ∧ deleted_files_ e = ∅ ∧
  blob_file_additions_ e = [] ∧ blob_file_garbages_ e = [] ∧
  ((wal_additions_ e ≠ [] ∧
    WalDeletion_IsEmpty (wal_deletion_ e) = true) ∨
   (wal_additions_ e = [] ∧
    WalDeletion_IsEmpty (wal_deletion_ e) = false)).

(** [a] is not above [b]. *)
Definition not_above (icmp : InternalKey → InternalKey → Z)
    (a b : InternalKey) : Prop := ¬ icmp b a < 0.

(** The boundaries of [f] contain the range [r]. *)
Definition covers (icmp : InternalKey → InternalKey → Z) (f : FileMetaData)
    (r : Range) : Prop :=
  not_above icmp (smallest f) r.1.1 ∧ not_above icmp r.1.2 (largest f) ∧
  smallest_seqno (fd f) ≤ r.2 ≤ largest_seqno (fd f).
Definition call_wal_addition (c : Call) : option WalAddition :=
  match c with
  | CAddWal n m => Some (Build_WalAddition _ n m)
  | _ => None
  end.

Definition call_full_history_ts_low (c : Call) : option string :=
  match c with CSetFullHistoryTsLow s => Some s | _ => None end.

(** A table file as the argument overload of [AddTableFile] builds it:
    nothing refers to it yet. *)
Definition unreferenced_table_file (f : FileMetaData) : Prop :=
  reference_entries_ f = 0 ∧ merge_entries_ f = 0 ∧
  children_ranks_ f = [] ∧
  sub_number_to_reference_key (fd f) = ∅ ∧
  father_number_to_reference_key (fd f) = ∅ ∧
  sub_file_size (fd f) = 0 ∧ table_reader (fd f) = None ∧ refs f = 0.

Definition is_AddTableFile_meta (c : Call) : bool :=
  match c with CAddTableFile_meta _ => true | _ => false end.

Definition is_AddWal (c : Call) : bool :=
  match c with CAddWal _ _ => true | _ => false end.
(** The boundaries are set and contain the range. *)
Definition holds_range (icmp : InternalKey → InternalKey → Z)
    (f : FileMetaData) (r : Range) : Prop :=
  covers icmp f r ∧ key_present (smallest f) ∧ key_present (largest f).

(** The edit has no entry that is not a WAL addition. *)
Definition no_entry_but_wal_additions (e : VersionEdit) : Prop :=
  new_files_ e = [] ∧ deleted_files_ e = ∅ ∧
  blob_file_additions_ e = [] ∧ blob_file_garbages_ e = [] ∧
  WalDeletion_IsEmpty (wal_deletion_ e) = true.
End Further_vocabulary.

(** * Properties *)

(** ** Enumerations *)

Example Tag_value_sample :
  map Tag_value [kBlobFileGarbage; kTagSafeIgnoreMask; kDbId; kWalDeletion2]
  = [401; 8192; 8193; 8200].
Proof. reflexivity. Qed.

Example NewFileCustomTag_value_sample :
  map NewFileCustomTag_value [kUniqueId; kCustomTagNonSafeIgnoreMask; kPathId]
  = [12; 64; 65].
Proof. reflexivity. Qed.

(** Every enumerator has a declaration, so [Tag_value] never falls back on
    its default. *)
Lemma Tag_value_declared (t : Tag) :
  enum_value t (enum_values 0 Tag_decl) = Some (Tag_value t).
Proof. destruct t; reflexivity. Qed.

Lemma NewFileCustomTag_value_declared (t : NewFileCustomTag) :
  enum_value t (enum_values 0 NewFileCustomTag_decl)
  = Some (NewFileCustomTag_value t).
Proof. destruct t; reflexivity. Qed.

(** C6. Every mandatory top-level tag (1-10, 100-103, 200-203, 300, 400-401)
    is strictly below 8192 = [1 << 13] = [kTagSafeIgnoreMask], every forward
    compatible tag is at or above it; among the custom tags of a version-4
    new-file record the unignorable one ([kPathId]) is at or above
    64 = [1 << 6] = [kCustomTagNonSafeIgnoreMask] and all the others are
    below it.  The bit test of the header's comment agrees with the bounds. *)
Theorem C6_tag_space_partition :
  (∀ t : Tag, Tag_bounds t) ∧
  map Tag_value (filter (λ t, Tag_group t = Mandatory) all_Tags)
  = [1; 2; 3; 4; 5; 6; 7; 9; 10; 100; 102; 103; 200; 201; 202; 203; 300;
     400; 401] ∧
  map Tag_value (filter (λ t, Tag_group t = ForwardCompatible) all_Tags)
  = [8193; 8194; 8195; 8196; 8197; 8198; 8199; 8200] ∧
  (∀ t : NewFileCustomTag, NewFileCustomTag_bounds t) ∧
  filter (λ t, NewFileCustomTag_group t = Unignorable) all_NewFileCustomTags
  = [kPathId].
Proof.
  repeat split.
  - intros t; destruct t; cbv; intuition congruence.
  - intros t; destruct t; cbv; intuition congruence.
Qed.

(** ** Packed file identity *)

Lemma kFileNumberMask_ones : kFileNumberMask = Z.ones 60.
Proof. reflexivity. Qed.

Lemma pack_disjoint (number path_id : Z) :
  0 ≤ number ≤ kFileNumberMask → 0 ≤ path_id < 16 →
  PackFileNumberAndPathId number path_id = number + path_id * 2 ^ 60.
Proof.
  intros Hn Hp. unfold PackFileNumberAndPathId, wrap64.
  change (kFileNumberMask + 1) with (2 ^ 60).
  rewrite Z.mod_small by (change (2 ^ 64) with (16 * 2 ^ 60); nia).
  rewrite <- Z.lxor_lor, <- Z.add_nocarry_lxor; try reflexivity.
  all: rewrite <- Z.shiftl_mul_pow2 by lia;
    apply Z.bits_inj'; intros i Hi; rewrite Z.land_spec, Z.bits_0;
    destruct (Z.lt_ge_cases i 60) as [Hlt | Hge].
  all: try (rewrite Z.shiftl_spec_low by lia; apply andb_false_r).
  all: rewrite (Z.bits_above_log2 number i); [reflexivity | lia |].
  all: destruct (Z.eq_dec number 0) as [-> | Hne]; [simpl; lia |].
  all: apply Z.lt_le_trans with 60; [| lia];
    apply Z.log2_lt_pow2; [lia |]; unfold kFileNumberMask in Hn; lia.
Qed.

Example pack_sample :
  PackFileNumberAndPathId 7 3 = 0x3000000000000007 ∧
  GetNumber (FileDescriptor5 7 3 0 0 0) = 7 ∧
  GetPathId (FileDescriptor5 7 3 0 0 0) = 3.
Proof. repeat split. Qed.

(** C7, as the specification's invariant restricts it.  For every number of
    at most 60 significant bits and every path id whose product with
    [mask + 1] does not overflow 64 bits (that is, path ids 0 to 15), a
    descriptor built from them returns the number from [GetNumber] and the
    path id from [GetPathId]; the packed value is a 64-bit value and the
    three functions are total. *)
Theorem C7_pack_unpack_roundtrip (number path_id : Z)
    (sub father : gmap Z Z) (size sub_size ss ls : Z) :
  0 ≤ number ≤ kFileNumberMask →
  0 ≤ path_id →
  path_id * (kFileNumberMask + 1) < 2 ^ 64 →
  let d := FileDescriptor8 number path_id sub father size sub_size ss ls in
  GetNumber d = number ∧ GetPathId d = path_id ∧
  0 ≤ packed_number_and_path_id d < 2 ^ 64.
Proof.
  intros Hn Hp0 Hp.
  assert (Hp16 : 0 ≤ path_id < 16)
    by (change (kFileNumberMask + 1) with (2 ^ 60) in Hp;
        change (2 ^ 64) with (16 * 2 ^ 60) in Hp; nia).
  cbn. unfold GetNumber, GetPathId; cbn.
  rewrite pack_disjoint by assumption.
  assert (Hn' : 0 ≤ number < 2 ^ 60) by (unfold kFileNumberMask in Hn; lia).
  repeat split.
  - rewrite kFileNumberMask_ones, Z.land_ones by lia.
    rewrite Z.mod_add by lia. apply Z.mod_small; lia.
  - change (kFileNumberMask + 1) with (2 ^ 60).
    rewrite Z.div_add by lia. rewrite Z.div_small by lia.
    unfold wrap32. apply Z.mod_small; lia.
  - nia.
  - change (2 ^ 64) with (16 * 2 ^ 60); nia.
Qed.

Lemma C7_pack_unpack_roundtrip_witness :
  GetNumber (FileDescriptor8 7 3 ∅ ∅ 0 0 1 2) = 7 ∧
  GetPathId (FileDescriptor8 7 3 ∅ ∅ 0 0 1 2) = 3 ∧
  0 ≤ packed_number_and_path_id (FileDescriptor8 7 3 ∅ ∅ 0 0 1 2) < 2 ^ 64.
Proof.
  apply (C7_pack_unpack_roundtrip 7 3 ∅ ∅ 0 0 1 2);
    unfold kFileNumberMask; lia.
Defined.

(** The claim without the restriction fails: path id 16 is a [uint32_t],
    its product with [mask + 1] is [2 ^ 64], which wraps to zero, and
    [GetPathId] returns 0. *)
Lemma C7_counterexample :
  0 ≤ 1 ≤ kFileNumberMask ∧ 0 ≤ 16 < 2 ^ 32 ∧
  GetNumber (FileDescriptor5 1 16 0 0 0) = 1 ∧
  GetPathId (FileDescriptor5 1 16 0 0 0) = 0 ∧
  GetPathId (FileDescriptor5 1 16 0 0 0) ≠ 16.
Proof. unfold kFileNumberMask. repeat split; try lia; discriminate. Qed.

(** ** Assertions and runs *)

Lemma assert_bind {A : Type} (c : bool) (k : option A) (r : A) :
  (assert c ;; k) = Some r ↔ c = true ∧ k = Some r.
Proof. destruct c; simpl; intuition congruence. Qed.

Lemma assert_bind_None {A : Type} (c : bool) (k : option A) :
  c = false → (assert c ;; k) = None.
Proof. intros ->; reflexivity. Qed.

Lemma assert_bind_is_Some {A : Type} (c : bool) (r : A) :
  is_Some (assert c ;; Some r) ↔ c = true.
Proof.
  destruct c; simpl; split; intros Hs; eauto; try discriminate.
  destruct Hs; discriminate.
Qed.

Ltac assert_inv :=
  repeat match goal with
         | H : (assert _ ;; _) = Some _ |- _ =>
             apply assert_bind in H; destruct H as [? H]
         | H : Some _ = Some _ |- _ => injection H as H
         end.

Section Sequence_numbers.
Context `{External}.

Lemma advance_last_sequence_has (s : Z) (e : VersionEdit) :
  HasLastSequence (advance_last_sequence s e) = true.
Proof.
  unfold advance_last_sequence.
  destruct (HasLastSequence e) eqn:Hh; simpl; [| reflexivity].
  destruct (GetLastSequence e <? s); [reflexivity | exact Hh].
Qed.

Lemma advance_last_sequence_get (s : Z) (e : VersionEdit) :
  GetLastSequence (advance_last_sequence s e)
  = if HasLastSequence e then Z.max (GetLastSequence e) s else s.
Proof.
  unfold advance_last_sequence.
  destruct (HasLastSequence e) eqn:Hh; simpl; [| reflexivity].
  unfold GetLastSequence.
  destruct (Z.ltb_spec (last_sequence_ e) s); simpl; lia.
Qed.

Lemma advance_last_sequence_files (s : Z) (e : VersionEdit) :
  new_files_ (advance_last_sequence s e) = new_files_ e ∧
  new_table_files_ (advance_last_sequence s e) = new_table_files_ e.
Proof.
  unfold advance_last_sequence.
  destruct (negb (HasLastSequence e) || (GetLastSequence e <? s));
    split; reflexivity.
Qed.

(** What an [AddFile] / [AddTableFile] call does to the last sequence. *)
Lemma call_add_file_last_sequence (c : Call) (e e' : VersionEdit)
    (ss ls : Z) :
  call_seqnos c = Some (ss, ls) → call c e = Some e' →
  HasLastSequence e' = true ∧
  GetLastSequence e'
  = (if HasLastSequence e then Z.max (GetLastSequence e) ls else ls).
Proof.
  intros Hc Hr.
  destruct c; simpl in Hc; try discriminate; injection Hc as <- <-;
    simpl in Hr;
    unfold AddFile, AddFile_index, AddFile_meta, AddTableFile_meta,
      AddTableFile in Hr; assert_inv; subst e';
    rewrite advance_last_sequence_has, advance_last_sequence_get;
    split; reflexivity.
Qed.

(** ... and when it passes its assertion. *)
Lemma call_add_file_succeeds (c : Call) (e : VersionEdit) (ss ls : Z) :
  call_seqnos c = Some (ss, ls) → (is_Some (call c e) ↔ ss ≤ ls).
Proof.
  intros Hc.
  destruct c; simpl in Hc; try discriminate; injection Hc as <- <-;
    simpl;
    unfold AddFile, AddFile_index, AddFile_meta, AddTableFile_meta,
      AddTableFile;
    (match goal with
     | |- context [assert (?a <=? ?b)] => destruct (Z.leb_spec a b)
     end); simpl; split; intros Hs; try lia; eauto;
    destruct Hs; discriminate.
Qed.

(** No other call than [SetLastSequence] touches the last sequence. *)
Lemma call_other_last_sequence (c : Call) (e e' : VersionEdit) :
  call_seqnos c = None → (∀ s, c ≠ CSetLastSequence s) →
  call c e = Some e' →
  HasLastSequence e' = HasLastSequence e ∧
  GetLastSequence e' = GetLastSequence e.
Proof.
  intros Hc Hn Hr.
  destruct c; simpl in Hc; try discriminate; simpl in Hr;
    try (exfalso; eapply Hn; reflexivity);
    unfold SetBlobFileAdditions, SetBlobFileGarbages, AddWal,
      DeleteWalsBefore, AddColumnFamily, DropColumnFamily,
      SetFullHistoryTsLow in Hr; assert_inv; subst e';
    split; reflexivity.
Qed.

(** The last sequence after a run without [SetLastSequence]. *)
Lemma run_last_sequence (cs : list Call) (e e' : VersionEdit) :
  Forall (λ c, ∀ s, c ≠ CSetLastSequence s) cs →
  run cs e = Some e' →
  match largest_seqnos cs with
  | [] =>
      HasLastSequence e' = HasLastSequence e ∧
      GetLastSequence e' = GetLastSequence e
  | s :: rest =>
      HasLastSequence e' = true ∧
      GetLastSequence e'
      = if HasLastSequence e
        then max_of (GetLastSequence e) (s :: rest) else max_of s rest
  end.
Proof.
  intros Hn. revert e. induction Hn as [| c cs Hc Hn IH]; intros e Hr.
  - simpl in Hr. injection Hr as <-. split; reflexivity.
  - simpl in Hr. destruct (call c e) as [e1 |] eqn:Hc1; [| discriminate].
    simpl in Hr. specialize (IH e1 Hr).
    change (largest_seqnos (c :: cs))
      with (match snd <$> call_seqnos c with
            | Some s => s :: largest_seqnos cs
            | None => largest_seqnos cs
            end).
    destruct (call_seqnos c) as [[ss ls] |] eqn:Hs; simpl.
    + destruct (call_add_file_last_sequence c e e1 ss ls Hs Hc1)
        as [Hh Hg].
      rewrite Hh, Hg in IH.
      destruct (largest_seqnos cs) as [| s rest].
      * destruct IH as [-> ->]. split; [reflexivity |].
        destruct (HasLastSequence e); reflexivity.
      * destruct IH as [-> ->]. split; [reflexivity |].
        destruct (HasLastSequence e); reflexivity.
    + destruct (call_other_last_sequence c e e1 Hs Hc Hc1) as [Hh Hg].
      rewrite Hh, Hg in IH. exact IH.
Qed.

(** A run of [AddFile] / [AddTableFile] calls that meet their
    precondition passes every assertion. *)
Lemma run_add_files_succeeds (cs : list Call) (e : VersionEdit) :
  Forall (λ c, ∃ ss ls, call_seqnos c = Some (ss, ls) ∧ ss ≤ ls) cs →
  is_Some (run cs e).
Proof.
  intros Hp. revert e.
  induction Hp as [| c cs (ss & ls & Hs & Hle) Hp IH]; intros e;
    [simpl; eauto |].
  simpl. destruct (proj2 (call_add_file_succeeds c e ss ls Hs) Hle)
    as [e1 ->]. simpl. apply IH.
Qed.
End Sequence_numbers.

Section Recorded_sequence_numbers.
Context `{External}.

Lemma call_added_file (c : Call) (e e' : VersionEdit) (ss ls : Z) :
  call_seqnos c = Some (ss, ls) → call c e = Some e' →
  ∃ f, added_file c e' = Some f ∧
       smallest_seqno (fd f) = ss ∧ largest_seqno (fd f) = ls ∧
       (recorded_files e' ≡ₚ f :: recorded_files e).
Proof.
  intros Hc Hr.
  destruct c; simpl in Hc; try discriminate; injection Hc as <- <-;
    simpl in Hr;
    unfold AddFile, AddFile_index, AddFile_meta, AddTableFile_meta,
      AddTableFile in Hr; assert_inv; subst e';
    unfold added_file, recorded_files;
    rewrite ?(proj1 (advance_last_sequence_files _ _)),
      ?(proj2 (advance_last_sequence_files _ _)); simpl;
    rewrite ?last_snoc, ?map_app; simpl;
    (eexists; split; [reflexivity |]; split; [reflexivity |];
     split; [reflexivity |]).
  all: rewrite <- ?app_assoc; simpl.
  all: try (rewrite <- Permutation_middle; reflexivity).
  all: rewrite app_assoc, <- Permutation_cons_append; reflexivity.
Qed.

Lemma call_other_files (c : Call) (e e' : VersionEdit) :
  call_seqnos c = None → call c e = Some e' →
  recorded_files e' = recorded_files e.
Proof.
  intros Hc Hr.
  destruct c; simpl in Hc; try discriminate; simpl in Hr;
    unfold SetBlobFileAdditions, SetBlobFileGarbages, AddWal,
      DeleteWalsBefore, AddColumnFamily, DropColumnFamily,
      SetFullHistoryTsLow in Hr; assert_inv; subst e'; reflexivity.
Qed.

Lemma call_keeps_seqno_order (c : Call) (e e' : VersionEdit) :
  Forall seqno_ordered (recorded_files e) → call c e = Some e' →
  Forall seqno_ordered (recorded_files e').
Proof.
  intros Ho Hr. destruct (call_seqnos c) as [[ss ls] |] eqn:Hs.
  - destruct (call_added_file c e e' ss ls Hs Hr)
      as (f & _ & Hss & Hls & Hp).
    rewrite Hp. constructor; [| exact Ho].
    unfold seqno_ordered. rewrite Hss, Hls.
    apply (call_add_file_succeeds c e ss ls Hs). rewrite Hr. eauto.
  - rewrite (call_other_files c e e' Hs Hr). exact Ho.
Qed.

Lemma UpdateBoundariesForRange_seqnos (start end_ : InternalKey) (seq : Z)
    (icmp : InternalKey → InternalKey → Z) (f : FileMetaData) :
  smallest_seqno (fd (UpdateBoundariesForRange start end_ seq icmp f))
  = Z.min (smallest_seqno (fd f)) seq ∧
  largest_seqno (fd (UpdateBoundariesForRange start end_ seq icmp f))
  = Z.max (largest_seqno (fd f)) seq.
Proof.
  unfold UpdateBoundariesForRange.
  destruct (_ || _); destruct (_ || _); split; reflexivity.
Qed.

(** C2. After [N >= 1] calls of [AddFile] and/or [AddTableFile] (any of
    the five overloads) with largest sequence numbers [s1 .. sN], and no
    call of [SetLastSequence], on an edit whose last sequence was not set,
    [HasLastSequence()] is true and [GetLastSequence()] is
    [max(s1 .. sN)]; on an edit whose last sequence was set the previous
    value takes part in the maximum.  Other calls may come in between; a
    run made of adding calls that meet their precondition
    [smallest_seqno <= largest_seqno] passes every assertion.  A single
    call sets the flag and replaces the current value only when its largest
    sequence number exceeds it. *)
Theorem C2_last_sequence_is_max_of_added :
  (∀ (cs : list Call) (e : VersionEdit),
      Forall (λ c, ∃ ss ls, call_seqnos c = Some (ss, ls) ∧ ss ≤ ls) cs →
      is_Some (run cs e)) ∧
  (∀ (cs : list Call) (e e' : VersionEdit) (s : Z) (rest : list Z),
      Forall (λ c, ∀ seq, c ≠ CSetLastSequence seq) cs →
      run cs e = Some e' →
      largest_seqnos cs = s :: rest →
      HasLastSequence e' = true ∧
      GetLastSequence e'
      = if HasLastSequence e
        then max_of (GetLastSequence e) (s :: rest) else max_of s rest) ∧
  (∀ (c : Call) (e e' : VersionEdit) (ss ls : Z),
      call_seqnos c = Some (ss, ls) → call c e = Some e' →
      HasLastSequence e' = true ∧
      GetLastSequence e'
      = if HasLastSequence e && (ls <=? GetLastSequence e)
        then GetLastSequence e else ls).
Proof.
  split; [exact run_add_files_succeeds |]. split.
  - intros cs e e' s rest Hn Hr Hl.
    pose proof (run_last_sequence cs e e' Hn Hr) as Hrun.
    rewrite Hl in Hrun. exact Hrun.
  - intros c e e' ss ls Hs Hr.
    destruct (call_add_file_last_sequence c e e' ss ls Hs Hr) as [-> ->].
    split; [reflexivity |].
    destruct (HasLastSequence e); simpl; [| reflexivity].
    destruct (Z.leb_spec ls (GetLastSequence e)); lia.
Qed.

(** C3, as the code has it.  The order [smallest_seqno <= largest_seqno]
    is checked by the assertions of [AddFile] and [AddTableFile] and by
    nothing else: the constructors of [FileDescriptor] and [FileMetaData]
    store the two numbers they are given, and those without sequence
    arguments store the empty range [kMaxSequenceNumber], 0.  Each of the
    five adding calls passes its assertion exactly when
    [smallest_seqno <= largest_seqno] and then records the file with the
    two numbers unchanged, so every file recorded by a run of calls is
    ordered if those recorded before were; [UpdateBoundariesForRange]
    always leaves the two numbers ordered. *)
Theorem C3_seqno_order_checked_by_add_calls :
  (∀ (number path_id : Z) (sub father : gmap Z Z) (size sub_size ss ls : Z),
      let d := FileDescriptor8 number path_id sub father size sub_size
                 ss ls in
      smallest_seqno d = ss ∧ largest_seqno d = ls) ∧
  (∀ number path_id size sub_size : Z,
      smallest_seqno (FileDescriptor3 number path_id size)
      = kMaxSequenceNumber ∧
      largest_seqno (FileDescriptor3 number path_id size) = 0 ∧
      smallest_seqno (FileDescriptor4 number path_id size sub_size)
      = kMaxSequenceNumber ∧
      largest_seqno (FileDescriptor4 number path_id size sub_size) = 0 ∧
      smallest_seqno (fd FileMetaData0) = kMaxSequenceNumber ∧
      largest_seqno (fd FileMetaData0) = 0) ∧
  (∀ (c : Call) (e : VersionEdit) (ss ls : Z),
      call_seqnos c = Some (ss, ls) → (is_Some (call c e) ↔ ss ≤ ls)) ∧
  (∀ (c : Call) (e e' : VersionEdit) (ss ls : Z),
      call_seqnos c = Some (ss, ls) → call c e = Some e' →
      ∃ f, added_file c e' = Some f ∧
           smallest_seqno (fd f) = ss ∧ largest_seqno (fd f) = ls) ∧
  (∀ (cs : list Call) (e e' : VersionEdit),
      Forall seqno_ordered (recorded_files e) → run cs e = Some e' →
      Forall seqno_ordered (recorded_files e')) ∧
  (∀ (start end_ : InternalKey) (seq : Z)
      (icmp : InternalKey → InternalKey → Z) (f : FileMetaData),
      seqno_ordered (UpdateBoundariesForRange start end_ seq icmp f)).
Proof.
  split; [intros; split; reflexivity |].
  split; [intros; repeat split; reflexivity |].
  split; [exact call_add_file_succeeds |].
  split.
  { intros c e e' ss ls Hs Hr.
    destruct (call_added_file c e e' ss ls Hs Hr) as (f & ? & ? & ? & _).
    eauto. }
  split.
  - intros cs. induction cs as [| c cs IH]; intros e e' Ho Hr.
    + injection Hr as <-. exact Ho.
    + simpl in Hr.
      destruct (call c e) as [e1 |] eqn:Hc; [| discriminate].
      eapply IH; [| exact Hr]. eapply call_keeps_seqno_order; eauto.
  - intros. unfold seqno_ordered.
    destruct (UpdateBoundariesForRange_seqnos start end_ seq icmp f)
      as [-> ->]. lia.
Qed.
End Recorded_sequence_numbers.

(** The claim as it is written fails on the constructors: the one with two
    sequence arguments stores 5 and 3 as they come. *)
Lemma C3_counterexample :
  smallest_seqno (FileDescriptor5 1 0 10 5 3) = 5 ∧
  largest_seqno (FileDescriptor5 1 0 10 5 3) = 3 ∧
  ¬ (smallest_seqno (FileDescriptor5 1 0 10 5 3)
     ≤ largest_seqno (FileDescriptor5 1 0 10 5 3)).
Proof. repeat split. simpl. lia. Qed.

(** ** Compaction cursors *)

Section Compact_cursors.
Context `{External}.

Lemma elem_of_indexed_from (v : list InternalKey) (j i : Z)
    (k : InternalKey) :
  (i, k) ∈ indexed_from j v ↔ j ≤ i ∧ v !! Z.to_nat (i - j) = Some k.
Proof.
  revert j. induction v as [| x v IH]; intros j; simpl.
  - rewrite elem_of_nil. rewrite lookup_nil. intuition discriminate.
  - rewrite elem_of_cons, IH. split.
    + intros [Heq | [Hle Hl]].
      * injection Heq as -> ->. rewrite Z.sub_diag. simpl. split; [lia | done].
      * split; [lia |].
        replace (Z.to_nat (i - j)) with (S (Z.to_nat (i - (j + 1))))
          by lia. exact Hl.
    + intros [Hle Hl]. destruct (Z.eq_dec i j) as [-> | Hne].
      * rewrite Z.sub_diag in Hl. simpl in Hl. injection Hl as ->.
        left; reflexivity.
      * right. split; [lia |].
        replace (Z.to_nat (i - j)) with (S (Z.to_nat (i - (j + 1))))
          in Hl by lia. exact Hl.
Qed.

Lemma SetCompactCursors_loop_spec (v : list InternalKey) (fuel : nat)
    (i : Z) (acc : list (Z * InternalKey)) :
  0 ≤ i ≤ Z.of_nat (length v) →
  Z.of_nat (length v) - i ≤ Z.of_nat fuel →
  SetCompactCursors_loop fuel i (Z.of_nat (length v)) v acc
  = acc ++ filter cursor_valid (indexed_from i (drop (Z.to_nat i) v)).
Proof.
  revert i acc. induction fuel as [| fuel IH]; intros i acc Hi Hf.
  - simpl. rewrite drop_ge by lia. simpl. symmetry; apply app_nil_r.
  - simpl. destruct (Z.ltb_spec i (Z.of_nat (length v))) as [Hlt | Hge].
    + destruct (lookup_lt_is_Some_2 v (Z.to_nat i)) as [k Hk]; [lia |].
      rewrite Hk. rewrite IH by lia.
      rewrite (drop_S v k (Z.to_nat i) Hk). simpl.
      replace (Z.to_nat (i + 1)) with (S (Z.to_nat i)) by lia.
      destruct (InternalKey_Valid k) eqn:Hv.
      * rewrite filter_cons_True by exact Hv.
        rewrite <- app_assoc. reflexivity.
      * rewrite filter_cons_False
          by (unfold cursor_valid; simpl; congruence).
        reflexivity.
    + rewrite drop_ge by lia. simpl. symmetry; apply app_nil_r.
Qed.

(** Whatever the size of the vector, the loop appends valid keys only. *)
Lemma SetCompactCursors_loop_valid (v : list InternalKey) (fuel : nat)
    (i bound : Z) (acc : list (Z * InternalKey)) :
  Forall cursor_valid acc →
  Forall cursor_valid (SetCompactCursors_loop fuel i bound v acc).
Proof.
  revert i acc. induction fuel as [| fuel IH]; intros i acc Ha;
    simpl; [exact Ha |].
  destruct (i <? bound); [| exact Ha].
  destruct (v !! Z.to_nat i) as [k |]; [| exact Ha].
  apply IH. destruct (InternalKey_Valid k) eqn:Hv; [| exact Ha].
  apply Forall_app; split; [exact Ha |].
  constructor; [exact Hv | constructor].
Qed.

Lemma to_int32_small (n : Z) : 0 ≤ n < 2 ^ 31 → to_int32 n = n.
Proof.
  intros Hn. unfold to_int32, wrap32.
  rewrite Z.mod_small by lia.
  destruct (Z.ltb_spec n (2 ^ 31)); lia.
Qed.

Lemma SetCompactCursors_spec (v : list InternalKey) (e : VersionEdit) :
  Z.of_nat (length v) < 2 ^ 31 →
  GetCompactCursors (SetCompactCursors v e)
  = filter cursor_valid (indexed_from 0 v).
Proof.
  intros Hn. unfold SetCompactCursors, GetCompactCursors; simpl.
  rewrite to_int32_small by lia.
  rewrite SetCompactCursors_loop_spec by lia. reflexivity.
Qed.

Lemma call_keeps_cursors_valid (c : Call) (e e' : VersionEdit) :
  call_cursor_valid c → cursors_valid e → call c e = Some e' →
  cursors_valid e'.
Proof.
  intros Hc Hv Hr. unfold cursors_valid, GetCompactCursors in *.
  destruct c; simpl in Hr;
    unfold AddFile, AddFile_index, AddFile_meta, AddTableFile_meta,
      AddTableFile, SetBlobFileAdditions, SetBlobFileGarbages, AddWal,
      DeleteWalsBefore, AddColumnFamily, DropColumnFamily,
      SetFullHistoryTsLow in Hr; assert_inv; subst e';
    unfold advance_last_sequence;
    try (destruct (negb _ || _)); simpl; try exact Hv.
  - apply Forall_app; split; [exact Hv |].
    constructor; [exact Hc | constructor].
  - apply SetCompactCursors_loop_valid. constructor.
Qed.

(** C9, as the code has it.  [SetCompactCursors(v)] replaces the cursor
    list with exactly the pairs [(i, v[i])] of the indices at which
    [v[i]] is valid, in increasing order of [i] ([v] being shorter than
    [2 ^ 31], the range of the [int] loop variable); [AddCompactCursor]
    appends its pair without looking at the key.  So after a run of calls
    every cursor is valid provided those passed to [AddCompactCursor]
    were. *)
Theorem C9_compact_cursors (v : list InternalKey) (e : VersionEdit) :
  Z.of_nat (length v) < 2 ^ 31 →
  GetCompactCursors (SetCompactCursors v e)
  = filter cursor_valid (indexed_from 0 v) ∧
  (∀ (i : Z) (k : InternalKey),
      (i, k) ∈ GetCompactCursors (SetCompactCursors v e) ↔
      0 ≤ i ∧ v !! Z.to_nat i = Some k ∧ InternalKey_Valid k = true) ∧
  cursors_valid (SetCompactCursors v e) ∧
  (∀ (level : Z) (cursor : InternalKey) (e0 : VersionEdit),
      GetCompactCursors (AddCompactCursor level cursor e0)
      = GetCompactCursors e0 ++ [(level, cursor)]) ∧
  (∀ (cs : list Call) (e0 e' : VersionEdit),
      Forall call_cursor_valid cs → cursors_valid e0 →
      run cs e0 = Some e' → cursors_valid e').
Proof.
  intros Hn. rewrite SetCompactCursors_spec by exact Hn.
  split; [reflexivity |]. split; [| split; [| split]].
  - intros i k. rewrite list_elem_of_filter, elem_of_indexed_from.
    unfold cursor_valid; simpl. rewrite Z.sub_0_r. tauto.
  - unfold cursors_valid. rewrite SetCompactCursors_spec by exact Hn.
    apply Forall_forall. intros p Hp.
    apply list_elem_of_filter in Hp. tauto.
  - reflexivity.
  - intros cs. induction cs as [| c cs IH]; intros e0 e' Hc Hv Hr.
    + injection Hr as <-. exact Hv.
    + simpl in Hr. destruct (call c e0) as [e1 |] eqn:Hc1; [| discriminate].
      inversion Hc as [| ? ? Hc0 Hcs]; subst.
      eapply IH; [exact Hcs | | exact Hr].
      eapply call_keeps_cursors_valid; eauto.
Qed.
End Compact_cursors.

(** ** Counting entries *)

Section Entries.
Context `{External}.
#[local] Set Warnings "-clear-no-such-hyp".

Lemma NumEntries_stored (e : VersionEdit) :
  NumEntries e
  = stored_entries e +
    bool_to_Z (negb (WalDeletion_IsEmpty (wal_deletion_ e))).
Proof. reflexivity. Qed.

Lemma stored_entries_le (e : VersionEdit) :
  0 ≤ stored_entries e ≤ NumEntries e.
Proof.
  rewrite NumEntries_stored. unfold stored_entries.
  destruct (WalDeletion_IsEmpty _); simpl; lia.
Qed.

Lemma same_counted_NumEntries (e1 e2 : VersionEdit) :
  same_counted_members e1 e2 →
  NumEntries e1 = NumEntries e2 ∧
  IsWalManipulation e1 = IsWalManipulation e2.
Proof.
  intros (H1 & H2 & H3 & H4 & H5 & H6).
  unfold IsWalManipulation, NumEntries.
  rewrite H1, H2, H3, H4, H5, H6. split; reflexivity.
Qed.

Lemma advance_last_sequence_members (s : Z) (e : VersionEdit) :
  same_counted_members (advance_last_sequence s e) e ∧
  is_column_family_add_ (advance_last_sequence s e)
  = is_column_family_add_ e ∧
  is_column_family_drop_ (advance_last_sequence s e)
  = is_column_family_drop_ e ∧
  new_table_files_ (advance_last_sequence s e) = new_table_files_ e ∧
  new_guard_ (advance_last_sequence s e) = new_guard_ e ∧
  deleted_guard_ (advance_last_sequence s e) = deleted_guard_ e ∧
  compact_cursors_ (advance_last_sequence s e) = compact_cursors_ e.
Proof.
  unfold advance_last_sequence, same_counted_members.
  destruct (negb _ || _); repeat split; reflexivity.
Qed.

Lemma call_table_guard_cursor (c : Call) (e e' : VersionEdit) :
  is_table_guard_cursor c = true → call c e = Some e' →
  same_counted_members e' e ∧
  is_column_family_add_ e' = is_column_family_add_ e ∧
  is_column_family_drop_ e' = is_column_family_drop_ e.
Proof.
  intros Hc Hr.
  destruct c; simpl in Hc; try discriminate; simpl in Hr;
    unfold AddTableFile_meta, AddTableFile in Hr; assert_inv; subst e';
    try (unfold same_counted_members; repeat split; reflexivity).
  all: match goal with
       | |- context [advance_last_sequence ?s ?x] =>
           destruct (advance_last_sequence_members s x)
             as (Hm & Ha & Hd & _)
       end; rewrite Ha, Hd; split; [| split; reflexivity];
    unfold same_counted_members in *; simpl in Hm; exact Hm.
Qed.

Lemma AddColumnFamily_is_Some (name : string) (e : VersionEdit) :
  is_Some (AddColumnFamily name e) ↔
  is_column_family_drop_ e = false ∧ is_column_family_add_ e = false ∧
  NumEntries e = 0.
Proof.
  unfold AddColumnFamily.
  destruct (is_column_family_drop_ e), (is_column_family_add_ e),
    (Z.eqb_spec (NumEntries e) 0); simpl;
    split; intros Hs; try (destruct Hs; discriminate);
    try (destruct Hs as (? & ? & ?); congruence); eauto.
Qed.

Lemma DropColumnFamily_is_Some (e : VersionEdit) :
  is_Some (DropColumnFamily e) ↔
  is_column_family_drop_ e = false ∧ is_column_family_add_ e = false ∧
  NumEntries e = 0.
Proof.
  unfold DropColumnFamily.
  destruct (is_column_family_drop_ e), (is_column_family_add_ e),
    (Z.eqb_spec (NumEntries e) 0); simpl;
    split; intros Hs; try (destruct Hs; discriminate);
    try (destruct Hs as (? & ? & ?); congruence); eauto.
Qed.

Lemma size_insert_element (x : Z * Z) (X : gset (Z * Z)) :
  Z.of_nat (size ({[x]} ∪ X))
  = Z.of_nat (size X) + (if bool_decide (x ∈ X) then 0 else 1).
Proof.
  destruct (decide (x ∈ X)) as [Hin | Hout].
  - rewrite bool_decide_eq_true_2 by exact Hin.
    replace ({[x]} ∪ X) with X by (clear - Hin; set_solver). lia.
  - rewrite bool_decide_eq_false_2 by exact Hout.
    rewrite size_union by (clear - Hout; set_solver).
    rewrite size_singleton. lia.
Qed.

Lemma NumEntries_counts (e : VersionEdit) :
  NumEntries e
  = Z.of_nat (length (GetNewFiles e)) + Z.of_nat (size (GetDeletedFiles e)) +
    Z.of_nat (length (GetBlobFileAdditions e)) +
    Z.of_nat (length (GetBlobFileGarbages e)) +
    Z.of_nat (length (GetWalAdditions e)) +
    (if IsWalDeletion e then 1 else 0).
Proof.
  unfold NumEntries, GetNewFiles, GetDeletedFiles, GetBlobFileAdditions,
    GetBlobFileGarbages, GetWalAdditions, IsWalDeletion, bool_to_Z.
  reflexivity.
Qed.

Lemma call_appends_one_entry (c : Call) (e e' : VersionEdit) :
  is_counted c = true → (∀ level file, c ≠ CDeleteFile level file) →
  call c e = Some e' → NumEntries e' = NumEntries e + 1.
Proof.
  intros Hc Hd Hr.
  destruct c; simpl in Hc; try discriminate;
    try (exfalso; eapply Hd; reflexivity); simpl in Hr;
    unfold AddFile, AddFile_index, AddFile_meta, AddWal in Hr;
    assert_inv; subst e';
    repeat match goal with
      | |- context [advance_last_sequence ?s ?x] =>
          rewrite (proj1 (same_counted_NumEntries _ _
                            (proj1 (advance_last_sequence_members s x))))
      end;
    unfold NumEntries; simpl; rewrite ?length_app; simpl; lia.
Qed.

Lemma DeleteFile_NumEntries (level file : Z) (e : VersionEdit) :
  NumEntries (DeleteFile level file e)
  = NumEntries e +
    (if bool_decide ((level, file) ∈ GetDeletedFiles e) then 0 else 1).
Proof.
  unfold NumEntries, DeleteFile, GetDeletedFiles.
  cbn [set_deleted_files_ new_files_ deleted_files_ blob_file_additions_
    blob_file_garbages_ wal_additions_ wal_deletion_].
  rewrite size_insert_element. lia.
Qed.

Lemma DeleteWalsBefore_NumEntries (number : Z) (e e' : VersionEdit) :
  DeleteWalsBefore number e = Some e' →
  NumEntries e'
  = NumEntries e - (if IsWalDeletion e then 1 else 0) +
    (if WalDeletion_IsEmpty (WalDeletion_of number) then 0 else 1).
Proof.
  intros Hr. unfold DeleteWalsBefore in Hr. assert_inv. subst e'.
  unfold NumEntries, IsWalDeletion.
  cbn [set_wal_deletion_ new_files_ deleted_files_ blob_file_additions_
    blob_file_garbages_ wal_additions_ wal_deletion_].
  destruct (WalDeletion_IsEmpty (wal_deletion_ e)),
    (WalDeletion_IsEmpty (WalDeletion_of number)); simpl; lia.
Qed.

(** C10. [NumEntries()] is computed from [new_files_], [deleted_files_],
    the blob additions and garbages, the WAL additions and the WAL
    deletion only.  [AddTableFile], [AddGuard], [DeleteGuard] and
    [AddCompactCursor] leave it, [IsWalManipulation()] and the outcome of
    the assertions of [AddColumnFamily] / [DropColumnFamily] unchanged;
    so a new edit that is given a table file, a guard, a deleted guard
    and a cursor still has [NumEntries() = 0], is not a WAL manipulation
    and accepts [AddColumnFamily] and [DropColumnFamily].  The six members
    are counted: [NumEntries()] is the sum of the sizes of [GetNewFiles()],
    [GetDeletedFiles()], [GetBlobFileAdditions()], [GetBlobFileGarbages()]
    and [GetWalAdditions()], plus one when a WAL deletion is present; every
    [AddFile], [AddBlobFile], [AddBlobFileGarbage] and [AddWal] raises it
    by one, [DeleteFile] by one for a pair that is not deleted yet, and
    [DeleteWalsBefore] replaces the one of the old deletion by the one of
    the new. *)
Theorem C10_table_files_guards_cursors_not_counted :
  (∀ e1 e2 : VersionEdit,
      same_counted_members e1 e2 → NumEntries e1 = NumEntries e2) ∧
  (∀ (c : Call) (e e' : VersionEdit),
      is_table_guard_cursor c = true → call c e = Some e' →
      NumEntries e' = NumEntries e ∧
      IsWalManipulation e' = IsWalManipulation e ∧
      (∀ name, is_Some (AddColumnFamily name e') ↔
               is_Some (AddColumnFamily name e)) ∧
      (is_Some (DropColumnFamily e') ↔ is_Some (DropColumnFamily e))) ∧
  (∀ (f : FileMetaData) (level : Z) (guard : string)
      (cursor : InternalKey) (name : string),
      smallest_seqno (fd f) ≤ largest_seqno (fd f) →
      WalDeletion_IsEmpty WalDeletion_default = true →
      ∃ e', run [CAddTableFile_meta f; CAddGuard level guard;
                 CDeleteGuard level guard; CAddCompactCursor level cursor]
              VersionEdit0 = Some e' ∧
            GetNewTableFiles e' = [f] ∧
            (level, guard) ∈ GetNewGuards e' ∧
            (level, guard) ∈ GetDeletedGuards e' ∧
            GetCompactCursors e' = [(level, cursor)] ∧
            NumEntries e' = 0 ∧ IsWalManipulation e' = false ∧
            is_Some (AddColumnFamily name e') ∧
            is_Some (DropColumnFamily e')) ∧
  (∀ e : VersionEdit,
      NumEntries e
      = Z.of_nat (length (GetNewFiles e)) +
        Z.of_nat (size (GetDeletedFiles e)) +
        Z.of_nat (length (GetBlobFileAdditions e)) +
        Z.of_nat (length (GetBlobFileGarbages e)) +
        Z.of_nat (length (GetWalAdditions e)) +
        (if IsWalDeletion e then 1 else 0)) ∧
  (∀ (c : Call) (e e' : VersionEdit),
      is_counted c = true → (∀ level file, c ≠ CDeleteFile level file) →
      call c e = Some e' → NumEntries e' = NumEntries e + 1) ∧
  (∀ (level file : Z) (e : VersionEdit),
      NumEntries (DeleteFile level file e)
      = NumEntries e +
        (if bool_decide ((level, file) ∈ GetDeletedFiles e)
         then 0 else 1)) ∧
  (∀ (number : Z) (e e' : VersionEdit),
      DeleteWalsBefore number e = Some e' →
      NumEntries e'
      = NumEntries e - (if IsWalDeletion e then 1 else 0) +
        (if WalDeletion_IsEmpty (WalDeletion_of number) then 0 else 1)).
Proof.
  split; [intros e1 e2 Hm; apply same_counted_NumEntries, Hm |].
  split; [| split;
    [| split; [exact NumEntries_counts |];
       split; [exact call_appends_one_entry |];
       split; [exact DeleteFile_NumEntries
              | exact DeleteWalsBefore_NumEntries]]].
  - intros c e e' Hc Hr.
    destruct (call_table_guard_cursor c e e' Hc Hr) as (Hm & Ha & Hd).
    destruct (same_counted_NumEntries e' e Hm) as [Hn Hw].
    split; [exact Hn |]. split; [exact Hw |]. split.
    + intros name. rewrite !AddColumnFamily_is_Some, Ha, Hd, Hn. tauto.
    + rewrite !DropColumnFamily_is_Some, Ha, Hd, Hn. tauto.
  - intros f level guard cursor name Hf He.
    set (e1 := advance_last_sequence (largest_seqno (fd f))
                 (set_new_table_files_
                    (new_table_files_ VersionEdit0 ++ [f]) VersionEdit0)).
    set (e' := AddCompactCursor level cursor
                 (DeleteGuard level guard (AddGuard level guard e1))).
    destruct (advance_last_sequence_members (largest_seqno (fd f))
                (set_new_table_files_
                   (new_table_files_ VersionEdit0 ++ [f]) VersionEdit0))
      as (Hm & Ha & Hd & Ht & Hg & Hdg & Hc).
    fold e1 in Hm, Ha, Hd, Ht, Hg, Hdg, Hc.
    exists e'. split.
    { simpl. unfold AddTableFile_meta.
      rewrite (proj2 (Z.leb_le _ _) Hf). reflexivity. }
    clearbody e1.
    assert (Hm' : same_counted_members e' VersionEdit0) by exact Hm.
    assert (Hn : NumEntries e' = 0).
    { rewrite (proj1 (same_counted_NumEntries _ _ Hm')).
      unfold NumEntries; simpl. rewrite He. reflexivity. }
    unfold GetNewTableFiles, GetNewGuards, GetDeletedGuards,
      GetCompactCursors.
    split; [exact Ht |].
    split; [simpl; set_solver |].
    split; [simpl; set_solver |].
    split; [simpl; rewrite Hc; reflexivity |].
    split; [exact Hn |].
    split; [unfold IsWalManipulation; rewrite Hn; reflexivity |].
    split.
    + apply AddColumnFamily_is_Some. rewrite Hn.
      repeat split; [exact Hd | exact Ha].
    + apply DropColumnFamily_is_Some. rewrite Hn.
      repeat split; [exact Hd | exact Ha].
Qed.
End Entries.

(** ** Column-family markers and WAL operations *)

Section Markers.
Context `{External}.

Lemma run_app (cs1 cs2 : list Call) (e : VersionEdit) :
  run (cs1 ++ cs2) e = run cs1 e ≫= run cs2.
Proof.
  revert e. induction cs1 as [| c cs1 IH]; intros e; simpl; [reflexivity |].
  destruct (call c e) as [e1 |]; simpl; [apply IH | reflexivity].
Qed.

Lemma call_stored_entries_mono (c : Call) (e e' : VersionEdit) :
  call c e = Some e' → stored_entries e ≤ stored_entries e'.
Proof.
  intros Hr.
  destruct c; simpl in Hr;
    unfold AddFile, AddFile_index, AddFile_meta, AddTableFile_meta,
      AddTableFile, SetBlobFileAdditions, SetBlobFileGarbages, AddWal,
      DeleteWalsBefore, AddColumnFamily, DropColumnFamily,
      SetFullHistoryTsLow in Hr; assert_inv; subst e';
    unfold stored_entries, advance_last_sequence;
    try (destruct (negb _ || _)); simpl;
    rewrite ?length_app; simpl; try lia.
  - assert (size (deleted_files_ e)
            ≤ size ({[(level, file)]} ∪ deleted_files_ e))%nat
      by (apply subseteq_size; set_solver).
    lia.
  - match goal with
    | Hb : bool_decide (_ = []) = true |- _ =>
        apply bool_decide_eq_true in Hb; rewrite Hb
    end. simpl. lia.
  - match goal with
    | Hb : bool_decide (_ = []) = true |- _ =>
        apply bool_decide_eq_true in Hb; rewrite Hb
    end. simpl. lia.
Qed.

Lemma call_counted_positive (c : Call) (e e' : VersionEdit) :
  is_counted c = true → call c e = Some e' → 1 ≤ stored_entries e'.
Proof.
  intros Hc Hr.
  destruct c; simpl in Hc; try discriminate; simpl in Hr;
    unfold AddFile, AddFile_index, AddFile_meta, AddWal in Hr;
    assert_inv; subst e';
    unfold stored_entries, advance_last_sequence;
    try (destruct (negb _ || _)); simpl;
    rewrite ?length_app; simpl; try lia.
  assert (size ({[(level, file)]} : gset (Z * Z))
          ≤ size ({[(level, file)]} ∪ deleted_files_ e))%nat
    by (apply subseteq_size; set_solver).
  rewrite size_singleton in *. lia.
Qed.

Lemma run_stored_entries_mono (cs : list Call) (e e' : VersionEdit) :
  run cs e = Some e' → stored_entries e ≤ stored_entries e'.
Proof.
  revert e. induction cs as [| c cs IH]; intros e Hr; simpl in Hr.
  - injection Hr as <-. lia.
  - destruct (call c e) as [e1 |] eqn:Hc; [| discriminate].
    pose proof (call_stored_entries_mono c e e1 Hc).
    specialize (IH e1 Hr). lia.
Qed.

Lemma call_keeps_marker (c : Call) (e e' : VersionEdit) :
  call c e = Some e' →
  IsColumnFamilyManipulation e = true →
  IsColumnFamilyManipulation e' = true.
Proof.
  intros Hr Hm. unfold IsColumnFamilyManipulation in *.
  destruct c; simpl in Hr;
    unfold AddFile, AddFile_index, AddFile_meta, AddTableFile_meta,
      AddTableFile, SetBlobFileAdditions, SetBlobFileGarbages, AddWal,
      DeleteWalsBefore, AddColumnFamily, DropColumnFamily,
      SetFullHistoryTsLow in Hr; assert_inv; subst e';
    unfold advance_last_sequence;
    try (destruct (negb _ || _)); simpl; try exact Hm;
    try reflexivity.
  apply orb_true_r.
Qed.

Lemma run_keeps_marker (cs : list Call) (e e' : VersionEdit) :
  run cs e = Some e' →
  IsColumnFamilyManipulation e = true →
  IsColumnFamilyManipulation e' = true.
Proof.
  revert e. induction cs as [| c cs IH]; intros e Hr Hm; simpl in Hr.
  - injection Hr as <-. exact Hm.
  - destruct (call c e) as [e1 |] eqn:Hc; [| discriminate].
    eapply IH; [exact Hr |]. eapply call_keeps_marker; eauto.
Qed.

Lemma column_family_calls_fail (name : string) (e : VersionEdit) :
  IsColumnFamilyManipulation e = true ∨ NumEntries e ≠ 0 →
  AddColumnFamily name e = None ∧ DropColumnFamily e = None.
Proof.
  intros Hf.
  assert (Hn : ¬ (is_column_family_drop_ e = false ∧
                  is_column_family_add_ e = false ∧ NumEntries e = 0)).
  { intros (Hx & Hy & Hz). unfold IsColumnFamilyManipulation in Hf.
    rewrite Hx, Hy in Hf. destruct Hf; [discriminate | contradiction]. }
  split.
  - destruct (AddColumnFamily name e) eqn:Ea; [| reflexivity].
    exfalso. apply Hn, (AddColumnFamily_is_Some name e).
    rewrite Ea; eauto.
  - destruct (DropColumnFamily e) eqn:Ed; [| reflexivity].
    exfalso. apply Hn, (DropColumnFamily_is_Some e). rewrite Ed; eauto.
Qed.

(** What the assertion of [AddWal] catches: a WAL deletion is present. *)
Lemma AddWal_after_deletion (number : Z) (metadata : WalMetadata)
    (e : VersionEdit) :
  WalDeletion_IsEmpty (wal_deletion_ e) = false →
  AddWal number metadata e = None.
Proof.
  intros He. unfold AddWal. apply assert_bind_None.
  apply Z.eqb_neq. pose proof (stored_entries_le e) as Hs.
  rewrite NumEntries_stored, He. unfold stored_entries in *. simpl. lia.
Qed.

(** What the assertion of [DeleteWalsBefore] catches: the edit has exactly
    one entry and it is not a WAL deletion. *)
Lemma DeleteWalsBefore_after_one_entry (number : Z) (e : VersionEdit) :
  NumEntries e = 1 → WalDeletion_IsEmpty (wal_deletion_ e) = true →
  DeleteWalsBefore number e = None.
Proof.
  intros Hn He. unfold DeleteWalsBefore. apply assert_bind_None.
  rewrite Hn, He. reflexivity.
Qed.

(** No call but the two column-family calls reads a marker: whether its
    assertions pass does not depend on them. *)
Lemma call_ignores_markers (c : Call) (add drop : bool) (e : VersionEdit) :
  is_column_family_call c = false →
  is_Some (call c (with_markers add drop e)) ↔ is_Some (call c e).
Proof.
  intros Hc.
  destruct c; simpl in Hc; try discriminate; simpl;
    unfold AddFile, AddFile_index, AddFile_meta, AddTableFile_meta,
      AddTableFile, SetBlobFileAdditions, SetBlobFileGarbages, AddWal,
      DeleteWalsBefore, SetFullHistoryTsLow; cbv zeta;
    rewrite ?assert_bind_is_Some; try reflexivity;
    split; intros _; eexists; reflexivity.
Qed.

Lemma call_counted_keeps_markers (c : Call) (e e' : VersionEdit) :
  is_counted c = true → call c e = Some e' →
  IsColumnFamilyAdd e' = IsColumnFamilyAdd e ∧
  IsColumnFamilyDrop e' = IsColumnFamilyDrop e.
Proof.
  intros Hc Hr. unfold IsColumnFamilyAdd, IsColumnFamilyDrop.
  destruct c; simpl in Hc; try discriminate; simpl in Hr;
    unfold AddFile, AddFile_index, AddFile_meta, AddWal in Hr;
    assert_inv; subst e';
    repeat match goal with
      | |- context [advance_last_sequence ?s ?x] =>
          destruct (advance_last_sequence_members s x)
            as (_ & Ha & Hd & _); rewrite Ha, Hd; clear Ha Hd
      end; split; reflexivity.
Qed.

(** C4, as the code has it.  [AddColumnFamily] and [DropColumnFamily]
    pass their assertions exactly when neither marker is set and
    [NumEntries()] is zero at the time of the call, and [NumEntries()] is
    zero right after a successful call.  Hence, once either marker is
    set, both calls fail after any further run of the mutating member
    functions whose bodies the header gives, which are the constructors of
    [Call]; [Clear()] and [DecodeFrom()], which the header only declares,
    are not among them.  Both calls fail after any such run that contains an
    [AddFile], [DeleteFile], [AddBlobFile], [AddBlobFileGarbage] or
    [AddWal], and right after a [DeleteWalsBefore] that stored a non-empty
    deletion.  No other call is checked against a marker: whether its
    assertions pass is the same whatever the two markers are, and an
    [AddFile], [DeleteFile], [AddBlobFile], [AddBlobFileGarbage] or
    [AddWal] that passes keeps both markers and leaves [NumEntries()] at
    one or more.  [AddTableFile], [AddGuard], [DeleteGuard] and
    [AddCompactCursor] leave [NumEntries()] as it was. *)
Theorem C4_column_family_calls_checked_at_call_time :
  (∀ (name : string) (e : VersionEdit),
      (is_Some (AddColumnFamily name e) ↔
       is_column_family_drop_ e = false ∧
       is_column_family_add_ e = false ∧ NumEntries e = 0) ∧
      (is_Some (DropColumnFamily e) ↔
       is_column_family_drop_ e = false ∧
       is_column_family_add_ e = false ∧ NumEntries e = 0)) ∧
  (∀ (name : string) (e e' : VersionEdit),
      AddColumnFamily name e = Some e' →
      NumEntries e' = 0 ∧ IsColumnFamilyAdd e' = true ∧
      IsColumnFamilyDrop e' = false) ∧
  (∀ e e' : VersionEdit,
      DropColumnFamily e = Some e' →
      NumEntries e' = 0 ∧ IsColumnFamilyDrop e' = true ∧
      IsColumnFamilyAdd e' = false) ∧
  (∀ (cs : list Call) (e e' : VersionEdit) (name : string),
      IsColumnFamilyManipulation e = true → run cs e = Some e' →
      AddColumnFamily name e' = None ∧ DropColumnFamily e' = None) ∧
  (∀ (pre : list Call) (m : Call) (post : list Call) (e e' : VersionEdit)
      (name : string),
      is_counted m = true → run (pre ++ m :: post) e = Some e' →
      AddColumnFamily name e' = None ∧ DropColumnFamily e' = None) ∧
  (∀ (number : Z) (e e' : VersionEdit) (name : string),
      DeleteWalsBefore number e = Some e' →
      WalDeletion_IsEmpty (WalDeletion_of number) = false →
      AddColumnFamily name e' = None ∧ DropColumnFamily e' = None) ∧
  (∀ (c : Call) (add drop : bool) (e : VersionEdit),
      is_column_family_call c = false →
      is_Some (call c (with_markers add drop e)) ↔ is_Some (call c e)) ∧
  (∀ (m : Call) (e e' : VersionEdit),
      is_counted m = true → call m e = Some e' →
      IsColumnFamilyAdd e' = IsColumnFamilyAdd e ∧
      IsColumnFamilyDrop e' = IsColumnFamilyDrop e ∧
      1 ≤ NumEntries e') ∧
  (∀ (c : Call) (e e' : VersionEdit),
      is_table_guard_cursor c = true → call c e = Some e' →
      NumEntries e' = NumEntries e).
Proof.
  split.
  { intros name e. split;
      [apply AddColumnFamily_is_Some | apply DropColumnFamily_is_Some]. }
  split.
  { intros name e e' Hr. unfold AddColumnFamily in Hr. assert_inv.
    subst e'. repeat match goal with
                     | Hb : negb _ = true |- _ =>
                         apply negb_true_iff in Hb
                     | Hb : (_ =? _) = true |- _ => apply Z.eqb_eq in Hb
                     end.
    unfold IsColumnFamilyAdd, IsColumnFamilyDrop; simpl.
    repeat split; assumption. }
  split.
  { intros e e' Hr. unfold DropColumnFamily in Hr. assert_inv.
    subst e'. repeat match goal with
                     | Hb : negb _ = true |- _ =>
                         apply negb_true_iff in Hb
                     | Hb : (_ =? _) = true |- _ => apply Z.eqb_eq in Hb
                     end.
    unfold IsColumnFamilyAdd, IsColumnFamilyDrop; simpl.
    repeat split; assumption. }
  split.
  { intros cs e e' name Hm Hr. apply column_family_calls_fail. left.
    eapply run_keeps_marker; eauto. }
  split.
  - intros pre m post e e' name Hm Hr.
    apply column_family_calls_fail. right.
    rewrite run_app in Hr.
    destruct (run pre e) as [e1 |] eqn:H1; [| discriminate].
    simpl in Hr.
    destruct (call m e1) as [e2 |] eqn:H2; [| discriminate].
    simpl in Hr.
    pose proof (call_counted_positive m e1 e2 Hm H2).
    pose proof (run_stored_entries_mono post e2 e' Hr).
    pose proof (stored_entries_le e'). lia.
  - split; [| split; [exact call_ignores_markers |]; split].
    + intros number e e' name Hr He.
      apply column_family_calls_fail. right.
      unfold DeleteWalsBefore in Hr. assert_inv. subst e'.
      rewrite NumEntries_stored. simpl. rewrite He. simpl.
      pose proof (stored_entries_le e) as Hs.
      unfold stored_entries in *. simpl. lia.
    + intros m e e' Hm Hr.
      destruct (call_counted_keeps_markers m e e' Hm Hr) as [Ha Hd].
      split; [exact Ha |]. split; [exact Hd |].
      pose proof (call_counted_positive m e e' Hm Hr).
      pose proof (stored_entries_le e'). lia.
    + intros c e e' Hc Hr.
      destruct (call_table_guard_cursor c e e' Hc Hr) as (Hm & _ & _).
      exact (proj1 (same_counted_NumEntries e' e Hm)).
Qed.

(** C5, at the input on which the code departs from it.  On a new edit
    two [AddWal] calls followed by [DeleteWalsBefore] pass every
    assertion: the test [(NumEntries() == 1) == !wal_deletion_.IsEmpty()]
    compares false with false.  The edit then holds both WAL additions
    and the deletion. *)
Theorem C5_two_AddWal_then_DeleteWalsBefore (n1 n2 number : Z)
    (m1 m2 : WalMetadata) :
  WalDeletion_IsEmpty WalDeletion_default = true →
  ∃ e', run [CAddWal n1 m1; CAddWal n2 m2; CDeleteWalsBefore number]
          VersionEdit0 = Some e' ∧
        GetWalAdditions e'
        = [Build_WalAddition _ n1 m1; Build_WalAddition _ n2 m2] ∧
        IsWalAddition e' = true ∧
        GetWalDeletion e' = WalDeletion_of number ∧
        IsWalDeletion e'
        = negb (WalDeletion_IsEmpty (WalDeletion_of number)).
Proof.
  intros He.
  set (e1 := set_wal_additions_ [Build_WalAddition _ n1 m1] VersionEdit0).
  set (e2 := set_wal_additions_
               [Build_WalAddition _ n1 m1; Build_WalAddition _ n2 m2] e1).
  assert (H0 : NumEntries VersionEdit0 = 0).
  { unfold NumEntries. cbn [VersionEdit0 new_files_ deleted_files_
      blob_file_additions_ blob_file_garbages_ wal_additions_
      wal_deletion_ length]. rewrite size_empty, He. reflexivity. }
  assert (Hw : ∀ v e, NumEntries (set_wal_additions_ v e)
                      = NumEntries e - Z.of_nat (length (wal_additions_ e))
                        + Z.of_nat (length v)).
  { intros v e. unfold NumEntries.
    cbn [set_wal_additions_ new_files_ deleted_files_
      blob_file_additions_ blob_file_garbages_ wal_additions_
      wal_deletion_]. lia. }
  assert (H1 : NumEntries e1 = 1)
    by (unfold e1; rewrite Hw, H0; reflexivity).
  assert (H2 : NumEntries e2 = 2)
    by (unfold e2; rewrite Hw, H1; reflexivity).
  assert (S1 : AddWal n1 m1 VersionEdit0 = Some e1)
    by (unfold AddWal; rewrite H0; reflexivity).
  assert (S2 : AddWal n2 m2 e1 = Some e2)
    by (unfold AddWal; rewrite H1; reflexivity).
  assert (S3 : DeleteWalsBefore number e2
               = Some (set_wal_deletion_ (WalDeletion_of number) e2)).
  { unfold DeleteWalsBefore. rewrite H2.
    change (wal_deletion_ e2) with WalDeletion_default.
    rewrite He. reflexivity. }
  exists (set_wal_deletion_ (WalDeletion_of number) e2). split.
  - change ((AddWal n1 m1 VersionEdit0 ≫= λ a,
               AddWal n2 m2 a ≫= λ b,
                 DeleteWalsBefore number b ≫= λ c, Some c)
            = Some (set_wal_deletion_ (WalDeletion_of number) e2)).
    rewrite S1. cbn [mbind option_bind]. rewrite S2.
    cbn [mbind option_bind]. rewrite S3. reflexivity.
  - repeat split.
Qed.
End Markers.

(** ** Boundaries of a file *)

Section Boundaries.
Context `{External}.

Lemma UpdateBoundariesForRange_with_boundaries (start end_ : InternalKey)
    (seq : Z) (icmp : InternalKey → InternalKey → Z) (f : FileMetaData) :
  UpdateBoundariesForRange start end_ seq icmp f
  = with_boundaries (pick_smallest icmp (smallest f) start)
      (pick_largest icmp (largest f) end_)
      (Z.min (smallest_seqno (fd f)) seq)
      (Z.max (largest_seqno (fd f)) seq) f.
Proof.
  unfold UpdateBoundariesForRange, pick_smallest, pick_largest,
    with_boundaries.
  destruct f as [d s l]; destruct d; simpl.
  destruct ((InternalKey_size s =? 0) || (icmp start s <? 0)); simpl;
    destruct ((InternalKey_size l =? 0) || (icmp l end_ <? 0));
    reflexivity.
Qed.

Lemma with_boundaries_twice (s l s' l' : InternalKey) (ss ls ss' ls' : Z)
    (f : FileMetaData) :
  with_boundaries s' l' ss' ls' (with_boundaries s l ss ls f)
  = with_boundaries s' l' ss' ls' f.
Proof. reflexivity. Qed.

Section Order.
Variable icmp : InternalKey → InternalKey → Z.
Hypothesis icmp_order : total_order icmp.

Lemma pick_smallest_present (current start : InternalKey) :
  key_present start → key_present (pick_smallest icmp current start).
Proof.
  intros Hs. unfold pick_smallest, key_present in *.
  destruct (Z.eqb_spec (InternalKey_size current) 0); simpl;
    [exact Hs |].
  destruct (icmp start current <? 0); assumption.
Qed.

Lemma pick_smallest_comm (current a b : InternalKey) :
  key_present a → key_present b →
  pick_smallest icmp (pick_smallest icmp current a) b
  = pick_smallest icmp (pick_smallest icmp current b) a.
Proof.
  intros Ha Hb.
  destruct icmp_order as [Hirr Htr Htot].
  pose proof (Hirr a Ha) as Haa. pose proof (Hirr b Hb) as Hbb.
  unfold pick_smallest, key_present in *.
  destruct (Z.eqb_spec (InternalKey_size current) 0) as [Hc | Hc];
    simpl.
  - destruct (Z.eqb_spec (InternalKey_size a) 0) as [|_]; [lia |].
    destruct (Z.eqb_spec (InternalKey_size b) 0) as [|_]; [lia |].
    simpl.
    destruct (Z.ltb_spec (icmp b a) 0), (Z.ltb_spec (icmp a b) 0);
      try reflexivity.
    + pose proof (Htr a b a Ha Hb Ha). lia.
    + destruct (Htot a b Ha Hb) as [? | [? | ?]]; [lia | done | lia].
  - pose proof (Hirr current Hc) as Hcc.
    destruct (Z.ltb_spec (icmp a current) 0) as [Hac | Hac],
      (Z.ltb_spec (icmp b current) 0) as [Hbc | Hbc];
      repeat match goal with
             | |- context [InternalKey_size ?k =? 0] =>
                 destruct (Z.eqb_spec (InternalKey_size k) 0);
                 [lia |]; simpl
             end;
      repeat match goal with
             | |- context [icmp ?x ?y <? 0] =>
                 destruct (Z.ltb_spec (icmp x y) 0)
             end; try reflexivity; try lia.
    all: try (pose proof (Htr a b a Ha Hb Ha); lia).
    all: try (pose proof (Htr a b current Ha Hb Hc); lia).
    all: try (pose proof (Htr b a current Hb Ha Hc); lia).
    all: destruct (Htot a b Ha Hb) as [? | [? | ?]]; try lia; try done.
Qed.

Lemma pick_largest_present (current end_ : InternalKey) :
  key_present end_ → key_present (pick_largest icmp current end_).
Proof.
  intros Hs. unfold pick_largest, key_present in *.
  destruct (Z.eqb_spec (InternalKey_size current) 0); simpl;
    [exact Hs |].
  destruct (icmp current end_ <? 0); assumption.
Qed.

Lemma pick_largest_comm (current a b : InternalKey) :
  key_present a → key_present b →
  pick_largest icmp (pick_largest icmp current a) b
  = pick_largest icmp (pick_largest icmp current b) a.
Proof.
  intros Ha Hb.
  destruct icmp_order as [Hirr Htr Htot].
  pose proof (Hirr a Ha) as Haa. pose proof (Hirr b Hb) as Hbb.
  unfold pick_largest, key_present in *.
  destruct (Z.eqb_spec (InternalKey_size current) 0) as [Hc | Hc];
    simpl.
  - destruct (Z.eqb_spec (InternalKey_size a) 0) as [|_]; [lia |].
    destruct (Z.eqb_spec (InternalKey_size b) 0) as [|_]; [lia |].
    simpl.
    destruct (Z.ltb_spec (icmp b a) 0), (Z.ltb_spec (icmp a b) 0);
      try reflexivity.
    + pose proof (Htr a b a Ha Hb Ha). lia.
    + destruct (Htot a b Ha Hb) as [? | [? | ?]]; [lia | done | lia].
  - pose proof (Hirr current Hc) as Hcc.
    destruct (Z.ltb_spec (icmp current a) 0) as [Hac | Hac],
      (Z.ltb_spec (icmp current b) 0) as [Hbc | Hbc];
      repeat match goal with
             | |- context [InternalKey_size ?k =? 0] =>
                 destruct (Z.eqb_spec (InternalKey_size k) 0);
                 [lia |]; simpl
             end;
      repeat match goal with
             | |- context [icmp ?x ?y <? 0] =>
                 destruct (Z.ltb_spec (icmp x y) 0)
             end; try reflexivity; try lia.
    all: try (pose proof (Htr a b a Ha Hb Ha); lia).
    all: try (pose proof (Htr current a b Hc Ha Hb); lia).
    all: try (pose proof (Htr current b a Hc Hb Ha); lia).
    all: destruct (Htot a b Ha Hb) as [? | [? | ?]]; try lia; try done.
Qed.

Lemma UpdateBoundariesForRange_comm (r1 r2 : Range) (f : FileMetaData) :
  range_present r1 → range_present r2 →
  UpdateBoundariesForRange r2.1.1 r2.1.2 r2.2 icmp
    (UpdateBoundariesForRange r1.1.1 r1.1.2 r1.2 icmp f)
  = UpdateBoundariesForRange r1.1.1 r1.1.2 r1.2 icmp
      (UpdateBoundariesForRange r2.1.1 r2.1.2 r2.2 icmp f).
Proof.
  intros [Hs1 He1] [Hs2 He2].
  rewrite !UpdateBoundariesForRange_with_boundaries.
  rewrite !with_boundaries_twice.
  cbn [with_boundaries smallest largest fd set_fd set_largest
         set_smallest smallest_seqno largest_seqno set_largest_seqno
         set_smallest_seqno].
  rewrite (pick_smallest_comm (smallest f) r1.1.1 r2.1.1 Hs1 Hs2).
  rewrite (pick_largest_comm (largest f) r1.1.2 r2.1.2 He1 He2).
  rewrite <- !Z.min_assoc, (Z.min_comm r1.2 r2.2).
  rewrite <- !Z.max_assoc, (Z.max_comm r1.2 r2.2).
  reflexivity.
Qed.

Lemma apply_ranges_permutation (rs rs' : list Range) (f : FileMetaData) :
  rs ≡ₚ rs' → Forall range_present rs →
  apply_ranges icmp rs f = apply_ranges icmp rs' f.
Proof.
  intros Hp. revert f.
  induction Hp as [| r rs rs' Hp IH | r1 r2 rs | rs rs' rs'' Hp1 IH1
                                                  Hp2 IH2];
    intros f Hr; unfold apply_ranges in *; simpl.
  - reflexivity.
  - inversion Hr; subst. apply IH; assumption.
  - inversion Hr as [| ? ? H2 Hr']; subst.
    inversion Hr' as [| ? ? H1 _]; subst.
    rewrite (UpdateBoundariesForRange_comm r2 r1 f H2 H1). reflexivity.
  - rewrite IH1 by assumption. apply IH2. rewrite <- Hp1. exact Hr.
Qed.
End Order.

(** C8, as the code has it.  One call of
    [UpdateBoundariesForRange(start, end, seq, icmp)] makes [smallest] the
    start key if the previous smallest was empty or the start key compares
    below it, makes [largest] the end key if the previous largest was empty
    or compares below the end key, takes the minimum and the maximum of the
    sequence numbers with [seq] and leaves the rest of the file alone.
    When the comparator is a total order on the keys that are not empty,
    under which two keys that compare equal are the same key, and no range
    has an empty start or end key, the ranges of a set may be applied in
    any order with the same final file. *)
Theorem C8_boundaries_for_range_any_order :
  (∀ (start end_ : InternalKey) (seq : Z)
      (icmp : InternalKey → InternalKey → Z) (f : FileMetaData),
      let f' := UpdateBoundariesForRange start end_ seq icmp f in
      smallest f'
      = (if (InternalKey_size (smallest f) =? 0)
            || (icmp start (smallest f) <? 0)
         then start else smallest f) ∧
      largest f'
      = (if (InternalKey_size (largest f) =? 0)
            || (icmp (largest f) end_ <? 0)
         then end_ else largest f) ∧
      smallest_seqno (fd f') = Z.min (smallest_seqno (fd f)) seq ∧
      largest_seqno (fd f') = Z.max (largest_seqno (fd f)) seq ∧
      f' = with_boundaries (smallest f') (largest f')
             (smallest_seqno (fd f')) (largest_seqno (fd f')) f) ∧
  (∀ (icmp : InternalKey → InternalKey → Z) (rs rs' : list Range)
      (f : FileMetaData),
      total_order icmp → Forall range_present rs → rs ≡ₚ rs' →
      apply_ranges icmp rs f = apply_ranges icmp rs' f).
Proof.
  split.
  - intros start end_ seq icmp f f'. subst f'.
    rewrite UpdateBoundariesForRange_with_boundaries.
    repeat split.
  - intros icmp rs rs' f Ho Hr Hp.
    apply apply_ranges_permutation; assumption.
Qed.
End Boundaries.

(** ** The model on inputs *)

Lemma bytewise_compare_lt (a b : string) :
  bytewise_compare a b < 0 ↔ String_as_OT.lt a b.
Proof.
  rewrite <- String_as_OT.cmp_lt. unfold bytewise_compare, String_as_OT.cmp.
  destruct (String.compare a b); split; intros Hx; try lia;
    try discriminate Hx; reflexivity.
Qed.

Section Samples.
#[local] Existing Instance sample_External.

Lemma bytewise_compare_total_order : total_order bytewise_compare.
Proof.
  split.
  - intros a _. unfold bytewise_compare.
    pose proof (proj2 (String_as_OT.cmp_eq a a) eq_refl) as He.
    unfold String_as_OT.cmp in He. rewrite He. lia.
  - intros a b c _ _ _. rewrite !bytewise_compare_lt.
    apply String_as_OT.lt_trans.
  - intros a b _ _. unfold bytewise_compare.
    pose proof (String_as_OT.cmp_eq a b) as He.
    pose proof (String_as_OT.cmp_antisym b a) as Ha.
    unfold String_as_OT.cmp in *.
    destruct (String.compare a b); [right; left; tauto | left; lia |].
    right; right. rewrite Ha. simpl. lia.
Qed.

Lemma C2_last_sequence_is_max_of_added_witness :
  Forall (λ c, ∀ seq, c ≠ CSetLastSequence seq) sample_adds ∧
  HasLastSequence VersionEdit0 = false ∧
  largest_seqnos sample_adds = [5; 9; 7] ∧
  ∃ e', run sample_adds VersionEdit0 = Some e' ∧
        HasLastSequence e' = true ∧ GetLastSequence e' = 9.
Proof.
  assert (Hn : Forall (λ c, ∀ seq, c ≠ CSetLastSequence seq) sample_adds)
    by (repeat constructor; discriminate).
  split; [exact Hn |]. split; [reflexivity |]. split; [reflexivity |].
  eexists. split; [reflexivity |].
  exact (proj1 (proj2 C2_last_sequence_is_max_of_added) sample_adds
           VersionEdit0 _ 5 [9; 7] Hn eq_refl eq_refl).
Defined.

Lemma C3_seqno_order_checked_by_add_calls_witness :
  Forall seqno_ordered (recorded_files VersionEdit0) ∧
  ∃ e', run sample_adds VersionEdit0 = Some e' ∧
        Forall seqno_ordered (recorded_files e').
Proof.
  assert (H0 : Forall seqno_ordered (recorded_files VersionEdit0))
    by constructor.
  split; [exact H0 |]. eexists. split; [reflexivity |].
  eapply (proj1 (proj2 (proj2 (proj2 (proj2
            C3_seqno_order_checked_by_add_calls)))) sample_adds);
    [exact H0 | reflexivity].
Defined.

(** An [AddFile] with inverted sequence numbers fails and nothing is
    clamped. *)
Example AddFile_inverted_fails :
  call (CAddFile_meta 0 (sample_file 11 5 3)) VersionEdit0 = None.
Proof. reflexivity. Qed.

Lemma C4_column_family_calls_checked_at_call_time_witness :
  is_counted (CDeleteFile 0 7) = true ∧
  ∃ e', run ([] ++ CDeleteFile 0 7 :: [CAddGuard 0 "g"%string])
          VersionEdit0 = Some e' ∧
        AddColumnFamily "cf"%string e' = None ∧
        DropColumnFamily e' = None.
Proof.
  split; [reflexivity |]. eexists. split; [reflexivity |].
  eapply (proj1 (proj2 (proj2 (proj2 (proj2
            C4_column_family_calls_checked_at_call_time))))
            [] (CDeleteFile 0 7) [CAddGuard 0 "g"%string] VersionEdit0);
    reflexivity.
Defined.

(** The claim as it is written fails twice: an edit that carries the
    add marker takes a [DeleteFile] without any assertion and then has
    one entry; and [AddColumnFamily] passes after the file mutation
    [AddTableFile]. *)
Lemma C4_counterexample :
  (∃ e', run [CAddColumnFamily "cf"%string; CDeleteFile 0 7] VersionEdit0
         = Some e' ∧
         IsColumnFamilyAdd e' = true ∧ NumEntries e' = 1) ∧
  (∃ e', run [CAddTableFile_meta (sample_file 12 8 9);
              CAddColumnFamily "cf"%string] VersionEdit0 = Some e' ∧
         GetNewTableFiles e' = [sample_file 12 8 9] ∧
         IsColumnFamilyAdd e' = true).
Proof.
  split; eexists; (split; [vm_compute; reflexivity |]); split;
    vm_compute; reflexivity.
Qed.

Lemma C5_two_AddWal_then_DeleteWalsBefore_witness :
  WalDeletion_IsEmpty WalDeletion_default = true ∧
  ∃ e', run [CAddWal 1 WalMetadata_default; CAddWal 2 WalMetadata_default;
             CDeleteWalsBefore 3] VersionEdit0 = Some e' ∧
        length (GetWalAdditions e') = 2%nat ∧
        IsWalAddition e' = true ∧ IsWalDeletion e' = true.
Proof.
  assert (He : WalDeletion_IsEmpty WalDeletion_default = true)
    by reflexivity.
  split; [exact He |].
  destruct (C5_two_AddWal_then_DeleteWalsBefore 1 2 3 WalMetadata_default
              WalMetadata_default He)
    as (e' & Hr & Ha & Hw & _ & Hd).
  exists e'. split; [exact Hr |]. rewrite Ha.
  split; [reflexivity |]. split; [exact Hw | exact Hd].
Defined.

(** The two orders the assertions do catch. *)
Example DeleteWalsBefore_then_AddWal_fails :
  run [CDeleteWalsBefore 3; CAddWal 1 WalMetadata_default] VersionEdit0
  = None.
Proof. vm_compute. reflexivity. Qed.

Example AddWal_then_DeleteWalsBefore_fails :
  run [CAddWal 1 WalMetadata_default; CDeleteWalsBefore 3] VersionEdit0
  = None.
Proof. vm_compute. reflexivity. Qed.

Lemma C8_boundaries_for_range_any_order_witness :
  total_order bytewise_compare ∧
  Forall range_present sample_ranges ∧
  sample_ranges ≡ₚ reverse sample_ranges ∧
  apply_ranges bytewise_compare sample_ranges FileMetaData0
  = apply_ranges bytewise_compare (reverse sample_ranges) FileMetaData0.
Proof.
  assert (Hr : Forall range_present sample_ranges)
    by (repeat constructor; discriminate).
  assert (Hp : sample_ranges ≡ₚ reverse sample_ranges)
    by (symmetry; apply reverse_Permutation).
  split; [exact bytewise_compare_total_order |].
  split; [exact Hr |]. split; [exact Hp |].
  exact (proj2 C8_boundaries_for_range_any_order bytewise_compare
           sample_ranges (reverse sample_ranges) FileMetaData0
           bytewise_compare_total_order Hr Hp).
Defined.

(** The claim as it is written fails without the two conditions.  Under
    the byte-wise comparison a range with an empty start key leaves an
    empty [smallest], which the next range overwrites: the two orders of
    [empty_start_ranges] end with the smallest key b and with the empty
    key.  Under a comparison for which the keys a and b are equal, and so
    are x and y, the first range wins: the two orders of
    [equal_length_ranges] end with the boundaries a, x and b, y. *)
Lemma C8_counterexample :
  empty_start_ranges ≡ₚ reverse empty_start_ranges ∧
  smallest (apply_ranges bytewise_compare empty_start_ranges FileMetaData0)
  = "b"%string ∧
  smallest (apply_ranges bytewise_compare (reverse empty_start_ranges)
              FileMetaData0)
  = EmptyString ∧
  equal_length_ranges ≡ₚ reverse equal_length_ranges ∧
  length_compare "a"%string "b"%string = 0 ∧
  length_compare "x"%string "y"%string = 0 ∧
  smallest (apply_ranges length_compare equal_length_ranges FileMetaData0)
  = "a"%string ∧
  largest (apply_ranges length_compare equal_length_ranges FileMetaData0)
  = "x"%string ∧
  smallest (apply_ranges length_compare (reverse equal_length_ranges)
              FileMetaData0)
  = "b"%string ∧
  largest (apply_ranges length_compare (reverse equal_length_ranges)
             FileMetaData0)
  = "y"%string ∧
  apply_ranges bytewise_compare empty_start_ranges FileMetaData0
  ≠ apply_ranges bytewise_compare (reverse empty_start_ranges)
      FileMetaData0 ∧
  apply_ranges length_compare equal_length_ranges FileMetaData0
  ≠ apply_ranges length_compare (reverse equal_length_ranges)
      FileMetaData0.
Proof.
  split; [symmetry; apply reverse_Permutation |].
  split; [reflexivity |]. split; [reflexivity |].
  split; [symmetry; apply reverse_Permutation |].
  split; [reflexivity |]. split; [reflexivity |].
  split; [reflexivity |]. split; [reflexivity |].
  split; [reflexivity |]. split; [reflexivity |].
  split; intros Heq; apply (f_equal smallest) in Heq; discriminate Heq.
Qed.

Example apply_ranges_sample :
  let f := apply_ranges bytewise_compare sample_ranges FileMetaData0 in
  smallest f = "a"%string ∧ largest f = "e"%string ∧
  smallest_seqno (fd f) = 2 ∧ largest_seqno (fd f) = 9.
Proof. repeat split. Qed.

Lemma C9_compact_cursors_witness :
  Z.of_nat (length sample_cursors) < 2 ^ 31 ∧
  GetCompactCursors (SetCompactCursors sample_cursors VersionEdit0)
  = [(0, "k0"%string); (2, "k2"%string)].
Proof.
  assert (Hn : Z.of_nat (length sample_cursors) < 2 ^ 31)
    by (simpl; lia).
  split; [exact Hn |].
  rewrite (proj1 (C9_compact_cursors sample_cursors VersionEdit0 Hn)).
  reflexivity.
Defined.

(** The claim as it is written fails on [AddCompactCursor]: the empty
    key is not valid and is retained. *)
Lemma C9_counterexample :
  InternalKey_Valid EmptyString = false ∧
  GetCompactCursors (AddCompactCursor 0 EmptyString VersionEdit0)
  = [(0, EmptyString)].
Proof. split; reflexivity. Qed.

Lemma C10_table_files_guards_cursors_not_counted_witness :
  smallest_seqno (fd (sample_file 12 8 9))
  ≤ largest_seqno (fd (sample_file 12 8 9)) ∧
  WalDeletion_IsEmpty WalDeletion_default = true ∧
  ∃ e', run [CAddTableFile_meta (sample_file 12 8 9);
             CAddGuard 1 "g"%string; CDeleteGuard 1 "g"%string;
             CAddCompactCursor 1 "k"%string] VersionEdit0 = Some e' ∧
        GetNewTableFiles e' = [sample_file 12 8 9] ∧
        NumEntries e' = 0.
Proof.
  assert (Hs : smallest_seqno (fd (sample_file 12 8 9))
               ≤ largest_seqno (fd (sample_file 12 8 9)))
    by (simpl; lia).
  assert (He : WalDeletion_IsEmpty WalDeletion_default = true)
    by reflexivity.
  split; [exact Hs |]. split; [exact He |].
  destruct (proj1 (proj2 (proj2
                             C10_table_files_guards_cursors_not_counted))
              (sample_file 12 8 9) 1 "g"%string "k"%string "cf"%string
              Hs He)
    as (e' & Hr & Ht & _ & _ & _ & Hn & _).
  exists e'. split; [exact Hr |]. split; [exact Ht | exact Hn].
Defined.
End Samples.

(** * Further properties *)

(** ** The enumerations and the packed identity *)

Lemma land_pow2_testbit (v n : Z) :
  0 ≤ n → Z.land v (2 ^ n) = if Z.testbit v n then 2 ^ n else 0.
Proof.
  intros Hn. apply Z.bits_inj'. intros i Hi.
  rewrite Z.land_spec, Z.pow2_bits_eqb by exact Hn.
  destruct (Z.eqb_spec n i) as [-> | Hne].
  - destruct (Z.testbit v i) eqn:Hv.
    + rewrite Z.pow2_bits_true by exact Hi. reflexivity.
    + rewrite Z.bits_0. reflexivity.
  - rewrite andb_false_r. destruct (Z.testbit v n).
    + rewrite Z.pow2_bits_false by (intros ->; apply Hne; reflexivity).
      reflexivity.
    + rewrite Z.bits_0. reflexivity.
Qed.

(** X1. The numbers written to disk identify the records: no two
    enumerators of [Tag] have the same value, nor two of
    [NewFileCustomTag], and the two lists the values are taken over hold
    every enumerator. *)
Theorem X1_tag_values_distinct :
  NoDup (map Tag_value all_Tags) ∧ (∀ t : Tag, t ∈ all_Tags) ∧
  NoDup (map NewFileCustomTag_value all_NewFileCustomTags) ∧
  (∀ t : NewFileCustomTag, t ∈ all_NewFileCustomTags).
Proof.
  split; [| split; [| split]].
  - refine (bool_decide_unpack _ _). vm_compute. exact I.
  - intros t. destruct t; unfold all_Tags; simpl; set_solver.
  - refine (bool_decide_unpack _ _). vm_compute. exact I.
  - intros t. destruct t; unfold all_NewFileCustomTags; simpl; set_solver.
Qed.

(** X2. The two masks are single bits, so the test "tag & mask" of the
    header's comments looks at one bit and not at the size of the tag: a
    top-level tag passes exactly when its bit 13 is set, a custom tag when
    its bit 6 is set.  The values 16384 and 128, although above the masks,
    do not pass. *)
Theorem X2_mask_tests_are_bit_tests :
  (∀ v : Z, Tag_safe_to_ignore v = Z.testbit v 13) ∧
  (∀ v : Z, CustomTag_non_safe_ignore v = Z.testbit v 6) ∧
  Tag_safe_to_ignore 16384 = false ∧ CustomTag_non_safe_ignore 128 = false.
Proof.
  split; [| split; [| split; reflexivity]].
  - intros v. unfold Tag_safe_to_ignore.
    change (Tag_value kTagSafeIgnoreMask) with (2 ^ 13).
    rewrite land_pow2_testbit by lia. destruct (Z.testbit v 13); reflexivity.
  - intros v. unfold CustomTag_non_safe_ignore.
    change (NewFileCustomTag_value kCustomTagNonSafeIgnoreMask) with (2 ^ 6).
    rewrite land_pow2_testbit by lia. destruct (Z.testbit v 6); reflexivity.
Qed.

(** X3. [GetNumber] and [GetPathId] split a packed 64-bit value without
    loss: the value is [GetPathId() * 2^60 + GetNumber()], the number has at
    most 60 bits and the path id is at most 15. *)
Theorem X3_unpack_splits_packed_value (d : FileDescriptor) :
  0 ≤ packed_number_and_path_id d < 2 ^ 64 →
  packed_number_and_path_id d = GetPathId d * 2 ^ 60 + GetNumber d ∧
  0 ≤ GetNumber d ≤ kFileNumberMask ∧ 0 ≤ GetPathId d ≤ 15.
Proof.
  intros Hp. unfold GetNumber, GetPathId, wrap32.
  rewrite kFileNumberMask_ones, Z.land_ones by lia.
  change (Z.ones 60 + 1) with (2 ^ 60). change (Z.ones 60) with (2 ^ 60 - 1).
  set (p := packed_number_and_path_id d) in *.
  assert (Hq : 0 ≤ p / 2 ^ 60 < 16).
  { split; [apply Z.div_pos; lia |].
    apply Z.div_lt_upper_bound; [lia |].
    change (2 ^ 60 * 16) with (2 ^ 64). lia. }
  rewrite (Z.mod_small (p / 2 ^ 60)) by lia.
  pose proof (Z.mod_pos_bound p (2 ^ 60) ltac:(lia)).
  pose proof (Z.div_mod p (2 ^ 60) ltac:(lia)). lia.
Qed.

Lemma X3_unpack_splits_packed_value_witness :
  0 ≤ packed_number_and_path_id (FileDescriptor5 7 3 0 0 0) < 2 ^ 64 ∧
  packed_number_and_path_id (FileDescriptor5 7 3 0 0 0)
  = GetPathId (FileDescriptor5 7 3 0 0 0) * 2 ^ 60
    + GetNumber (FileDescriptor5 7 3 0 0 0).
Proof.
  assert (Hp : 0 ≤ packed_number_and_path_id (FileDescriptor5 7 3 0 0 0)
               < 2 ^ 64) by (vm_compute; split; congruence).
  split; [exact Hp |].
  exact (proj1 (X3_unpack_splits_packed_value _ Hp)).
Defined.

(** X4. The hand-written copy assignment and copy constructor of
    [FileDescriptor] leave no member out: whatever the target held, after
    the assignment it equals the source. *)
Theorem X4_descriptor_copy_is_complete (this fd : FileDescriptor) :
  FileDescriptor_assign this fd = fd ∧ FileDescriptor_copy this fd = fd.
Proof. destruct fd. split; reflexivity. Qed.

(** ** What a run of calls leaves in the edit *)

Ltac call_inv Hr :=
  simpl in Hr;
  unfold AddFile, AddFile_index, AddFile_meta, AddTableFile_meta,
    AddTableFile, SetBlobFileAdditions, SetBlobFileGarbages, AddWal,
    DeleteWalsBefore, AddColumnFamily, DropColumnFamily,
    SetFullHistoryTsLow in Hr;
  assert_inv; try subst.

Section Further_edits.
Context `{External}.

Lemma advance_last_sequence_frame (s : Z) (e : VersionEdit) :
  new_files_ (advance_last_sequence s e) = new_files_ e ∧
  new_table_files_ (advance_last_sequence s e) = new_table_files_ e ∧
  wal_additions_ (advance_last_sequence s e) = wal_additions_ e ∧
  deleted_files_ (advance_last_sequence s e) = deleted_files_ e ∧
  new_guard_ (advance_last_sequence s e) = new_guard_ e ∧
  deleted_guard_ (advance_last_sequence s e) = deleted_guard_ e ∧
  full_history_ts_low_ (advance_last_sequence s e) = full_history_ts_low_ e ∧
  watermarks (advance_last_sequence s e) = watermarks e ∧
  NumEntries (advance_last_sequence s e) = NumEntries e.
Proof.
  unfold advance_last_sequence.
  destruct (negb _ || _); repeat split; reflexivity.
Qed.

(** X5. The overloads that take the fields of a file do what the overloads
    that take the file do with the file built from those fields, assertion
    included; and so do the two pairs of blob overloads. *)
Theorem X5_overloads_agree :
  (∀ (c : Call) (e : VersionEdit) (level : Z) (f : FileMetaData),
      call_new_file c = Some (level, f) → call c e = AddFile_meta level f e) ∧
  (∀ (c : Call) (e : VersionEdit) (f : FileMetaData),
      call_new_table_file c = Some f → call c e = AddTableFile_meta f e) ∧
  (∀ (n count bytes : Z) (method value : string) (e : VersionEdit),
      AddBlobFile n count bytes method value e
      = AddBlobFile_addition
          (Build_BlobFileAddition n count bytes method value) e) ∧
  (∀ (n count bytes : Z) (e : VersionEdit),
      AddBlobFileGarbage n count bytes e
      = AddBlobFileGarbage_garbage (Build_BlobFileGarbage n count bytes) e).
Proof.
  split; [| split; [| split; reflexivity]].
  - intros c e level f Hc.
    destruct c; simpl in Hc; try discriminate; injection Hc as <- <-;
      reflexivity.
  - intros c e f Hc.
    destruct c; simpl in Hc; try discriminate; injection Hc as <-;
      reflexivity.
Qed.

Lemma call_lists (c : Call) (e e' : VersionEdit) :
  call c e = Some e' →
  new_files_ e' = new_files_ e ++ option_list (call_new_file c) ∧
  new_table_files_ e'
  = new_table_files_ e ++ option_list (call_new_table_file c) ∧
  wal_additions_ e' = wal_additions_ e ++ option_list (call_wal_addition c).
Proof.
  intros Hr.
  destruct c; call_inv Hr; simpl;
    repeat match goal with
      | |- context [advance_last_sequence ?s ?x] =>
          let Hf := fresh "Hf" in
          destruct (advance_last_sequence_frame s x)
            as (Hf1 & Hf2 & Hf3 & _); rewrite Hf1, Hf2, Hf3; clear Hf1 Hf2 Hf3
      end; simpl; rewrite ?app_nil_r; repeat split; reflexivity.
Qed.

Lemma run_lists (cs : list Call) (e e' : VersionEdit) :
  run cs e = Some e' →
  new_files_ e' = new_files_ e ++ omap call_new_file cs ∧
  new_table_files_ e' = new_table_files_ e ++ omap call_new_table_file cs ∧
  wal_additions_ e' = wal_additions_ e ++ omap call_wal_addition cs.
Proof.
  revert e. induction cs as [| c cs IH]; intros e Hr; simpl in Hr.
  - injection Hr as <-. simpl. rewrite !app_nil_r. repeat split.
  - destruct (call c e) as [e1 |] eqn:Hc; [| discriminate]. simpl in Hr.
    destruct (IH e1 Hr) as (-> & -> & ->).
    destruct (call_lists c e e1 Hc) as (-> & -> & ->).
    rewrite <- !app_assoc. simpl.
    destruct (call_new_file c), (call_new_table_file c),
      (call_wal_addition c); simpl; repeat split; reflexivity.
Qed.

(** X6. The three vectors that the member functions with a body in the
    header only make grow.  A run is a sequence of calls of these member
    functions, the constructors of [Call]; [Clear()] and [DecodeFrom()],
    which the header only declares, are not among them.  After a run that
    passes its assertions [GetNewFiles()], [GetNewTableFiles()] and
    [GetWalAdditions()] are what they were, followed by what the [AddFile],
    [AddTableFile] and [AddWal] calls of the run were given, in the order of
    the calls; no call of the run removes, reorders or rewrites an
    element. *)
Theorem X6_added_files_kept_in_call_order (cs : list Call)
    (e e' : VersionEdit) :
  run cs e = Some e' →
  GetNewFiles e' = GetNewFiles e ++ omap call_new_file cs ∧
  GetNewTableFiles e' = GetNewTableFiles e ++ omap call_new_table_file cs ∧
  GetWalAdditions e' = GetWalAdditions e ++ omap call_wal_addition cs.
Proof. exact (run_lists cs e e'). Qed.

(** X7. A table file that enters the edit through the overload of
    [AddTableFile] that takes its fields is unreferenced: no reference
    entries, empty reference maps, no children ranks.  If the edit had only
    such table files, a run that does not use the overload taking a
    [FileMetaData] leaves only such table files. *)
Theorem X7_table_files_start_unreferenced (cs : list Call)
    (e e' : VersionEdit) :
  Forall (λ c, is_AddTableFile_meta c = false) cs →
  Forall unreferenced_table_file (GetNewTableFiles e) →
  run cs e = Some e' →
  Forall unreferenced_table_file (GetNewTableFiles e').
Proof.
  intros Hcs He Hr.
  unfold GetNewTableFiles in *.
  rewrite (proj1 (proj2 (run_lists cs e e' Hr))).
  apply Forall_app. split; [exact He |].
  clear Hr He. induction Hcs as [| c cs Hc _ IH]; simpl; [constructor |].
  destruct c; simpl in *; try discriminate; try exact IH.
  constructor; [| exact IH]. repeat split.
Qed.
End Further_edits.

(** ** Sets, counts and WAL operations *)

Section Further_counts.
Context `{External}.
#[local] Set Warnings "-clear-no-such-hyp".

Lemma call_sets (c : Call) (e e' : VersionEdit) :
  call c e = Some e' →
  deleted_files_ e'
  = deleted_files_ e ∪ list_to_set (option_list (call_deleted_file c)) ∧
  new_guard_ e'
  = new_guard_ e ∪ list_to_set (option_list (call_new_guard c)) ∧
  deleted_guard_ e'
  = deleted_guard_ e ∪ list_to_set (option_list (call_deleted_guard c)).
Proof.
  intros Hr.
  destruct c; call_inv Hr; simpl;
    repeat match goal with
      | |- context [advance_last_sequence ?s ?x] =>
          destruct (advance_last_sequence_frame s x)
            as (_ & _ & _ & Hf1 & Hf2 & Hf3 & _);
          rewrite Hf1, Hf2, Hf3; clear Hf1 Hf2 Hf3
      end; simpl; clear; repeat split; set_solver.
Qed.

(** X8. Deleted files and guards are sets.  A run is a sequence of calls
    of the mutating member functions whose bodies the header gives, the
    constructors of [Call]; [Clear()] and [DecodeFrom()], which the header
    only declares, are not among them.  After a run that passes its
    assertions each of [GetDeletedFiles()], [GetNewGuards()] and
    [GetDeletedGuards()] is what it was together with the arguments of the
    [DeleteFile], [AddGuard] and [DeleteGuard] calls of the run, whatever
    their order and however often they are repeated; [DeleteGuard] takes
    nothing out of the new guards. *)
Theorem X8_deleted_files_and_guards_are_sets (cs : list Call)
    (e e' : VersionEdit) :
  run cs e = Some e' →
  GetDeletedFiles e'
  = GetDeletedFiles e ∪ list_to_set (omap call_deleted_file cs) ∧
  GetNewGuards e' = GetNewGuards e ∪ list_to_set (omap call_new_guard cs) ∧
  GetDeletedGuards e'
  = GetDeletedGuards e ∪ list_to_set (omap call_deleted_guard cs).
Proof.
  unfold GetDeletedFiles, GetNewGuards, GetDeletedGuards.
  revert e. induction cs as [| c cs IH]; intros e Hr; simpl in Hr.
  - injection Hr as <-. simpl. clear. repeat split; set_solver.
  - destruct (call c e) as [e1 |] eqn:Hc; [| discriminate]. simpl in Hr.
    destruct (IH e1 Hr) as (-> & -> & ->).
    destruct (call_sets c e e1 Hc) as (-> & -> & ->). simpl.
    destruct (call_deleted_file c), (call_new_guard c),
      (call_deleted_guard c); simpl; clear; repeat split; set_solver.
Qed.

(** X9. What a call of each mutating member function with a body in the
    header, a constructor of [Call], adds to [NumEntries()]: one for every
    [AddFile], [AddBlobFile], [AddBlobFileGarbage] and [AddWal]; one for a
    [DeleteFile] of a pair that is not yet deleted and nothing for a
    repeated one; the size of the vector for [SetBlobFileAdditions] and
    [SetBlobFileGarbages]; for [DeleteWalsBefore] the difference between the
    new and the old deletion being present; nothing for any other of these
    member functions.  [Clear()] and [DecodeFrom()], which the header only
    declares, are not among them. *)
Theorem X9_NumEntries_growth (c : Call) (e e' : VersionEdit) :
  call c e = Some e' → NumEntries e' = NumEntries e + NumEntries_growth c e.
Proof.
  intros Hr.
  destruct c; call_inv Hr;
    repeat match goal with
      | |- context [advance_last_sequence ?s ?x] =>
          destruct (advance_last_sequence_frame s x)
            as (_ & _ & _ & _ & _ & _ & _ & _ & Hf); rewrite Hf; clear Hf
      end;
    unfold NumEntries, NumEntries_growth; simpl;
    rewrite ?length_app; simpl; try lia.
  - rewrite size_insert_element. lia.
  - match goal with
    | Hb : bool_decide (_ = []) = true |- _ =>
        apply bool_decide_eq_true in Hb; rewrite Hb
    end. simpl. lia.
  - match goal with
    | Hb : bool_decide (_ = []) = true |- _ =>
        apply bool_decide_eq_true in Hb; rewrite Hb
    end. simpl. lia.
Qed.

Lemma NumEntries_parts (e : VersionEdit) :
  (NumEntries e = Z.of_nat (length (wal_additions_ e)) ↔
   no_entry_but_wal_additions e) ∧
  (stored_entries e = 0 ↔
   new_files_ e = [] ∧ deleted_files_ e = ∅ ∧
   blob_file_additions_ e = [] ∧ blob_file_garbages_ e = [] ∧
   wal_additions_ e = []).
Proof.
  unfold NumEntries, stored_entries, no_entry_but_wal_additions.
  pose proof (size_empty_iff (deleted_files_ e)) as Hs.
  rewrite <- !length_zero_iff_nil.
  assert (Hd : deleted_files_ e = ∅ ↔ size (deleted_files_ e) = 0%nat)
    by (rewrite Hs; split; [intros ->; reflexivity | apply leibniz_equiv]).
  rewrite !Hd.
  destruct (WalDeletion_IsEmpty (wal_deletion_ e)); simpl;
    split; split; intros Hx; repeat split; try lia;
    try (destruct Hx as (? & ? & ? & ? & ?); try discriminate; lia).
Qed.

Lemma IsWalManipulation_iff (e : VersionEdit) :
  IsWalManipulation e = true ↔ only_wal_entries e.
Proof.
  destruct (NumEntries_parts e) as [Ha Hs].
  unfold IsWalManipulation, only_wal_entries.
  unfold no_entry_but_wal_additions in Ha.
  rewrite andb_true_iff, orb_true_iff, Z.ltb_lt, !Z.eqb_eq, Ha.
  rewrite NumEntries_stored.
  pose proof (stored_entries_le e) as Hle.
  assert (Hw : wal_additions_ e = [] ↔
               Z.of_nat (length (wal_additions_ e)) = 0)
    by (rewrite <- length_zero_iff_nil; lia).
  assert (Hst : stored_entries e
                + bool_to_Z (negb (WalDeletion_IsEmpty (wal_deletion_ e)))
                = bool_to_Z (negb (WalDeletion_IsEmpty (wal_deletion_ e)))
                ↔ stored_entries e = 0) by lia.
  rewrite Hst, Hs.
  assert (Hsw : stored_entries e = 0 →
                Z.of_nat (length (wal_additions_ e)) = 0)
    by (unfold stored_entries; lia).
  assert (Hws : new_files_ e = [] → deleted_files_ e = ∅ →
                blob_file_additions_ e = [] → blob_file_garbages_ e = [] →
                stored_entries e = Z.of_nat (length (wal_additions_ e))).
  { intros H1 H2 H3 H4. unfold stored_entries.
    rewrite H1, H2, H3, H4, size_empty. simpl. lia. }
  destruct (WalDeletion_IsEmpty (wal_deletion_ e)) eqn:He; simpl in *.
  - split.
    + intros [Hpos [(H1 & H2 & H3 & H4 & _) | (H1 & H2 & H3 & H4 & H5)]].
      * repeat split; try assumption. left. split; [| reflexivity].
        intros Hn. apply Hw in Hn.
        rewrite (Hws H1 H2 H3 H4) in Hpos. lia.
      * exfalso. apply Hw in H5. rewrite (Hws H1 H2 H3 H4) in Hpos. lia.
    + intros (H1 & H2 & H3 & H4 & [[Hn _] | [_ Hf]]); [| discriminate].
      split; [| left; repeat split; assumption].
      rewrite (Hws H1 H2 H3 H4).
      destruct (wal_additions_ e); [contradiction | simpl; lia].
  - split.
    + intros [Hpos [(_ & _ & _ & _ & Hf) | (H1 & H2 & H3 & H4 & H5)]];
        [discriminate |].
      repeat split; try assumption. right. split; [assumption | reflexivity].
    + intros (H1 & H2 & H3 & H4 & [[_ Hf] | [Hn _]]); [discriminate |].
      split; [lia |]. right. repeat split; assumption.
Qed.

(** X10. [IsWalManipulation()] is true exactly when the files, the deleted
    files, the blob additions and the blob garbages are all empty and the
    edit has either WAL additions and no WAL deletion, or a WAL deletion
    and no WAL addition. *)
Theorem X10_IsWalManipulation_only_wal_entries (e : VersionEdit) :
  IsWalManipulation e = true ↔ only_wal_entries e.
Proof. exact (IsWalManipulation_iff e). Qed.
Lemma AddWal_is_Some (number : Z) (metadata : WalMetadata)
    (e : VersionEdit) :
  is_Some (AddWal number metadata e) ↔ no_entry_but_wal_additions e.
Proof.
  rewrite <- (proj1 (NumEntries_parts e)). unfold AddWal.
  destruct (Z.eqb_spec (NumEntries e)
              (Z.of_nat (length (wal_additions_ e)))) as [Heq | Hne];
    simpl; split; intros Hs; eauto; try contradiction.
  destruct Hs; discriminate.
Qed.

Lemma AddWal_keeps_precondition (number : Z) (metadata : WalMetadata)
    (e e' : VersionEdit) :
  AddWal number metadata e = Some e' →
  no_entry_but_wal_additions e' ∧ wal_additions_ e' ≠ [].
Proof.
  intros Hr.
  assert (Hp : no_entry_but_wal_additions e)
    by (apply (AddWal_is_Some number metadata); rewrite Hr; eauto).
  unfold AddWal in Hr. assert_inv. subst e'. split; [exact Hp |].
  simpl. destruct (wal_additions_ e); discriminate.
Qed.

(** X11. [AddWal] passes its assertion exactly when the edit has no file,
    no deleted file, no blob addition, no blob garbage and no WAL deletion:
    WAL additions are the only entries it tolerates.  On such an edit any
    run of [AddWal] calls passes, and after at least one call the edit is a
    WAL manipulation. *)
Theorem X11_AddWal_only_beside_WAL_additions :
  (∀ (number : Z) (metadata : WalMetadata) (e : VersionEdit),
      is_Some (AddWal number metadata e) ↔ no_entry_but_wal_additions e) ∧
  (∀ (cs : list Call) (e : VersionEdit),
      Forall (λ c, is_AddWal c = true) cs → no_entry_but_wal_additions e →
      ∃ e', run cs e = Some e' ∧ no_entry_but_wal_additions e' ∧
            (cs ≠ [] → IsWalManipulation e' = true)).
Proof.
  split; [exact AddWal_is_Some |].
  intros cs e Hcs. revert e.
  induction Hcs as [| c cs Hc _ IH]; intros e Hp.
  - exists e. split; [reflexivity |]. split; [exact Hp | congruence].
  - destruct c; try discriminate. simpl.
    destruct (proj2 (AddWal_is_Some number metadata e) Hp) as [e1 He1].
    rewrite He1. simpl.
    destruct (AddWal_keeps_precondition number metadata e e1 He1)
      as [Hp1 Hne1].
    destruct (IH e1 Hp1) as (e' & Hr & Hp' & _).
    exists e'. split; [exact Hr |]. split; [exact Hp' |]. intros _.
    apply IsWalManipulation_iff.
    destruct Hp' as (H1 & H2 & H3 & H4 & H5).
    repeat split; try assumption. left. split; [| exact H5].
    rewrite (proj2 (proj2 (run_lists cs e1 e' Hr))).
    destruct (wal_additions_ e1); [contradiction | discriminate].
Qed.

Lemma DeleteWalsBefore_is_Some (number : Z) (e : VersionEdit) :
  is_Some (DeleteWalsBefore number e) ↔
  (NumEntries e = 1 ↔ WalDeletion_IsEmpty (wal_deletion_ e) = false).
Proof.
  unfold DeleteWalsBefore.
  destruct (Z.eqb_spec (NumEntries e) 1) as [Hn | Hn],
    (WalDeletion_IsEmpty (wal_deletion_ e)); simpl; split; intros Hs.
  - destruct Hs; discriminate.
  - destruct Hs as [Hs _]. specialize (Hs Hn). discriminate.
  - split; intros; [reflexivity | exact Hn].
  - eauto.
  - split; intros; [contradiction | discriminate].
  - eauto.
  - destruct Hs; discriminate.
  - destruct Hs as [_ Hs]. specialize (Hs eq_refl). contradiction.
Qed.

(** X12. [DeleteWalsBefore] passes its assertion exactly when "the edit
    has one entry" and "a WAL deletion is stored" are both true or both
    false.  So it passes on an edit without files, deleted files, blob
    entries and WAL additions, stores the deletion of its argument and can
    be repeated there, the last number replacing the earlier one; it fails
    on an edit with exactly one entry that is not a WAL deletion. *)
Theorem X12_DeleteWalsBefore_assertion :
  (∀ (number : Z) (e : VersionEdit),
      is_Some (DeleteWalsBefore number e) ↔
      (NumEntries e = 1 ↔ WalDeletion_IsEmpty (wal_deletion_ e) = false)) ∧
  (∀ (number : Z) (e : VersionEdit),
      stored_entries e = 0 →
      ∃ e', DeleteWalsBefore number e = Some e' ∧
            GetWalDeletion e' = WalDeletion_of number ∧
            stored_entries e' = 0) ∧
  (∀ (number : Z) (e : VersionEdit),
      stored_entries e = 1 →
      WalDeletion_IsEmpty (wal_deletion_ e) = true →
      DeleteWalsBefore number e = None).
Proof.
  split; [exact DeleteWalsBefore_is_Some |]. split.
  - intros number e Hs.
    assert (Hok : is_Some (DeleteWalsBefore number e)).
    { apply DeleteWalsBefore_is_Some. rewrite NumEntries_stored, Hs.
      destruct (WalDeletion_IsEmpty (wal_deletion_ e)); simpl;
        split; intros; try reflexivity; discriminate. }
    destruct Hok as [e' He']. exists e'. split; [exact He' |].
    unfold DeleteWalsBefore in He'. assert_inv. subst e'.
    split; [reflexivity | exact Hs].
  - intros number e Hs He.
    apply DeleteWalsBefore_after_one_entry; [| exact He].
    rewrite NumEntries_stored, Hs, He. reflexivity.
Qed.

(** X13. [SetBlobFileAdditions] and [SetBlobFileGarbages] pass their
    assertion exactly when the vector they replace is empty, and then the
    accessor returns the vector given; after an [AddBlobFile]
    (respectively [AddBlobFileGarbage]) on the same edit they fail. *)
Theorem X13_blob_vectors_set_once :
  (∀ (v : list BlobFileAddition) (e : VersionEdit),
      (is_Some (SetBlobFileAdditions v e) ↔ GetBlobFileAdditions e = []) ∧
      (∀ e', SetBlobFileAdditions v e = Some e' →
             GetBlobFileAdditions e' = v) ∧
      (∀ a, SetBlobFileAdditions v (AddBlobFile_addition a e) = None)) ∧
  (∀ (v : list BlobFileGarbage) (e : VersionEdit),
      (is_Some (SetBlobFileGarbages v e) ↔ GetBlobFileGarbages e = []) ∧
      (∀ e', SetBlobFileGarbages v e = Some e' →
             GetBlobFileGarbages e' = v) ∧
      (∀ g, SetBlobFileGarbages v (AddBlobFileGarbage_garbage g e) = None)).
Proof.
  split; intros v e; (split; [| split]).
  - unfold SetBlobFileAdditions, GetBlobFileAdditions.
    destruct (blob_file_additions_ e); simpl; split; intros Hs; eauto;
      try discriminate. destruct Hs; discriminate.
  - intros e' Hr. unfold SetBlobFileAdditions in Hr. assert_inv.
    subst e'. reflexivity.
  - intros a. unfold SetBlobFileAdditions, AddBlobFile_addition. simpl.
    destruct (blob_file_additions_ e); reflexivity.
  - unfold SetBlobFileGarbages, GetBlobFileGarbages.
    destruct (blob_file_garbages_ e); simpl; split; intros Hs; eauto;
      try discriminate. destruct Hs; discriminate.
  - intros e' Hr. unfold SetBlobFileGarbages in Hr. assert_inv.
    subst e'. reflexivity.
  - intros g. unfold SetBlobFileGarbages, AddBlobFileGarbage_garbage. simpl.
    destruct (blob_file_garbages_ e); reflexivity.
Qed.

(** X14. The seven watermarks with a has-flag that only their setter
    writes (database id, comparator name, log number, previous log number,
    next file number, maximal column family, minimal log number to keep):
    a setter raises its flag and stores its argument, be it zero or empty,
    and a call of any other mutating member function with a body in the
    header, a constructor of [Call], leaves all seven flags and values as
    they were; none of these calls lowers a flag.  [Clear()] and
    [DecodeFrom()], which the header only declares, are not among them. *)
Theorem X14_watermarks_written_by_their_setter (c : Call)
    (e e' : VersionEdit) :
  call c e = Some e' → watermarks e' = call_watermarks c e.
Proof.
  intros Hr.
  destruct c; call_inv Hr;
    repeat match goal with
      | |- context [advance_last_sequence ?s ?x] =>
          destruct (advance_last_sequence_frame s x)
            as (_ & _ & _ & _ & _ & _ & _ & Hf & _); rewrite Hf; clear Hf
      end; reflexivity.
Qed.

Lemma call_full_history_ts_low_spec (c : Call) (e e' : VersionEdit) :
  call c e = Some e' →
  GetFullHistoryTsLow e'
  = from_option Some (GetFullHistoryTsLow e) (call_full_history_ts_low c).
Proof.
  intros Hr. unfold GetFullHistoryTsLow, HasFullHistoryTsLow.
  destruct c; call_inv Hr;
    repeat match goal with
      | |- context [advance_last_sequence ?s ?x] =>
          destruct (advance_last_sequence_frame s x)
            as (_ & _ & _ & _ & _ & _ & Hf & _); rewrite Hf; clear Hf
      end; try reflexivity.
  simpl. match goal with Hb : negb _ = true |- _ => rewrite Hb end.
  reflexivity.
Qed.

(** X15. [SetFullHistoryTsLow] passes its assertion exactly for a
    non-empty string.  [GetFullHistoryTsLow] fails its assertion on a new
    edit; after a run of calls of the mutating member functions whose
    bodies the header gives, the constructors of [Call], it returns the
    argument of the last [SetFullHistoryTsLow] of the run, and what it
    returned before the run (or its failure) if the run has none.
    [Clear()] and [DecodeFrom()], which the header only declares, are not
    part of a run. *)
Theorem X15_full_history_ts_low_round_trip :
  (∀ (s : string) (e : VersionEdit),
      is_Some (SetFullHistoryTsLow s e) ↔ s ≠ EmptyString) ∧
  GetFullHistoryTsLow VersionEdit0 = None ∧
  (∀ (cs : list Call) (e e' : VersionEdit),
      run cs e = Some e' →
      GetFullHistoryTsLow e'
      = from_option Some (GetFullHistoryTsLow e)
          (last (omap call_full_history_ts_low cs))).
Proof.
  split; [| split; [reflexivity |]].
  - intros s e. unfold SetFullHistoryTsLow.
    destruct (String.eqb_spec s EmptyString) as [-> | Hne]; simpl;
      split; intros Hs; eauto; try contradiction.
    destruct Hs; discriminate.
  - intros cs. induction cs as [| c cs IH]; intros e e' Hr; simpl in Hr.
    + injection Hr as <-. reflexivity.
    + destruct (call c e) as [e1 |] eqn:Hc; [| discriminate]. simpl in Hr.
      rewrite (IH e1 e' Hr), (call_full_history_ts_low_spec c e e1 Hc).
      simpl. destruct (call_full_history_ts_low c) as [s |]; simpl;
        [| reflexivity].
      rewrite last_cons. destruct (last _); reflexivity.
Qed.
End Further_counts.

(** ** More on the boundaries and the times of a file *)

Section Further_boundaries.
Context `{External}.

Lemma pick_smallest_idempotent (icmp : InternalKey → InternalKey → Z)
    (current start : InternalKey) :
  pick_smallest icmp (pick_smallest icmp current start) start
  = pick_smallest icmp current start.
Proof.
  unfold pick_smallest.
  destruct ((InternalKey_size current =? 0) || (icmp start current <? 0))
    eqn:Hc.
  - match goal with |- context [if ?b then _ else _] => destruct b end;
      reflexivity.
  - rewrite Hc. reflexivity.
Qed.

Lemma pick_largest_idempotent (icmp : InternalKey → InternalKey → Z)
    (current end_ : InternalKey) :
  pick_largest icmp (pick_largest icmp current end_) end_
  = pick_largest icmp current end_.
Proof.
  unfold pick_largest.
  destruct ((InternalKey_size current =? 0) || (icmp current end_ <? 0))
    eqn:Hc.
  - match goal with |- context [if ?b then _ else _] => destruct b end;
      reflexivity.
  - rewrite Hc. reflexivity.
Qed.

(** X16. Adding the same range twice is adding it once, for every
    comparator and every key, empty keys included. *)
Theorem X16_same_range_twice (start end_ : InternalKey) (seq : Z)
    (icmp : InternalKey → InternalKey → Z) (f : FileMetaData) :
  UpdateBoundariesForRange start end_ seq icmp
    (UpdateBoundariesForRange start end_ seq icmp f)
  = UpdateBoundariesForRange start end_ seq icmp f.
Proof.
  rewrite !UpdateBoundariesForRange_with_boundaries.
  rewrite with_boundaries_twice.
  cbn [with_boundaries smallest largest fd set_fd set_largest set_smallest
         smallest_seqno largest_seqno set_largest_seqno set_smallest_seqno].
  rewrite pick_smallest_idempotent, pick_largest_idempotent.
  rewrite <- Z.min_assoc, Z.min_id, <- Z.max_assoc, Z.max_id. reflexivity.
Qed.

Section Strict_order.
Variable icmp : InternalKey → InternalKey → Z.
Hypothesis icmp_order : total_order icmp.

Lemma update_holds_range (r : Range) (f : FileMetaData) :
  range_present r →
  holds_range icmp (UpdateBoundariesForRange r.1.1 r.1.2 r.2 icmp f) r.
Proof.
  intros [Hs He]. destruct icmp_order as [Hirr _ _].
  rewrite UpdateBoundariesForRange_with_boundaries.
  unfold holds_range, covers, not_above.
  cbn [with_boundaries smallest largest fd set_fd set_largest set_smallest
         smallest_seqno largest_seqno set_largest_seqno set_smallest_seqno].
  split; [| split; [apply pick_smallest_present, Hs
                   | apply pick_largest_present, He]].
  unfold pick_smallest, pick_largest, key_present in *.
  split; [| split; [| lia]].
  - destruct (Z.eqb_spec (InternalKey_size (smallest f)) 0); simpl;
      [apply Hirr, Hs |].
    destruct (Z.ltb_spec (icmp r.1.1 (smallest f)) 0);
      [apply Hirr, Hs | lia].
  - destruct (Z.eqb_spec (InternalKey_size (largest f)) 0); simpl;
      [apply Hirr, He |].
    destruct (Z.ltb_spec (icmp (largest f) r.1.2) 0);
      [apply Hirr, He | lia].
Qed.

Lemma update_keeps_range (r r' : Range) (f : FileMetaData) :
  range_present r → range_present r' → holds_range icmp f r →
  holds_range icmp (UpdateBoundariesForRange r'.1.1 r'.1.2 r'.2 icmp f) r.
Proof.
  intros [Hs He] [Hs' He'] ((Hcs & Hce & Hq) & Hps & Hpl).
  destruct icmp_order as [_ Htr _].
  rewrite UpdateBoundariesForRange_with_boundaries.
  unfold holds_range, covers, not_above in *.
  cbn [with_boundaries smallest largest fd set_fd set_largest set_smallest
         smallest_seqno largest_seqno set_largest_seqno set_smallest_seqno].
  split; [| split; [apply pick_smallest_present, Hs'
                   | apply pick_largest_present, He']].
  unfold pick_smallest, pick_largest, key_present in *.
  split; [| split; [| lia]].
  - destruct (Z.eqb_spec (InternalKey_size (smallest f)) 0);
      [contradiction |]. simpl.
    destruct (Z.ltb_spec (icmp r'.1.1 (smallest f)) 0) as [Hlt |];
      [| exact Hcs].
    intros Hx. apply Hcs.
    exact (Htr r.1.1 r'.1.1 (smallest f) Hs Hs' Hps Hx Hlt).
  - destruct (Z.eqb_spec (InternalKey_size (largest f)) 0);
      [contradiction |]. simpl.
    destruct (Z.ltb_spec (icmp (largest f) r'.1.2) 0) as [Hlt |];
      [| exact Hce].
    intros Hx. apply Hce.
    exact (Htr (largest f) r'.1.2 r.1.2 Hpl He' He Hlt Hx).
Qed.

Lemma apply_ranges_keeps_range (rs : list Range) (r : Range)
    (f : FileMetaData) :
  Forall range_present rs → range_present r → holds_range icmp f r →
  holds_range icmp (apply_ranges icmp rs f) r.
Proof.
  intros Hrs Hr. revert f.
  induction Hrs as [| r' rs Hr' _ IH]; intros f Hf; [exact Hf |].
  apply (IH (UpdateBoundariesForRange r'.1.1 r'.1.2 r'.2 icmp f)).
  apply update_keeps_range; assumption.
Qed.

Lemma apply_ranges_holds (rs : list Range) (f : FileMetaData) :
  Forall range_present rs →
  Forall (holds_range icmp (apply_ranges icmp rs f)) rs.
Proof.
  intros Hrs. revert f.
  induction Hrs as [| r rs Hr Hrs IH]; intros f; [constructor |].
  constructor.
  - apply (apply_ranges_keeps_range rs r); [exact Hrs | exact Hr |].
    apply update_holds_range, Hr.
  - apply (IH (UpdateBoundariesForRange r.1.1 r.1.2 r.2 icmp f)).
Qed.
End Strict_order.

Lemma apply_ranges_keys (icmp : InternalKey → InternalKey → Z)
    (rs : list Range) (f : FileMetaData) :
  smallest (apply_ranges icmp rs f) ∈ smallest f :: map (λ r, r.1.1) rs ∧
  largest (apply_ranges icmp rs f) ∈ largest f :: map (λ r, r.1.2) rs.
Proof.
  revert f. induction rs as [| r rs IH]; intros f.
  - split; left.
  - destruct (IH (UpdateBoundariesForRange r.1.1 r.1.2 r.2 icmp f))
      as [Hs Hl].
    change (apply_ranges icmp (r :: rs) f)
      with (apply_ranges icmp rs
              (UpdateBoundariesForRange r.1.1 r.1.2 r.2 icmp f)).
    set (g := UpdateBoundariesForRange r.1.1 r.1.2 r.2 icmp f) in *.
    assert (Hg : (smallest g = smallest f ∨ smallest g = r.1.1) ∧
                 (largest g = largest f ∨ largest g = r.1.2)).
    { unfold g. rewrite UpdateBoundariesForRange_with_boundaries.
      cbn [with_boundaries smallest largest fd set_fd set_largest
             set_smallest].
      unfold pick_smallest, pick_largest.
      split; match goal with |- context [if ?b then _ else _] =>
                 destruct b end; auto. }
    destruct Hg as [Hgs Hgl]. clearbody g. simpl map.
    rewrite !elem_of_cons in *.
    split.
    + destruct Hs as [-> | Hs]; [destruct Hgs; auto | auto].
    + destruct Hl as [-> | Hl]; [destruct Hgl; auto | auto].
Qed.

(** X17. After the ranges of a list are added to a file, in any state
    and in the order of the list, the boundaries of the file contain every
    one of them: no start key is below [smallest], no end key is above
    [largest] and every sequence number lies between [smallest_seqno] and
    [largest_seqno]; and the two boundary keys are keys that were given,
    or the ones the file had.  The comparator is a total order and the keys
    of the ranges are not empty. *)
Theorem X17_boundaries_contain_every_range
    (icmp : InternalKey → InternalKey → Z) (rs : list Range)
    (f : FileMetaData) :
  total_order icmp → Forall range_present rs →
  Forall (covers icmp (apply_ranges icmp rs f)) rs ∧
  smallest (apply_ranges icmp rs f) ∈ smallest f :: map (λ r, r.1.1) rs ∧
  largest (apply_ranges icmp rs f) ∈ largest f :: map (λ r, r.1.2) rs.
Proof.
  intros Ho Hrs. split; [| apply apply_ranges_keys].
  eapply Forall_impl; [apply (apply_ranges_holds icmp Ho rs f Hrs) |].
  intros r [Hc _]. exact Hc.
Qed.

(** X18. The empty range of a default-constructed file is neutral: the
    first range added to it becomes its boundaries exactly, and both
    sequence numbers become the one of the range.  The default key is
    empty and the sequence number is at most [kMaxSequenceNumber]. *)
Theorem X18_first_range_on_default_file (start end_ : InternalKey) (seq : Z)
    (icmp : InternalKey → InternalKey → Z) :
  InternalKey_size InternalKey_default = 0 →
  0 ≤ seq ≤ kMaxSequenceNumber →
  let f := UpdateBoundariesForRange start end_ seq icmp FileMetaData0 in
  smallest f = start ∧ largest f = end_ ∧
  smallest_seqno (fd f) = seq ∧ largest_seqno (fd f) = seq.
Proof.
  intros Hd Hq f. subst f.
  rewrite UpdateBoundariesForRange_with_boundaries.
  cbn [with_boundaries smallest largest fd set_fd set_largest set_smallest
         smallest_seqno largest_seqno set_largest_seqno set_smallest_seqno
         FileMetaData0 FileDescriptor0 FileDescriptor3 FileDescriptor8].
  unfold pick_smallest, pick_largest. rewrite Hd. simpl.
  repeat split; lia.
Qed.

(** X19. A file that no table reader is attached to, as every constructor
    of [FileMetaData] leaves it, reports exactly the two times it was
    constructed with, zero standing for "unknown"; a stored time that is
    not zero is returned whatever the table properties say, and a zero one
    gives way to the time of the table properties when a reader with
    properties is attached. *)
Theorem X19_times_of_a_file
    (GetTableProperties : Z → option TableProperties) :
  (∀ f : FileMetaData,
      table_reader (fd f) = None →
      TryGetOldestAncesterTime GetTableProperties f = oldest_ancester_time f ∧
      TryGetFileCreationTime GetTableProperties f = file_creation_time f) ∧
  (∀ (file path_id : Z) (ranks : list PositionKeyList)
      (total reference merge : Z) (sub father : gmap Z Z)
      (size sub_size : Z) (sk lk : InternalKey) (ss ls : Z) (marked : bool)
      (t : Temperature) (blob ancester_time creation_time : Z)
      (ck cf mi ma : string) (u : UniqueId64x2),
      let f := FileMetaData24 file path_id ranks total reference merge sub
                 father size sub_size sk lk ss ls marked t blob
                 ancester_time creation_time ck cf mi ma u in
      TryGetOldestAncesterTime GetTableProperties f = ancester_time ∧
      TryGetFileCreationTime GetTableProperties f = creation_time) ∧
  (∀ f : FileMetaData,
      (oldest_ancester_time f ≠ 0 →
       TryGetOldestAncesterTime GetTableProperties f
       = oldest_ancester_time f) ∧
      (file_creation_time f ≠ 0 →
       TryGetFileCreationTime GetTableProperties f = file_creation_time f)) ∧
  (∀ (f : FileMetaData) (reader : Z) (properties : TableProperties),
      table_reader (fd f) = Some reader →
      GetTableProperties reader = Some properties →
      (oldest_ancester_time f = 0 →
       TryGetOldestAncesterTime GetTableProperties f
       = tp_creation_time properties) ∧
      (file_creation_time f = 0 →
       TryGetFileCreationTime GetTableProperties f
       = tp_file_creation_time properties)).
Proof.
  assert (Hnone : ∀ f : FileMetaData,
             table_reader (fd f) = None →
             TryGetOldestAncesterTime GetTableProperties f
             = oldest_ancester_time f ∧
             TryGetFileCreationTime GetTableProperties f
             = file_creation_time f).
  { unfold TryGetOldestAncesterTime, TryGetFileCreationTime,
      kUnknownOldestAncesterTime, kUnknownFileCreationTime.
    intros f ->.
    destruct (Z.eqb_spec (oldest_ancester_time f) 0),
      (Z.eqb_spec (file_creation_time f) 0); simpl; split; congruence. }
  split; [exact Hnone |]. split; [intros; apply Hnone; reflexivity |].
  unfold TryGetOldestAncesterTime, TryGetFileCreationTime,
    kUnknownOldestAncesterTime, kUnknownFileCreationTime.
  split.
  - intros f. split; intros Hne;
      [destruct (Z.eqb_spec (oldest_ancester_time f) 0)
      | destruct (Z.eqb_spec (file_creation_time f) 0)];
      simpl; congruence.
  - intros f reader properties -> ->. split; intros ->; reflexivity.
Qed.
End Further_boundaries.

(** ** More on the compaction cursors *)

Section Further_cursors.
Context `{External}.

Lemma indexed_from_levels_NoDup (v : list InternalKey) (i : Z) :
  NoDup (indexed_from i v).*1.
Proof.
  revert i. induction v as [| k v IH]; intros i; simpl; constructor.
  - intros Hin. apply list_elem_of_fmap in Hin.
    destruct Hin as ([j k'] & Hj & Hin). simpl in Hj. subst j.
    apply elem_of_indexed_from in Hin. lia.
  - apply IH.
Qed.

Lemma filter_levels_NoDup (P : Z * InternalKey → Prop)
    `{!∀ p, Decision (P p)} (l : list (Z * InternalKey)) :
  NoDup l.*1 → NoDup (filter P l).*1.
Proof.
  induction l as [| p l IH]; intros Hn; [constructor |].
  inversion Hn as [| ? ? Hnotin Hn']; subst.
  rewrite filter_cons. destruct (decide (P p)); [| apply IH, Hn'].
  simpl. constructor; [| apply IH, Hn'].
  intros Hin. apply Hnotin.
  apply list_elem_of_fmap in Hin. destruct Hin as (q & Hq & Hin).
  apply list_elem_of_filter in Hin. apply list_elem_of_fmap.
  exists q. tauto.
Qed.

(** X20. [SetCompactCursors] starts from an empty list: what it leaves
    does not depend on the cursors the edit had, those added by
    [AddCompactCursor] included.  It leaves at most one cursor for a level,
    and every level it leaves is an index of the vector it was given (a
    vector shorter than [2 ^ 31]). *)
Theorem X20_SetCompactCursors_starts_afresh (v : list InternalKey)
    (e : VersionEdit) :
  Z.of_nat (length v) < 2 ^ 31 →
  (∀ e0 : VersionEdit,
      GetCompactCursors (SetCompactCursors v e0)
      = GetCompactCursors (SetCompactCursors v e)) ∧
  NoDup (GetCompactCursors (SetCompactCursors v e)).*1 ∧
  Forall (λ p, 0 ≤ p.1 < Z.of_nat (length v))
    (GetCompactCursors (SetCompactCursors v e)).
Proof.
  intros Hn. split; [reflexivity |].
  rewrite SetCompactCursors_spec by exact Hn. split.
  - apply filter_levels_NoDup, indexed_from_levels_NoDup.
  - apply Forall_forall. intros [i k] Hin.
    apply list_elem_of_filter in Hin. destruct Hin as [_ Hin].
    apply elem_of_indexed_from in Hin. destruct Hin as [Hi Hk].
    apply lookup_lt_Some in Hk. simpl. lia.
Qed.
End Further_cursors.

(** ** The further properties on inputs *)

Section Further_samples.
#[local] Existing Instance sample_External.

Lemma X5_overloads_agree_witness :
  call_new_file
    (CAddFile 1 13 0 4096 "a"%string "m"%string 2 7 false 0 0 0 0
       EmptyString EmptyString EmptyString EmptyString (0, 0))
  = Some (1, sample_file 13 2 7) ∧
  call
    (CAddFile 1 13 0 4096 "a"%string "m"%string 2 7 false 0 0 0 0
       EmptyString EmptyString EmptyString EmptyString (0, 0)) VersionEdit0
  = AddFile_meta 1 (sample_file 13 2 7) VersionEdit0.
Proof.
  assert (Hc : call_new_file
                 (CAddFile 1 13 0 4096 "a"%string "m"%string 2 7 false 0 0
                    0 0 EmptyString EmptyString EmptyString EmptyString
                    (0, 0))
               = Some (1, sample_file 13 2 7)) by reflexivity.
  split; [exact Hc |].
  exact (proj1 X5_overloads_agree _ VersionEdit0 1 (sample_file 13 2 7) Hc).
Defined.

Lemma X6_added_files_kept_in_call_order_witness :
  ∃ e', run sample_adds VersionEdit0 = Some e' ∧
        GetNewFiles e' = [(0, sample_file 11 3 5); (1, sample_file 13 2 7)] ∧
        GetNewTableFiles e' = [sample_file 12 8 9].
Proof.
  eexists. split; [reflexivity |].
  destruct (X6_added_files_kept_in_call_order sample_adds VersionEdit0 _
              eq_refl) as (H1 & H2 & _).
  split; [exact H1 | exact H2].
Defined.

Lemma X7_table_files_start_unreferenced_witness :
  Forall (λ c, is_AddTableFile_meta c = false)
    [CAddTableFile 12 0 100 4096 "a"%string "m"%string 8 9 false 0 0 0 0
       EmptyString EmptyString EmptyString EmptyString (0, 0);
     CAddGuard 1 "g"%string] ∧
  Forall unreferenced_table_file (GetNewTableFiles VersionEdit0) ∧
  ∃ e', run
          [CAddTableFile 12 0 100 4096 "a"%string "m"%string 8 9 false 0 0
             0 0 EmptyString EmptyString EmptyString EmptyString (0, 0);
           CAddGuard 1 "g"%string] VersionEdit0 = Some e' ∧
        Forall unreferenced_table_file (GetNewTableFiles e').
Proof.
  assert (Hc : Forall (λ c, is_AddTableFile_meta c = false)
                 [CAddTableFile 12 0 100 4096 "a"%string "m"%string 8 9
                    false 0 0 0 0 EmptyString EmptyString EmptyString
                    EmptyString (0, 0);
                  CAddGuard 1 "g"%string])
    by (repeat constructor).
  assert (H0 : Forall unreferenced_table_file (GetNewTableFiles VersionEdit0))
    by constructor.
  split; [exact Hc |]. split; [exact H0 |].
  eexists. split; [reflexivity |].
  exact (X7_table_files_start_unreferenced _ VersionEdit0 _ Hc H0 eq_refl).
Defined.

Lemma X8_deleted_files_and_guards_are_sets_witness :
  ∃ e', run [CDeleteFile 0 7; CAddGuard 1 "g"%string; CDeleteFile 0 7;
             CDeleteGuard 1 "g"%string] VersionEdit0 = Some e' ∧
        GetDeletedFiles e'
        = GetDeletedFiles VersionEdit0 ∪ list_to_set [(0, 7); (0, 7)] ∧
        GetNewGuards e'
        = GetNewGuards VersionEdit0 ∪ list_to_set [(1, "g"%string)].
Proof.
  eexists. split; [reflexivity |].
  destruct (X8_deleted_files_and_guards_are_sets
              [CDeleteFile 0 7; CAddGuard 1 "g"%string; CDeleteFile 0 7;
               CDeleteGuard 1 "g"%string] VersionEdit0 _ eq_refl)
    as (H1 & H2 & _).
  split; [exact H1 | exact H2].
Defined.

Lemma X9_NumEntries_growth_witness :
  ∃ e', call (CDeleteFile 0 7) (DeleteFile 0 7 VersionEdit0) = Some e' ∧
        NumEntries e'
        = NumEntries (DeleteFile 0 7 VersionEdit0)
          + NumEntries_growth (CDeleteFile 0 7) (DeleteFile 0 7 VersionEdit0).
Proof.
  eexists. split; [reflexivity |].
  exact (X9_NumEntries_growth (CDeleteFile 0 7) (DeleteFile 0 7 VersionEdit0)
           _ eq_refl).
Defined.

Example DeleteFile_twice_counts_once :
  NumEntries (DeleteFile 0 7 (DeleteFile 0 7 VersionEdit0)) = 1 ∧
  NumEntries (DeleteFile 0 8 (DeleteFile 0 7 VersionEdit0)) = 2.
Proof. split; vm_compute; reflexivity. Qed.

Lemma X10_IsWalManipulation_only_wal_entries_witness :
  only_wal_entries (set_wal_deletion_ (WalDeletion_of 3) VersionEdit0) ∧
  IsWalManipulation (set_wal_deletion_ (WalDeletion_of 3) VersionEdit0)
  = true.
Proof.
  assert (Ho : only_wal_entries
                 (set_wal_deletion_ (WalDeletion_of 3) VersionEdit0)).
  { repeat split. right. split; reflexivity. }
  split; [exact Ho |].
  exact (proj2 (X10_IsWalManipulation_only_wal_entries _) Ho).
Defined.

Lemma X11_AddWal_only_beside_WAL_additions_witness :
  Forall (λ c, is_AddWal c = true)
    [CAddWal 1 WalMetadata_default; CAddWal 2 WalMetadata_default] ∧
  no_entry_but_wal_additions VersionEdit0 ∧
  ∃ e', run [CAddWal 1 WalMetadata_default; CAddWal 2 WalMetadata_default]
          VersionEdit0 = Some e' ∧
        IsWalManipulation e' = true.
Proof.
  assert (Hc : Forall (λ c, is_AddWal c = true)
                 [CAddWal 1 WalMetadata_default;
                  CAddWal 2 WalMetadata_default])
    by (repeat constructor).
  assert (H0 : no_entry_but_wal_additions VersionEdit0)
    by (repeat split).
  split; [exact Hc |]. split; [exact H0 |].
  destruct (proj2 X11_AddWal_only_beside_WAL_additions _ VersionEdit0 Hc H0)
    as (e' & Hr & _ & Hw).
  exists e'. split; [exact Hr |]. apply Hw. discriminate.
Defined.

Lemma X12_DeleteWalsBefore_assertion_witness :
  stored_entries VersionEdit0 = 0 ∧
  ∃ e', DeleteWalsBefore 3 VersionEdit0 = Some e' ∧
        GetWalDeletion e' = WalDeletion_of 3.
Proof.
  assert (H0 : stored_entries VersionEdit0 = 0)
    by (vm_compute; reflexivity).
  split; [exact H0 |].
  destruct (proj1 (proj2 X12_DeleteWalsBefore_assertion) 3 VersionEdit0 H0)
    as (e' & Hr & Hd & _).
  exists e'. split; [exact Hr | exact Hd].
Defined.

Lemma X13_blob_vectors_set_once_witness :
  GetBlobFileAdditions VersionEdit0 = [] ∧
  is_Some
    (SetBlobFileAdditions
       [Build_BlobFileAddition 5 1 100 "crc"%string "v"%string]
       VersionEdit0).
Proof.
  split; [reflexivity |].
  exact (proj2 (proj1 (proj1 X13_blob_vectors_set_once
                         [Build_BlobFileAddition 5 1 100 "crc"%string
                            "v"%string] VersionEdit0)) eq_refl).
Defined.

Lemma X14_watermarks_written_by_their_setter_witness :
  ∃ e', call (CSetLogNumber 0) VersionEdit0 = Some e' ∧
        watermarks e' = call_watermarks (CSetLogNumber 0) VersionEdit0.
Proof.
  eexists. split; [reflexivity |].
  exact (X14_watermarks_written_by_their_setter (CSetLogNumber 0)
           VersionEdit0 _ eq_refl).
Defined.

Example SetLogNumber_zero_is_set :
  HasLogNumber VersionEdit0 = false ∧ GetLogNumber VersionEdit0 = 0 ∧
  HasLogNumber (SetLogNumber 0 VersionEdit0) = true ∧
  GetLogNumber (SetLogNumber 0 VersionEdit0) = 0 ∧
  HasPrevLogNumber (SetLogNumber 0 VersionEdit0) = false.
Proof. repeat split. Qed.

Lemma X15_full_history_ts_low_round_trip_witness :
  ∃ e', run [CSetFullHistoryTsLow "a"%string; CAddGuard 1 "g"%string;
             CSetFullHistoryTsLow "b"%string] VersionEdit0 = Some e' ∧
        GetFullHistoryTsLow e' = Some "b"%string.
Proof.
  eexists. split; [reflexivity |].
  exact (proj2 (proj2 X15_full_history_ts_low_round_trip)
           [CSetFullHistoryTsLow "a"%string; CAddGuard 1 "g"%string;
            CSetFullHistoryTsLow "b"%string] VersionEdit0 _ eq_refl).
Defined.

Lemma X17_boundaries_contain_every_range_witness :
  total_order bytewise_compare ∧ Forall range_present sample_ranges ∧
  Forall (covers bytewise_compare
            (apply_ranges bytewise_compare sample_ranges FileMetaData0))
    sample_ranges.
Proof.
  assert (Hr : Forall range_present sample_ranges)
    by (repeat constructor; discriminate).
  split; [exact bytewise_compare_total_order |]. split; [exact Hr |].
  exact (proj1 (X17_boundaries_contain_every_range bytewise_compare
                  sample_ranges FileMetaData0 bytewise_compare_total_order
                  Hr)).
Defined.

Lemma X18_first_range_on_default_file_witness :
  InternalKey_size InternalKey_default = 0 ∧
  0 ≤ 5 ≤ kMaxSequenceNumber ∧
  smallest (UpdateBoundariesForRange "b"%string "d"%string 5
              bytewise_compare FileMetaData0) = "b"%string ∧
  smallest_seqno (fd (UpdateBoundariesForRange "b"%string "d"%string 5
                        bytewise_compare FileMetaData0)) = 5.
Proof.
  assert (Hd : InternalKey_size InternalKey_default = 0) by reflexivity.
  assert (Hq : 0 ≤ 5 ≤ kMaxSequenceNumber) by (vm_compute; split; congruence).
  split; [exact Hd |]. split; [exact Hq |].
  destruct (@X18_first_range_on_default_file sample_External "b"%string
              "d"%string 5 bytewise_compare Hd Hq) as (Hs & _ & Hn & _).
  split; [exact Hs | exact Hn].
Defined.

Lemma X19_times_of_a_file_witness :
  table_reader (fd (sample_file 11 3 5)) = None ∧
  TryGetOldestAncesterTime (λ _, None) (sample_file 11 3 5)
  = oldest_ancester_time (sample_file 11 3 5).
Proof.
  split; [reflexivity |].
  exact (proj1 (proj1 (X19_times_of_a_file (λ _, None)) (sample_file 11 3 5)
                  eq_refl)).
Defined.
Lemma X20_SetCompactCursors_starts_afresh_witness :
  Z.of_nat (length sample_cursors) < 2 ^ 31 ∧
  NoDup
    (GetCompactCursors
       (SetCompactCursors sample_cursors
          (AddCompactCursor 0 "old"%string VersionEdit0))).*1.
Proof.
  assert (Hn : Z.of_nat (length sample_cursors) < 2 ^ 31) by (simpl; lia).
  split; [exact Hn |].
  exact (proj1 (proj2 (X20_SetCompactCursors_starts_afresh sample_cursors
                         (AddCompactCursor 0 "old"%string VersionEdit0)
                         Hn))).
Defined.

Example SetCompactCursors_after_AddCompactCursor :
  GetCompactCursors
    (SetCompactCursors sample_cursors
       (AddCompactCursor 0 "old"%string VersionEdit0))
  = [(0, "k0"%string); (2, "k2"%string)].
Proof. reflexivity. Qed.
End Further_samples.
